(** * Wall game: room lifecycle, scoring and restart consensus

    A shallow embedding of the NestJS game server
    (game.gateway.ts, game.service.ts, room.service.ts,
    utils/score-calculator.service.ts, config/game.config.ts).

    Conventions of the embedding:
    - JavaScript numbers that the server manipulates are integers
      (scores, heights, rounds, durations); they are modelled as [Z].
    - [Map<string, Player>] is iterated by the server (forEach, values()),
      so its insertion order is observable: it is an association list
      with the update-in-place / append-at-end discipline of a JS Map.
    - The maps of the registry and the connection tracker are only looked
      up, inserted into and deleted from: they are [gmap string _].
    - [Set<string>] of restart consents is a [gset string].
    - Objects are mutated in place by the server.  A room is fetched from
      the registry, transformed, and written back under the key it was
      fetched from, which is what aliasing of the single room object means.
    - Everything the server sends is collected in a list of [Emit]s, in the
      order of the calls.
    - [Math.random], [uuidv4], [new Date] and the firing of timers are
      inputs supplied by the environment.
    - Strings are held in UTF-8; [trim] works on their code points, and
      [toUpperCase] is a parameter of the validator that uses it. *)

From stdpp Require Import gmap strings list fin_maps sorting.
From Stdlib Require Import ZArith Ascii Permutation.

Local Open Scope string_scope.
Local Open Scope Z_scope.

#[local] Set Warnings "-clear-no-such-hyp".

(** ** JavaScript [Map] with observable insertion order *)

Module JsMap.
Section Ops.
Context {V : Type}.

Fixpoint get (k : string) (m : list (string * V)) : option V :=
  match m with
  | [] => None
  | (k', v) :: m' => if String.eqb k k' then Some v else get k m'
  end.

(** [set] keeps the position of an existing key and appends a new one. *)
Fixpoint set (k : string) (v : V) (m : list (string * V)) : list (string * V) :=
  match m with
  | [] => [(k, v)]
  | (k', v') :: m' =>
      if String.eqb k k' then (k', v) :: m' else (k', v') :: set k v m'
  end.

Fixpoint delete (k : string) (m : list (string * V)) : list (string * V) :=
  match m with
  | [] => []
  | (k', v') :: m' =>
      if String.eqb k k' then m' else (k', v') :: delete k m'
  end.

Definition values (m : list (string * V)) : list V := map snd m.

Definition keys (m : list (string * V)) : list string := map fst m.

Definition size (m : list (string * V)) : Z := Z.of_nat (length m).

(** [m.forEach(v => mutate v)]: every value is updated where it stands. *)
Definition forEach (f : V -> V) (m : list (string * V)) : list (string * V) :=
  map (fun kv => (fst kv, f (snd kv))) m.
End Ops.
End JsMap.

(** ** Data model (interfaces/*.ts) *)

Inductive RoomState :=
| lobby
| waiting_ready
| selection
| revealing
| game_over
| waiting_restart.

#[global] Instance RoomState_eq_dec : EqDecision RoomState.
Proof. solve_decision. Defined.

Module Player.
Record t := mk {
  id : string;
  socketId : string;
  name : string;
  isReady : bool;
  isHost : bool;
  score : Z;
  currentHeight : option Z;
  isConnected : bool;
}.

Definition set_name (v : string) (p : t) : t :=
  mk (id p) (socketId p) v (isReady p) (isHost p) (score p)
     (currentHeight p) (isConnected p).
Definition set_isReady (v : bool) (p : t) : t :=
  mk (id p) (socketId p) (name p) v (isHost p) (score p)
     (currentHeight p) (isConnected p).
Definition set_isHost (v : bool) (p : t) : t :=
  mk (id p) (socketId p) (name p) (isReady p) v (score p)
     (currentHeight p) (isConnected p).
Definition set_score (v : Z) (p : t) : t :=
  mk (id p) (socketId p) (name p) (isReady p) (isHost p) v
     (currentHeight p) (isConnected p).
Definition set_currentHeight (v : option Z) (p : t) : t :=
  mk (id p) (socketId p) (name p) (isReady p) (isHost p) (score p)
     v (isConnected p).
Definition set_isConnected (v : bool) (p : t) : t :=
  mk (id p) (socketId p) (name p) (isReady p) (isHost p) (score p)
     (currentHeight p) v.
End Player.

(** A pending [setTimeout]: which transition it will call and after how
    many milliseconds. *)
Inductive TimerCallback := CallEndSelectionPeriod | CallEndRound.

Record Timeout := { callback : TimerCallback; delayMs : Z }.

Module Room.
Record t := mk {
  code : string;
  players : list (string * Player.t);
  state : RoomState;
  currentRound : Z;
  maxRounds : Z;
  selectionTimer : option Timeout;
  revealTimer : option Timeout;
  selectionDuration : Z;
  revealDuration : Z;
  currentWallHole : option Z;
  restartConsents : gset string;
  createdAt : Z;
}.

Definition set_players (v : list (string * Player.t)) (r : t) : t :=
  mk (code r) v (state r) (currentRound r) (maxRounds r) (selectionTimer r)
     (revealTimer r) (selectionDuration r) (revealDuration r)
     (currentWallHole r) (restartConsents r) (createdAt r).
Definition set_state (v : RoomState) (r : t) : t :=
  mk (code r) (players r) v (currentRound r) (maxRounds r) (selectionTimer r)
     (revealTimer r) (selectionDuration r) (revealDuration r)
     (currentWallHole r) (restartConsents r) (createdAt r).
Definition set_currentRound (v : Z) (r : t) : t :=
  mk (code r) (players r) (state r) v (maxRounds r) (selectionTimer r)
     (revealTimer r) (selectionDuration r) (revealDuration r)
     (currentWallHole r) (restartConsents r) (createdAt r).
Definition set_selectionTimer (v : option Timeout) (r : t) : t :=
  mk (code r) (players r) (state r) (currentRound r) (maxRounds r) v
     (revealTimer r) (selectionDuration r) (revealDuration r)
     (currentWallHole r) (restartConsents r) (createdAt r).
Definition set_revealTimer (v : option Timeout) (r : t) : t :=
  mk (code r) (players r) (state r) (currentRound r) (maxRounds r)
     (selectionTimer r) v (selectionDuration r) (revealDuration r)
     (currentWallHole r) (restartConsents r) (createdAt r).
Definition set_currentWallHole (v : option Z) (r : t) : t :=
  mk (code r) (players r) (state r) (currentRound r) (maxRounds r)
     (selectionTimer r) (revealTimer r) (selectionDuration r)
     (revealDuration r) v (restartConsents r) (createdAt r).
Definition set_restartConsents (v : gset string) (r : t) : t :=
  mk (code r) (players r) (state r) (currentRound r) (maxRounds r)
     (selectionTimer r) (revealTimer r) (selectionDuration r)
     (revealDuration r) (currentWallHole r) v (createdAt r).
End Room.

Inductive RoundResultType := perfect | too_low | too_high.

Module RoundResult.
Record t := mk {
  playerId : string;
  playerName : string;
  selectedHeight : Z;
  wallHole : Z;
  pointsEarned : Z;
  totalScore : Z;
  result : RoundResultType;
}.
End RoundResult.

Module PlayerScore.
Record t := mk {
  playerId : string;
  playerName : string;
  score : Z;
  rank : Z;
  isWinner : bool;
}.
End PlayerScore.

(** ** Configuration (config/game.config.ts, read through ConfigService)

    [ConfigService.get(key, fallback)] yields the fallback when the key is
    undefined, hence the optional fields. *)

Module Config.
Record t := mk {
  selectionDuration : option Z;
  revealDuration : option Z;
  maxRounds : option Z;
  maxRooms : option Z;
  maxPlayersPerRoom : option Z;
  roomTimeout : option Z;
  scoring_perfect : option Z;
  scoring_tooLow : option Z;
  scoring_tooHigh : option Z;
  defaultHeight : option Z;
}.

Definition get (v : option Z) (fallback : Z) : Z := default fallback v.

(** The values of game.config.ts when no environment variable is set. *)
Definition defaults : t :=
  mk (Some 15) (Some 5) (Some 10) (Some 100) (Some 10) (Some 1800000)
     (Some 20) (Some (-5)) (Some (-10)) (Some 5).
End Config.

(** ** Score calculator (utils/score-calculator.service.ts) *)

Section ScoreCalculator.
Variable cfg : Config.t.

Definition calculatePoints (selectedHeight wallHole : Z) : Z :=
  if selectedHeight =? wallHole then
    Config.get (Config.scoring_perfect cfg) 20
  else if selectedHeight <? wallHole then
    Config.get (Config.scoring_tooLow cfg) (-5)
  else
    Config.get (Config.scoring_tooHigh cfg) (-10).

Definition getResultType (selectedHeight wallHole : Z) : RoundResultType :=
  if selectedHeight =? wallHole then perfect
  else if selectedHeight <? wallHole then too_low
  else too_high.
End ScoreCalculator.

(** utils/validators.util.ts *)
Definition isValidHeight (height : Z) : bool :=
  (1 <=? height) && (height <=? 10).

(** Strings are held in UTF-8: a string of the program is the byte
    sequence of its code points.  [utf8Split] cuts a byte sequence into
    its code points, each with the number of bytes that its lead byte
    announces. *)
Definition utf8Width (c : ascii) : nat :=
  let n := nat_of_ascii c in
  if Nat.ltb n 192 then 1%nat
  else if Nat.ltb n 224 then 2%nat
  else if Nat.ltb n 240 then 3%nat
  else if Nat.ltb n 248 then 4%nat
  else 1%nat.

Fixpoint utf8Split (l : list ascii) : list (list ascii) :=
  match l with
  | [] => []
  | a :: l1 =>
      match utf8Width a, l1 with
      | 2%nat, b :: l2 => [a; b] :: utf8Split l2
      | 3%nat, b :: c :: l3 => [a; b; c] :: utf8Split l3
      | 4%nat, b :: c :: d :: l4 => [a; b; c; d] :: utf8Split l4
      | _, _ => [a] :: utf8Split l1
      end
  end.

Definition codePoints (s : string) : list (list ascii) :=
  utf8Split (String.list_ascii_of_string s).

Definition isContinuation (b : N) : bool := (N.land b 192 =? 128)%N.

(** The number of a code point, when its bytes are the UTF-8 form of
    one. *)
Definition codePointOf (bytes : list ascii) : option N :=
  match map N_of_ascii bytes with
  | [a] => if (a <? 128)%N then Some a else None
  | [a; b] =>
      let n := (N.land a 31 * 64 + N.land b 63)%N in
      if isContinuation b && (128 <=? n)%N then Some n else None
  | [a; b; c] =>
      let n := (N.land a 15 * 4096 + N.land b 63 * 64 + N.land c 63)%N in
      if isContinuation b && isContinuation c && (2048 <=? n)%N
      then Some n else None
  | [a; b; c; d] =>
      let n :=
        (N.land a 7 * 262144 + N.land b 63 * 4096 + N.land c 63 * 64
         + N.land d 63)%N in
      if isContinuation b && isContinuation c && isContinuation d
         && (65536 <=? n)%N
      then Some n else None
  | _ => None
  end.

(** The code points that [String.prototype.trim] strips: the WhiteSpace
    and LineTerminator code points of ECMAScript (tab, line feed,
    vertical tab, form feed, carriage return, space, no-break space,
    the other space separators, line and paragraph separator, and the
    byte order mark). *)
Definition whiteSpaceCodePoints : list N :=
  [0x9; 0xA; 0xB; 0xC; 0xD; 0x20; 0xA0; 0x1680;
   0x2000; 0x2001; 0x2002; 0x2003; 0x2004; 0x2005; 0x2006; 0x2007;
   0x2008; 0x2009; 0x200A; 0x2028; 0x2029; 0x202F; 0x205F; 0x3000;
   0xFEFF]%N.

Definition is_white_space (codePoint : list ascii) : bool :=
  match codePointOf codePoint with
  | Some n => bool_decide (n ∈ whiteSpaceCodePoints)
  | None => false
  end.

Fixpoint trimStart (l : list (list ascii)) : list (list ascii) :=
  match l with
  | [] => []
  | c :: l' => if is_white_space c then trimStart l' else l
  end.

(** [String.prototype.trim]: the white space code points at both ends
    are dropped. *)
Definition trim (s : string) : string :=
  String.string_of_list_ascii
    (concat (rev (trimStart (rev (trimStart (codePoints s)))))).

(** ** What the server sends (interfaces/game-events.interface.ts and the
    payloads built in game.gateway.ts) *)

Module PlayerView.
Record t := mk {
  id : string;
  name : string;
  isReady : bool;
  isHost : bool;
  score : Z;
  isConnected : bool;
}.

(** The object literal built by [emitRoomState] and
    [emitPlayerListUpdate] for every roster member. *)
Definition of_player (p : Player.t) : t :=
  mk (Player.id p) (Player.name p) (Player.isReady p) (Player.isHost p)
     (Player.score p) (Player.isConnected p).
End PlayerView.

Module ScoreView.
Record t := mk {
  playerId : string;
  playerName : string;
  score : Z;
}.

Definition of_player (p : Player.t) : t :=
  mk (Player.id p) (Player.name p) (Player.score p).
End ScoreView.

Inductive Payload :=
| RoomError (message : string)
| RoomCreated (roomCode playerId : string)
| RoomJoined (roomCode playerId : string)
| RoomStateMsg (roomCode : string) (state : RoomState)
               (currentRound maxRounds : Z) (players : list PlayerView.t)
| PlayerListUpdated (players : list PlayerView.t)
| NameSet (playerId name : string)
| GameStarted (maxRounds : Z)
| RoundStarted (roundNumber duration : Z)
| SelectionLocked
| WallRevealed (holePosition : Z) (results : list RoundResult.t)
| RoundEnded (scores : list ScoreView.t)
| GameEnded (finalScores : list PlayerScore.t)
| HeightSelected (height : Z)
| RestartStatus (consents total : Z)
| GameRestarted
| PlayerLeft (playerId playerName : string)
| PlayerDisconnected (playerId playerName : string).

Inductive Emit :=
| ToClient (socketId : string) (p : Payload)
| ToRoom (roomCode : string) (p : Payload).

(** ** The server: room registry, reverse map, connection tracker *)

Module Server.
Record t := mk {
  rooms : gmap string Room.t;
  playerRoomMap : gmap string string;
  socketPlayerMap : gmap string string;
}.

Definition set_rooms (v : gmap string Room.t) (s : t) : t :=
  mk v (playerRoomMap s) (socketPlayerMap s).
Definition set_playerRoomMap (v : gmap string string) (s : t) : t :=
  mk (rooms s) v (socketPlayerMap s).
Definition set_socketPlayerMap (v : gmap string string) (s : t) : t :=
  mk (rooms s) (playerRoomMap s) v.

Definition empty : t := mk ∅ ∅ ∅.
End Server.

(** [if (!x)] on a [string | undefined]: undefined and the empty string
    are both falsy. *)
Definition truthy (x : option string) : option string :=
  match x with
  | Some v => if String.eqb v "" then None else Some v
  | None => None
  end.

(** The room object found under [roomCode] is replaced by its mutated
    self. *)
Definition putRoom (roomCode : string) (room : Room.t) (s : Server.t)
  : Server.t :=
  Server.set_rooms (<[roomCode := room]> (Server.rooms s)) s.

(** Run a room-level transition on the room registered under [roomCode];
    [if (!room) return;] when there is none. *)
Definition onRoom (roomCode : string) (f : Room.t -> Room.t * list Emit)
    (s : Server.t) : Server.t * list Emit :=
  match Server.rooms s !! roomCode with
  | None => (s, [])
  | Some room => let (room', out) := f room in (putRoom roomCode room' s, out)
  end.

(** ** Room registry (room.service.ts) *)

Section RoomService.
Variable cfg : Config.t.

Definition newRoom (roomCode : string) (now : Z) : Room.t :=
  Room.mk roomCode [] lobby 0
    (Config.get (Config.maxRounds cfg) 10)
    None None
    (Config.get (Config.selectionDuration cfg) 15)
    (Config.get (Config.revealDuration cfg) 5)
    None ∅ now.

(** [generated] lists the successive results of [generateRoomCode()];
    the do-while loop keeps the first that is not in use.  [None] stands
    for a loop that has not found one. *)
Definition createRoom (generated : list string) (now : Z) (s : Server.t)
  : option (string * Server.t) :=
  match
    List.find (fun c => bool_decide (Server.rooms s !! c = None)) generated
  with
  | None => None
  | Some roomCode => Some (roomCode, putRoom roomCode (newRoom roomCode now) s)
  end.

Definition getRoom (roomCode : string) (s : Server.t) : option Room.t :=
  Server.rooms s !! roomCode.

Definition newPlayer (playerId socketId : string) (isHost : bool)
  : Player.t :=
  Player.mk playerId socketId "" false isHost 0 None true.

Definition joinRoom (roomCode playerId socketId : string) (s : Server.t)
  : Server.t * bool :=
  match Server.rooms s !! roomCode with
  | None => (s, false)
  | Some room =>
      let isHost := JsMap.size (Room.players room) =? 0 in
      let player := newPlayer playerId socketId isHost in
      let room' :=
        Room.set_players (JsMap.set playerId player (Room.players room)) room in
      let s1 := putRoom roomCode room' s in
      (Server.set_playerRoomMap
         (<[playerId := roomCode]> (Server.playerRoomMap s1)) s1, true)
  end.

Definition deleteRoom (roomCode : string) (s : Server.t) : Server.t :=
  match Server.rooms s !! roomCode with
  | None => s
  | Some room =>
      let prm :=
        foldl (fun m p => delete (Player.id p) m) (Server.playerRoomMap s)
              (JsMap.values (Room.players room)) in
      Server.set_rooms (delete roomCode (Server.rooms s))
        (Server.set_playerRoomMap prm s)
  end.

Definition removePlayer (playerId : string) (s : Server.t) : Server.t :=
  match truthy (Server.playerRoomMap s !! playerId) with
  | None => s
  | Some roomCode =>
      match Server.rooms s !! roomCode with
      | None =>
          Server.set_playerRoomMap (delete playerId (Server.playerRoomMap s)) s
      | Some room =>
          let room' :=
            Room.set_players (JsMap.delete playerId (Room.players room)) room in
          let s1 := putRoom roomCode room' s in
          let s2 :=
            Server.set_playerRoomMap
              (delete playerId (Server.playerRoomMap s1)) s1 in
          if JsMap.size (Room.players room') =? 0
          then deleteRoom roomCode s2 else s2
      end
  end.

(** The key under which a player's room is registered. *)
Definition roomKeyOf (playerId : string) (s : Server.t) : option string :=
  truthy (Server.playerRoomMap s !! playerId).

Definition getRoomByPlayerId (playerId : string) (s : Server.t)
  : option Room.t :=
  match roomKeyOf playerId s with
  | None => None
  | Some roomCode => Server.rooms s !! roomCode
  end.
End RoomService.

(** [Array.prototype.sort(compare)]: the stable sort that a consistent
    comparator determines; [compare a b <= 0] keeps [a] before [b]. *)
Section Sort.
Context {A : Type}.
Variable compare : A -> A -> Z.

Fixpoint sort_insert (x : A) (l : list A) : list A :=
  match l with
  | [] => [x]
  | y :: l' => if compare x y <=? 0 then x :: y :: l' else y :: sort_insert x l'
  end.

Definition sort (l : list A) : list A := foldr sort_insert [] l.
End Sort.

(** ** Game logic (game.service.ts)

    The gateway reference is set by the gateway's constructor, so every
    [if (this.gateway)] is taken.  Each [*_room] function is the body of
    the method after its [if (!room) return;]. *)

Section GameService.
Variable cfg : Config.t.

Definition clearSelectionTimer (room : Room.t) : Room.t :=
  match Room.selectionTimer room with
  | Some _ => Room.set_selectionTimer None room
  | None => room
  end.

Definition clearRevealTimer (room : Room.t) : Room.t :=
  match Room.revealTimer room with
  | Some _ => Room.set_revealTimer None room
  | None => room
  end.

(** gateway.emitRoundStarted, on the room it looks up *)
Definition emitRoundStarted_room (roomCode : string) (room : Room.t)
  : list Emit :=
  [ToRoom roomCode
     (RoundStarted (Room.currentRound room) (Room.selectionDuration room))].

Definition emitRoundStarted (roomCode : string) (s : Server.t) : list Emit :=
  match getRoom roomCode s with
  | None => []
  | Some room => emitRoundStarted_room roomCode room
  end.

Definition startRound_room (roomCode : string) (room : Room.t)
  : Room.t * list Emit :=
  let room := clearSelectionTimer room in
  let room := clearRevealTimer room in
  let room :=
    Room.set_players
      (JsMap.forEach (Player.set_currentHeight None) (Room.players room))
      room in
  let room := Room.set_currentWallHole None room in
  let room := Room.set_state selection room in
  let out := emitRoundStarted_room roomCode room in
  let room :=
    Room.set_selectionTimer
      (Some {| callback := CallEndSelectionPeriod;
               delayMs := Room.selectionDuration room * 1000 |}) room in
  (room, out).

Definition startRound (roomCode : string) : Server.t -> Server.t * list Emit :=
  onRoom roomCode (startRound_room roomCode).

Definition startGame_room (roomCode : string) (room : Room.t)
  : Room.t * list Emit :=
  let room := Room.set_state selection room in
  let room := Room.set_currentRound 1 room in
  startRound_room roomCode room.

Definition startGame (roomCode : string) : Server.t -> Server.t * list Emit :=
  onRoom roomCode (startGame_room roomCode).

Definition submitHeight_room (playerId : string) (height : Z)
    (room : Room.t) : Room.t :=
  if bool_decide (Room.state room ≠ selection) then room
  else
    match JsMap.get playerId (Room.players room) with
    | None => room
    | Some player =>
        Room.set_players
          (JsMap.set playerId (Player.set_currentHeight (Some height) player)
             (Room.players room)) room
    end.

Definition submitHeight (roomCode playerId : string) (height : Z)
  : Server.t -> Server.t * list Emit :=
  onRoom roomCode (fun room => (submitHeight_room playerId height room, [])).

Definition defaultHeight : Z := 5.

(** One iteration of the loop of [calculateResults]: the player with
    its score updated, and the result pushed for it. *)
Definition scorePlayer (wallHole : Z) (player : Player.t)
  : Player.t * RoundResult.t :=
  let selectedHeight := default defaultHeight (Player.currentHeight player) in
  let pointsEarned := calculatePoints cfg selectedHeight wallHole in
  let player := Player.set_score (Player.score player + pointsEarned) player in
  (player,
   RoundResult.mk (Player.id player) (Player.name player) selectedHeight
     wallHole pointsEarned (Player.score player)
     (getResultType selectedHeight wallHole)).

Definition calculateResults_room (room : Room.t)
  : Room.t * list RoundResult.t :=
  match Room.currentWallHole room with
  | None => (room, [])
  | Some wallHole =>
      (Room.set_players
         (JsMap.forEach (fun p => fst (scorePlayer wallHole p))
            (Room.players room)) room,
       map (fun p => snd (scorePlayer wallHole p))
         (JsMap.values (Room.players room)))
  end.

(** The default guess is stored for connected players without one. *)
Definition assignDefault (player : Player.t) : Player.t :=
  if Player.isConnected player
     && bool_decide (Player.currentHeight player = None)
  then Player.set_currentHeight (Some defaultHeight) player
  else player.

(** What the reveal does to one roster member: the default is stored
    by [endSelectionPeriod], then [calculateResults] scores the
    player. *)
Definition revealed (wallHole : Z) (p : Player.t)
  : Player.t * RoundResult.t :=
  scorePlayer wallHole (assignDefault p).

(** [wallHole] is the value of [Math.floor(Math.random() * 10) + 1]. *)
Definition endSelectionPeriod_room (roomCode : string) (wallHole : Z)
    (room : Room.t) : Room.t * list Emit :=
  if bool_decide (Room.state room ≠ selection) then (room, [])
  else
    let room := clearSelectionTimer room in
    let room :=
      Room.set_players (JsMap.forEach assignDefault (Room.players room))
        room in
    let room := Room.set_currentWallHole (Some wallHole) room in
    let out1 := [ToRoom roomCode SelectionLocked] in
    let room := Room.set_state revealing room in
    let (room, results) := calculateResults_room room in
    let out2 :=
      [ToRoom roomCode (WallRevealed wallHole results)] in
    let room :=
      Room.set_revealTimer
        (Some {| callback := CallEndRound;
                 delayMs := Room.revealDuration room * 1000 |}) room in
    (room, (out1 ++ out2)%list).

Definition endSelectionPeriod (roomCode : string) (wallHole : Z)
  : Server.t -> Server.t * list Emit :=
  onRoom roomCode (endSelectionPeriod_room roomCode wallHole).

(** The array built, sorted, ranked and flagged by [endGame]. *)
Definition unrankedScore (player : Player.t) : PlayerScore.t :=
  PlayerScore.mk (Player.id player) (Player.name player)
    (Player.score player) 0 false.

Definition sortedScores (room : Room.t) : list PlayerScore.t :=
  sort (fun a b => PlayerScore.score b - PlayerScore.score a)
    (map unrankedScore (JsMap.values (Room.players room))).

(** [scores.length > 0 ? scores[0].score : 0] *)
Definition highestScore (scores : list PlayerScore.t) : Z :=
  match scores with
  | first :: _ => PlayerScore.score first
  | [] => 0
  end.

Definition finalScores (room : Room.t) : list PlayerScore.t :=
  let scores := sortedScores room in
  imap
    (fun index sc =>
       PlayerScore.mk (PlayerScore.playerId sc) (PlayerScore.playerName sc)
         (PlayerScore.score sc) (Z.of_nat index + 1)
         (PlayerScore.score sc =? highestScore scores))
    scores.

Definition endGame_room (roomCode : string) (room : Room.t)
  : Room.t * list Emit * list PlayerScore.t :=
  let room := Room.set_state game_over room in
  let room := clearSelectionTimer room in
  let room := clearRevealTimer room in
  let scores := finalScores room in
  (room, [ToRoom roomCode (GameEnded scores)], scores).

Definition endRound_room (roomCode : string) (room : Room.t)
  : Room.t * list Emit :=
  if bool_decide (Room.state room ≠ revealing) then (room, [])
  else
    let room := clearRevealTimer room in
    let scores :=
      map ScoreView.of_player (JsMap.values (Room.players room)) in
    let out1 := [ToRoom roomCode (RoundEnded scores)] in
    if Room.currentRound room >=? Room.maxRounds room then
      let '(room, out2, _) := endGame_room roomCode room in
      (room, (out1 ++ out2)%list)
    else
      let room := Room.set_currentRound (Room.currentRound room + 1) room in
      let (room, out2) := startRound_room roomCode room in
      (room, (out1 ++ out2)%list).

Definition endRound (roomCode : string)
  : Server.t -> Server.t * list Emit :=
  onRoom roomCode (endRound_room roomCode).

Definition resetPlayer (player : Player.t) : Player.t :=
  Player.set_isReady false
    (Player.set_currentHeight None (Player.set_score 0 player)).

Definition restartGame_room (room : Room.t) : Room.t :=
  let room :=
    Room.set_players (JsMap.forEach resetPlayer (Room.players room)) room in
  let room := Room.set_currentRound 0 room in
  let room := Room.set_currentWallHole None room in
  let room := Room.set_restartConsents ∅ room in
  Room.set_state waiting_ready room.

Definition checkAllPlayersReady_room (room : Room.t) : bool :=
  if JsMap.size (Room.players room) =? 0 then false
  else
    forallb
      (fun player =>
         negb (Player.isConnected player && negb (Player.isReady player)))
      (JsMap.values (Room.players room)).

Definition checkAllPlayersReady (roomCode : string) (s : Server.t) : bool :=
  match getRoom roomCode s with
  | None => false
  | Some room => checkAllPlayersReady_room room
  end.

Definition checkAllRestartConsents_room (room : Room.t) : bool :=
  if JsMap.size (Room.players room) =? 0 then false
  else
    forallb
      (fun player =>
         negb (Player.isConnected player
               && negb (bool_decide
                          (Player.id player ∈ Room.restartConsents room))))
      (JsMap.values (Room.players room)).

Definition checkAllRestartConsents (roomCode : string) (s : Server.t)
  : bool :=
  match getRoom roomCode s with
  | None => false
  | Some room => checkAllRestartConsents_room room
  end.

Definition handleRestartConsent_room (playerId : string) (room : Room.t)
  : Room.t :=
  if bool_decide (Room.state room ≠ game_over) then room
  else
    let room :=
      Room.set_restartConsents ({[playerId]} ∪ Room.restartConsents room)
        room in
    if checkAllRestartConsents_room room then restartGame_room room
    else room.

Definition handleRestartConsent (roomCode playerId : string)
  : Server.t -> Server.t * list Emit :=
  onRoom roomCode (fun room => (handleRestartConsent_room playerId room, [])).

Definition cleanupRoomTimers (roomCode : string)
  : Server.t -> Server.t * list Emit :=
  onRoom roomCode
    (fun room => (clearRevealTimer (clearSelectionTimer room), [])).
End GameService.

(** ** WebSocket gateway (game.gateway.ts)

    Every handler receives the socket id of the acting connection.  A room
    reached through [getRoomByPlayerId] is written back under the key it
    was found at; calls that pass [room.code] look the room up again under
    that code, as the source does. *)

Module GameGateway.
Section Handlers.
Variable cfg : Config.t.

Definition forgetSocket (client : string) (s : Server.t) : Server.t :=
  Server.set_socketPlayerMap (delete client (Server.socketPlayerMap s)) s.

Definition rememberSocket (client playerId : string) (s : Server.t)
  : Server.t :=
  Server.set_socketPlayerMap
    (<[client := playerId]> (Server.socketPlayerMap s)) s.

Definition playerViews (room : Room.t) : list PlayerView.t :=
  map PlayerView.of_player (JsMap.values (Room.players room)).

Definition emitRoomState (client roomCode : string) (s : Server.t)
  : list Emit :=
  match getRoom roomCode s with
  | None => []
  | Some room =>
      [ToClient client
         (RoomStateMsg (Room.code room) (Room.state room)
            (Room.currentRound room) (Room.maxRounds room)
            (playerViews room))]
  end.

Definition emitPlayerListUpdate (roomCode : string) (s : Server.t)
  : list Emit :=
  match getRoom roomCode s with
  | None => []
  | Some room => [ToRoom roomCode (PlayerListUpdated (playerViews room))]
  end.

(** [Array.from(room.players.values())[0].isHost = true] *)
Definition promoteFirst (players : list (string * Player.t))
  : list (string * Player.t) :=
  match players with
  | [] => []
  | (k, newHost) :: rest => (k, Player.set_isHost true newHost) :: rest
  end.

Definition handleDisconnect (client : string) (s : Server.t)
  : Server.t * list Emit :=
  match truthy (Server.socketPlayerMap s !! client) with
  | None => (s, [])
  | Some playerId =>
  match roomKeyOf playerId s with
  | None => (forgetSocket client s, [])
  | Some key =>
  match Server.rooms s !! key with
  | None => (forgetSocket client s, [])
  | Some room =>
  match JsMap.get playerId (Room.players room) with
  | None => (forgetSocket client s, [])
  | Some player =>
      if bool_decide (Room.state room = lobby)
         || bool_decide (Room.state room = waiting_ready)
      then
        let players1 := JsMap.delete playerId (Room.players room) in
        let players2 :=
          if Player.isHost player && (JsMap.size players1 >? 0)
          then promoteFirst players1 else players1 in
        let room := Room.set_players players2 room in
        let s := putRoom key room s in
        let out1 :=
          [ToRoom (Room.code room)
             (PlayerLeft (Player.id player) (Player.name player))] in
        let out2 := emitPlayerListUpdate (Room.code room) s in
        let s :=
          if JsMap.size (Room.players room) =? 0
          then deleteRoom (Room.code room) s else s in
        (forgetSocket client s, (out1 ++ out2)%list)
      else
        let player := Player.set_isConnected false player in
        let room :=
          Room.set_players (JsMap.set playerId player (Room.players room))
            room in
        let s := putRoom key room s in
        let out1 :=
          [ToRoom (Room.code room)
             (PlayerDisconnected (Player.id player) (Player.name player))] in
        let out2 := emitPlayerListUpdate (Room.code room) s in
        let allDisconnected :=
          forallb (fun p => negb (Player.isConnected p))
            (JsMap.values (Room.players room)) in
        let s :=
          if allDisconnected then deleteRoom (Room.code room) s else s in
        (forgetSocket client s, (out1 ++ out2)%list)
  end end end end.

(** [playerId] is the fresh [uuidv4()], [generated] and [now] feed
    [createRoom].  A code loop that has not ended leaves the server as it
    is. *)
Definition handleCreateRoom (client playerId : string)
    (generated : list string) (now : Z) (s : Server.t)
  : Server.t * list Emit :=
  match createRoom cfg generated now s with
  | None => (s, [])
  | Some (roomCode, s) =>
      let (s, joined) := joinRoom roomCode playerId client s in
      if negb joined then
        (s, [ToClient client (RoomError "Error al crear la sala")])
      else
        let s := rememberSocket client playerId s in
        (s, (ToClient client (RoomCreated roomCode playerId)
             :: emitRoomState client roomCode s)%list)
  end.

Definition handleJoinRoom (client roomCode playerId : string)
    (s : Server.t) : Server.t * list Emit :=
  match getRoom roomCode s with
  | None => (s, [ToClient client (RoomError "La sala no existe")])
  | Some _ =>
      let (s, joined) := joinRoom roomCode playerId client s in
      if negb joined then
        (s, [ToClient client (RoomError "No se pudo unir a la sala")])
      else
        let s := rememberSocket client playerId s in
        (s, (ToClient client (RoomJoined roomCode playerId)
             :: emitRoomState client roomCode s
             ++ emitPlayerListUpdate roomCode s)%list)
  end.

Definition handleSetPlayerName (client name : string) (s : Server.t)
  : Server.t * list Emit :=
  match truthy (Server.socketPlayerMap s !! client) with
  | None => (s, [ToClient client (RoomError "Jugador no encontrado")])
  | Some playerId =>
  match roomKeyOf playerId s with
  | None => (s, [ToClient client (RoomError "Sala no encontrada")])
  | Some key =>
  match Server.rooms s !! key with
  | None => (s, [ToClient client (RoomError "Sala no encontrada")])
  | Some room =>
  match JsMap.get playerId (Room.players room) with
  | None =>
      (s, [ToClient client (RoomError "Jugador no encontrado en la sala")])
  | Some player =>
      let nameInUse :=
        existsb
          (fun p => String.eqb (Player.name p) name
                    && negb (String.eqb (Player.id p) playerId))
          (JsMap.values (Room.players room)) in
      if nameInUse then
        (s, [ToClient client (RoomError "Este nombre ya está en uso")])
      else
        let player := Player.set_name name player in
        let room :=
          Room.set_players (JsMap.set playerId player (Room.players room))
            room in
        let s := putRoom key room s in
        (s, (emitPlayerListUpdate (Room.code room) s
             ++ [ToClient client (NameSet playerId name)])%list)
  end end end end.

Definition handlePlayerReady (client : string) (s : Server.t)
  : Server.t * list Emit :=
  match truthy (Server.socketPlayerMap s !! client) with
  | None => (s, [ToClient client (RoomError "Jugador no encontrado")])
  | Some playerId =>
  match roomKeyOf playerId s with
  | None => (s, [ToClient client (RoomError "Sala no encontrada")])
  | Some key =>
  match Server.rooms s !! key with
  | None => (s, [ToClient client (RoomError "Sala no encontrada")])
  | Some room =>
  match JsMap.get playerId (Room.players room) with
  | None =>
      (s, [ToClient client (RoomError "Jugador no encontrado en la sala")])
  | Some player =>
      if String.eqb (Player.name player) ""
         || String.eqb (trim (Player.name player)) ""
      then
        (s, [ToClient client
               (RoomError "Debes establecer un nombre antes de estar listo")])
      else
        let player := Player.set_isReady true player in
        let room :=
          Room.set_players (JsMap.set playerId player (Room.players room))
            room in
        let room :=
          if bool_decide (Room.state room = lobby)
          then Room.set_state waiting_ready room else room in
        let s := putRoom key room s in
        let out1 := emitPlayerListUpdate (Room.code room) s in
        if checkAllPlayersReady (Room.code room) s then
          let (s, out2) := startGame (Room.code room) s in
          (s, (out1 ++ out2
               ++ [ToRoom (Room.code room) (GameStarted (Room.maxRounds room))]
               ++ emitRoundStarted (Room.code room) s)%list)
        else (s, out1)
  end end end end.

Definition handleSelectHeight (client : string) (height : Z)
    (s : Server.t) : Server.t * list Emit :=
  match truthy (Server.socketPlayerMap s !! client) with
  | None => (s, [ToClient client (RoomError "Jugador no encontrado")])
  | Some playerId =>
  match getRoomByPlayerId playerId s with
  | None => (s, [ToClient client (RoomError "Sala no encontrada")])
  | Some room =>
      if bool_decide (Room.state room ≠ selection) then
        (s, [ToClient client
               (RoomError "No es momento de seleccionar altura")])
      else
        let (s, _) := submitHeight (Room.code room) playerId height s in
        (s, [ToClient client (HeightSelected height)])
  end end.

Definition handleRestartConsent (client : string) (s : Server.t)
  : Server.t * list Emit :=
  match truthy (Server.socketPlayerMap s !! client) with
  | None => (s, [ToClient client (RoomError "Jugador no encontrado")])
  | Some playerId =>
  match getRoomByPlayerId playerId s with
  | None => (s, [ToClient client (RoomError "Sala no encontrada")])
  | Some room =>
      if bool_decide (Room.state room ≠ game_over) then
        (s, [ToClient client (RoomError "El juego no ha terminado")])
      else
        let (s, _) := handleRestartConsent (Room.code room) playerId s in
        match getRoomByPlayerId playerId s with
        | None => (s, [])
        | Some updatedRoom =>
            let consentsCount :=
              Z.of_nat (size (Room.restartConsents updatedRoom)) in
            let totalPlayers :=
              Z.of_nat
                (length
                   (filter (fun p => Player.isConnected p = true)
                      (JsMap.values (Room.players updatedRoom)))) in
            let out1 :=
              [ToRoom (Room.code updatedRoom)
                 (RestartStatus consentsCount totalPlayers)] in
            if bool_decide (Room.state updatedRoom = waiting_ready) then
              (s, (out1
                   ++ [ToRoom (Room.code updatedRoom) GameRestarted]
                   ++ emitPlayerListUpdate (Room.code updatedRoom) s)%list)
            else (s, out1)
        end
  end end.
End Handlers.
End GameGateway.

(** ** The server as a transition system

    One action per inbound message, per connection loss and per timer
    callback.  Timer callbacks are allowed at any moment; the transitions
    re-check the phase themselves. *)

Inductive Action :=
| CreateRoom (client playerId : string) (generated : list string) (now : Z)
| JoinRoom (client roomCode playerId : string)
| SetPlayerName (client name : string)
| PlayerReady (client : string)
| SelectHeight (client : string) (height : Z)
| RestartConsent (client : string)
| Disconnect (client : string)
| SelectionTimerFires (roomCode : string) (wallHole : Z)
| RevealTimerFires (roomCode : string).

Section Transitions.
Variable cfg : Config.t.

Definition step (a : Action) (s : Server.t) : Server.t * list Emit :=
  match a with
  | CreateRoom client playerId generated now =>
      GameGateway.handleCreateRoom cfg client playerId generated now s
  | JoinRoom client roomCode playerId =>
      GameGateway.handleJoinRoom client roomCode playerId s
  | SetPlayerName client name =>
      GameGateway.handleSetPlayerName client name s
  | PlayerReady client => GameGateway.handlePlayerReady client s
  | SelectHeight client height =>
      GameGateway.handleSelectHeight client height s
  | RestartConsent client => GameGateway.handleRestartConsent client s
  | Disconnect client => GameGateway.handleDisconnect client s
  | SelectionTimerFires roomCode wallHole =>
      endSelectionPeriod cfg roomCode wallHole s
  | RevealTimerFires roomCode => endRound roomCode s
  end.

Definition run (actions : list Action) (s : Server.t) : Server.t :=
  foldl (fun s a => fst (step a s)) s actions.

Inductive reachable : Server.t -> Prop :=
| reachable_init : reachable Server.empty
| reachable_step a s : reachable s -> reachable (fst (step a s)).
End Transitions.

(** ** Deadline discipline

    The two deadline handles of a room, and how a room may change in one
    step of the server. *)

Definition armedCount (room : Room.t) : nat :=
  ((if Room.selectionTimer room is Some _ then 1 else 0)
   + (if Room.revealTimer room is Some _ then 1 else 0))%nat.

Definition timers_match_phase (room : Room.t) : Prop :=
  (Room.selectionTimer room <> None -> Room.state room = selection)
  /\ (Room.revealTimer room <> None -> Room.state room = revealing).

Definition timed (st : RoomState) : Prop := st = selection \/ st = revealing.

(** Neither handle is touched; the phase stays, or moves between phases
    that have no deadline. *)
Definition quiet (r r' : Room.t) : Prop :=
  Room.selectionTimer r' = Room.selectionTimer r
  /\ Room.revealTimer r' = Room.revealTimer r
  /\ (Room.state r' = Room.state r
      \/ (~ timed (Room.state r) /\ ~ timed (Room.state r'))).

(** Exactly one handle is armed, the one of the phase. *)
Definition one_armed (r' : Room.t) : Prop :=
  (Room.state r' = selection /\ Room.selectionTimer r' <> None
   /\ Room.revealTimer r' = None)
  \/ (Room.state r' = revealing /\ Room.selectionTimer r' = None
      /\ Room.revealTimer r' <> None).

(** The game is over and no handle is armed. *)
Definition over_disarmed (r' : Room.t) : Prop :=
  Room.state r' = game_over /\ Room.selectionTimer r' = None
  /\ Room.revealTimer r' = None.

Definition room_change (r r' : Room.t) : Prop :=
  quiet r r' \/ one_armed r' \/ over_disarmed r'.

(** Every room of [s'] is a room of [s] after a [room_change], or a new
    room without deadlines. *)
Definition evolves (s s' : Server.t) : Prop :=
  forall roomCode r',
    Server.rooms s' !! roomCode = Some r' ->
    match Server.rooms s !! roomCode with
    | Some r => room_change r r'
    | None => Room.selectionTimer r' = None /\ Room.revealTimer r' = None
    end.

Definition deadlines_ok (s : Server.t) : Prop :=
  forall roomCode room,
    Server.rooms s !! roomCode = Some room -> timers_match_phase room.

(** ** Registry discipline

    A room is registered under its own code and the keys of its roster
    are distinct. *)

Definition registered_ok (roomCode : string) (room : Room.t) : Prop :=
  Room.code room = roomCode /\ NoDup (JsMap.keys (Room.players room)).

Definition registry_ok (s : Server.t) : Prop :=
  forall roomCode room,
    Server.rooms s !! roomCode = Some room -> registered_ok roomCode room.

(** ** Concrete scenarios used to exercise the definitions *)

Module Scenario.
Definition ana : Player.t :=
  Player.mk "p1" "s1" "Ana" true true 40 None true.
Definition beto : Player.t :=
  Player.mk "p2" "s2" "Beto" true false 40 (Some 7) true.
Definition caro : Player.t :=
  Player.mk "p3" "s3" "Caro" true false 15 (Some 3) false.
Definition dani : Player.t :=
  Player.mk "p4" "s4" "Dani" true false 15 None false.

Definition roster : list (string * Player.t) :=
  [("p1", ana); ("p2", beto); ("p3", caro); ("p4", dani)].

Definition roomIn (st : RoomState) (players : list (string * Player.t))
  : Room.t :=
  Room.mk "ABC123" players st 10 10 None None 15 5 None ∅ 0.

Definition serverWith (room : Room.t) : Server.t :=
  Server.mk {[ "ABC123" := room ]}
    (list_to_map (map (fun kv => (fst kv, "ABC123")) (Room.players room)))
    (list_to_map
       (map (fun kv => (Player.socketId (snd kv), fst kv))
          (Room.players room))).

(** A finished game with two connected players and two who left. *)
Definition finished : Server.t := serverWith (roomIn game_over roster).


(** A configuration that allows two players per room. *)
Definition smallRooms : Config.t :=
  Config.mk (Some 15) (Some 5) (Some 10) (Some 100) (Some 2) (Some 1800000)
    (Some 20) (Some (-5)) (Some (-10)) (Some 5).

(** Two players create and join a room, name themselves, mark ready,
    and the first one guesses 7. *)
Definition opening : list Action :=
  [CreateRoom "s1" "p1" ["ABC123"] 0; SetPlayerName "s1" "Ana";
   JoinRoom "s2" "ABC123" "p2"; SetPlayerName "s2" "Beto";
   PlayerReady "s1"; PlayerReady "s2"; SelectHeight "s1" 7].

Definition started : Server.t := run Config.defaults opening Server.empty.

Definition startedRoom : Room.t :=
  Room.mk "ABC123"
    [("p1", Player.mk "p1" "s1" "Ana" true true 0 (Some 7) true);
     ("p2", Player.mk "p2" "s2" "Beto" true false 0 None true)]
    selection 1 10
    (Some {| callback := CallEndSelectionPeriod; delayMs := 15000 |}) None
    15 5 None ∅ 0.


(** The same two players play the ten rounds of a game; every round the
    target is 7 and nobody guesses again. *)
Definition tenRounds : list Action :=
  flat_map
    (fun _ => [SelectionTimerFires "ABC123" 7; RevealTimerFires "ABC123"])
    (seq 0 10).

Definition played : Server.t :=
  run Config.defaults (opening ++ tenRounds)%list Server.empty.

Definition lobbyRoom : Room.t :=
  Room.mk "ABC123"
    [("p1", newPlayer "p1" "s1" true); ("p2", newPlayer "p2" "s2" false)]
    lobby 0 10 None None 15 5 None ∅ 0.

(** With [maxPlayersPerRoom] = 2, a room is created and joined once; its
    room is [lobbyRoom]. *)
Definition lobbyOfTwo : Server.t :=
  run smallRooms
    [CreateRoom "s1" "p1" ["ABC123"] 0; JoinRoom "s2" "ABC123" "p2"]
    Server.empty.

(** Two no-break spaces (U+00A0), as a name. *)
Definition noBreakSpaces : string :=
  String.string_of_list_ascii (map ascii_of_nat [194; 160; 194; 160]%nat).

(** The second player of [lobbyOfTwo] takes that name. *)
Definition lobbyWithBlankName : Server.t :=
  run smallRooms [SetPlayerName "s2" noBreakSpaces] lobbyOfTwo.

Definition blankNameRoom : Room.t :=
  Room.mk "ABC123"
    [("p1", newPlayer "p1" "s1" true);
     ("p2", Player.mk "p2" "s2" noBreakSpaces false false 0 None true)]
    lobby 0 10 None None 15 5 None ∅ 0.
End Scenario.

(** ** Room codes (utils/code-generator.util.ts, utils/validators.util.ts,
    dto/join-room.dto.ts) *)

Definition characters : string := "ABCDEFGHIJKLMNOPQRSTUVWXYZ0123456789".

(** [code += characters[randomIndex]]: an index past the end reads
    [undefined], which the concatenation renders as the text
    "undefined". *)
Definition appendCharacter (code : string) (randomIndex : nat) : string :=
  match String.get randomIndex characters with
  | Some c => code +:+ String c ""
  | None => code +:+ "undefined"
  end.

(** [randomIndex i] is the value of
    [Math.floor(Math.random() * characters.length)] in iteration [i] of
    the loop. *)
Definition generateRoomCode (randomIndex : nat -> nat) : string :=
  foldl (fun code i => appendCharacter code (randomIndex i)) "" (seq 0 6).

(** What [String.prototype.toUpperCase] does to a string of ASCII
    characters: the letters a to z become A to Z, every other character
    stays. *)
Definition upperChar (c : ascii) : ascii :=
  let n := nat_of_ascii c in
  if (Nat.leb 97 n && Nat.leb n 122)%bool then ascii_of_nat (n - 32) else c.

Definition isAscii (s : string) : bool :=
  forallb (fun c => Nat.ltb (nat_of_ascii c) 128)
    (String.list_ascii_of_string s).

Definition asciiUpperCase (s : string) : string :=
  String.string_of_list_ascii (map upperChar (String.list_ascii_of_string s)).

(** The character classes [A-Z], [a-z] and [0-9]. *)
Definition isUpper (c : ascii) : bool :=
  let n := nat_of_ascii c in (Nat.leb 65 n && Nat.leb n 90)%bool.
Definition isLower (c : ascii) : bool :=
  let n := nat_of_ascii c in (Nat.leb 97 n && Nat.leb n 122)%bool.
Definition isDigit (c : ascii) : bool :=
  let n := nat_of_ascii c in (Nat.leb 48 n && Nat.leb n 57)%bool.

Section Validators.
(** [String.prototype.toUpperCase] follows the Unicode case mappings;
    the validator is defined over it as a whole, and the properties
    assume of it only its action on ASCII strings
    ([asciiUpperCase]). *)
Variable toUpperCase : string -> string.

(** [/^[A-Z0-9]{6}$/.test(code.toUpperCase())], after the guard against
    an empty code. *)
Definition isValidRoomCode (code : string) : bool :=
  if String.eqb code "" then false
  else
    let upper := String.list_ascii_of_string (toUpperCase code) in
    (Nat.eqb (length upper) 6
     && forallb (fun c => isUpper c || isDigit c) upper)%bool.
End Validators.

(** The pattern [/^[A-Za-z0-9]{6}$/] of [JoinRoomDto]. *)
Definition matchesJoinRoomPattern (code : string) : bool :=
  let chars := String.list_ascii_of_string code in
  (Nat.eqb (length chars) 6
   && forallb (fun c => isUpper c || isLower c || isDigit c) chars)%bool.

(** ** Rounds played back to back

    One round is the selection callback followed by the reveal callback;
    [playRounds] plays as many rounds as there are targets. *)

Definition playRound (cfg : Config.t) (roomCode : string) (wallHole : Z)
    (room : Room.t) : Room.t :=
  fst (endRound_room roomCode
         (fst (endSelectionPeriod_room cfg roomCode wallHole room))).

Definition playRounds (cfg : Config.t) (roomCode : string)
    (wallHoles : list Z) (room : Room.t) : Room.t :=
  foldl (fun room wallHole => playRound cfg roomCode wallHole room) room
    wallHoles.

(** ** Who an action comes from, and what counts as an error report *)

Definition actingClient (a : Action) : option string :=
  match a with
  | CreateRoom client _ _ _ | JoinRoom client _ _ | SetPlayerName client _
  | PlayerReady client | SelectHeight client _ | RestartConsent client
  | Disconnect client => Some client
  | SelectionTimerFires _ _ | RevealTimerFires _ => None
  end.

Definition isRoomError (p : Payload) : bool :=
  match p with RoomError _ => true | _ => false end.

(** The only thing sent is one room-error, to [client]. *)
Definition onlyAnErrorTo (client : option string) (out : list Emit) : Prop :=
  exists sock message,
    client = Some sock /\ out = [ToClient sock (RoomError message)].

(** Nothing sent is a room-error. *)
Definition noError (out : list Emit) : Prop :=
  Forall
    (fun e =>
       match e with
       | ToClient _ p | ToRoom _ p => isRoomError p = false
       end) out.

(** ** Roster and round discipline *)

(** Every entry sits under its player's id, ids are distinct, no two
    roster members share a non-empty name, and at most one is host. *)
Definition roster_ok (players : list (string * Player.t)) : Prop :=
  NoDup (JsMap.keys players)
  /\ (forall k p, JsMap.get k players = Some p -> Player.id p = k)
  /\ (forall k1 k2 p1 p2,
        JsMap.get k1 players = Some p1 -> JsMap.get k2 players = Some p2 ->
        k1 <> k2 -> Player.name p1 = Player.name p2 -> Player.name p1 = "")
  /\ (forall k1 k2 p1 p2,
        JsMap.get k1 players = Some p1 -> JsMap.get k2 players = Some p2 ->
        Player.isHost p1 = true -> Player.isHost p2 = true -> k1 = k2).

(** [players'] has the keys of [players], and each of its members has the
    id, name and host flag of the member of [players] under the same
    key. *)
Definition same_members (players players' : list (string * Player.t))
  : Prop :=
  JsMap.keys players' = JsMap.keys players
  /\ forall k p',
       JsMap.get k players' = Some p' ->
       exists p,
         JsMap.get k players = Some p
         /\ Player.id p' = Player.id p /\ Player.name p' = Player.name p
         /\ Player.isHost p' = Player.isHost p.

(** The configuration of a room is the one it was created with, its
    deadlines carry the configured delays, and round and phase agree. *)
Definition round_ok (cfg : Config.t) (room : Room.t) : Prop :=
  Room.maxRounds room = Config.get (Config.maxRounds cfg) 10
  /\ Room.selectionDuration room = Config.get (Config.selectionDuration cfg) 15
  /\ Room.revealDuration room = Config.get (Config.revealDuration cfg) 5
  /\ (forall t, Room.selectionTimer room = Some t ->
                t = {| callback := CallEndSelectionPeriod;
                       delayMs := Room.selectionDuration room * 1000 |})
  /\ (forall t, Room.revealTimer room = Some t ->
                t = {| callback := CallEndRound;
                       delayMs := Room.revealDuration room * 1000 |})
  /\ Room.state room <> waiting_restart
  /\ (Room.state room = lobby \/ Room.state room = waiting_ready ->
      Room.currentRound room = 0)
  /\ (Room.state room = selection \/ Room.state room = revealing ->
      1 <= Room.currentRound room <= Room.maxRounds room)
  /\ (Room.state room = game_over ->
      Room.currentRound room = Room.maxRounds room).

(** * Properties *)

(** Every run of the server from its initial state is reachable. *)
Lemma reachable_run (cfg : Config.t) (actions : list Action) (s : Server.t) :
  reachable cfg s -> reachable cfg (run cfg actions s).
Proof.
  revert s. induction actions as [| a actions IH]; intros s Hs; [done |].
  cbn. apply IH. by constructor.
Qed.

(** ** Score engine *)

(** C7: for guesses and targets in 1..10 and scoring constants with
    reward > 0 > too-low penalty > too-high penalty, [calculatePoints]
    returns the reward exactly when guess = target (and never more than the
    reward), the too-low penalty exactly when guess < target, the too-high
    penalty exactly when guess > target, and [getResultType] returns
    perfect / too-low / too-high in the same three cases. *)
Theorem score_and_category_agree (cfg : Config.t) (guess target : Z) :
  1 <= guess <= 10 ->
  1 <= target <= 10 ->
  Config.get (Config.scoring_perfect cfg) 20 > 0 ->
  0 > Config.get (Config.scoring_tooLow cfg) (-5) ->
  Config.get (Config.scoring_tooLow cfg) (-5)
    > Config.get (Config.scoring_tooHigh cfg) (-10) ->
  (calculatePoints cfg guess target
     = Config.get (Config.scoring_perfect cfg) 20 <-> guess = target)
  /\ (calculatePoints cfg guess target
        = Config.get (Config.scoring_tooLow cfg) (-5) <-> guess < target)
  /\ (calculatePoints cfg guess target
        = Config.get (Config.scoring_tooHigh cfg) (-10) <-> guess > target)
  /\ calculatePoints cfg guess target
       <= Config.get (Config.scoring_perfect cfg) 20
  /\ (getResultType guess target = perfect <-> guess = target)
  /\ (getResultType guess target = too_low <-> guess < target)
  /\ (getResultType guess target = too_high <-> guess > target).
Proof.
  intros _ _ Hreward Hlow Hhigh.
  unfold calculatePoints, getResultType.
  destruct (Z.eqb_spec guess target) as [Heq | Hne].
  - repeat split; intros; try lia; try discriminate; try reflexivity.
  - destruct (Z.ltb_spec guess target) as [Hlt | Hge].
    + repeat split; intros; try lia; try discriminate; try reflexivity.
    + repeat split; intros; try lia; try discriminate; try reflexivity.
Qed.

Lemma score_and_category_agree_witness :
  (calculatePoints Config.defaults 5 7 = 20 <-> 5 = 7)
  /\ (calculatePoints Config.defaults 5 7 = -5 <-> 5 < 7)
  /\ (calculatePoints Config.defaults 5 7 = -10 <-> 5 > 7)
  /\ calculatePoints Config.defaults 5 7 <= 20
  /\ (getResultType 5 7 = perfect <-> 5 = 7)
  /\ (getResultType 5 7 = too_low <-> 5 < 7)
  /\ (getResultType 5 7 = too_high <-> 5 > 7).
Proof.
  apply (score_and_category_agree Config.defaults 5 7); simpl; lia.
Defined.

(** ** Sorting facts *)

Section SortFacts.
Context {A : Type}.
Variable key : A -> Z.

Lemma sort_insert_perm (compare : A -> A -> Z) x l :
  sort_insert compare x l ≡ₚ x :: l.
Proof.
  induction l as [| y l IH]; simpl; [done |].
  destruct (compare x y <=? 0); [done |].
  rewrite IH. apply Permutation_swap.
Qed.

Lemma sort_perm (compare : A -> A -> Z) l : sort compare l ≡ₚ l.
Proof.
  induction l as [| x l IH]; simpl; [done |].
  rewrite sort_insert_perm. by rewrite IH.
Qed.

Lemma sort_insert_sorted x l :
  StronglySorted (fun a b => key b <= key a) l ->
  StronglySorted (fun a b => key b <= key a)
    (sort_insert (fun a b => key b - key a) x l).
Proof.
  induction 1 as [| y l Hs IH Hy]; simpl.
  - repeat constructor.
  - destruct (Z.leb_spec (key y - key x) 0) as [Hle | Hgt].
    + constructor; [by constructor |].
      constructor; [lia |].
      eapply Forall_impl; [exact Hy |]. simpl. intros; lia.
    + constructor; [exact IH |].
      rewrite sort_insert_perm. constructor; [lia | exact Hy].
Qed.

Lemma sort_sorted l :
  StronglySorted (fun a b => key b <= key a)
    (sort (fun a b => key b - key a) l).
Proof.
  induction l as [| x l IH]; simpl; [constructor |].
  by apply sort_insert_sorted.
Qed.

Lemma StronglySorted_lookup_le (l : list A) i j a b :
  StronglySorted (fun a b => key b <= key a) l ->
  (i <= j)%nat -> l !! i = Some a -> l !! j = Some b -> key b <= key a.
Proof.
  intros Hs. revert i j.
  induction Hs as [| x l Hs IH Hx]; intros i j Hij Hi Hj; [done |].
  destruct i as [| i], j as [| j]; simpl in *; simplify_eq; try lia.
  - rewrite Forall_forall in Hx. apply Hx.
    apply list_elem_of_lookup. eauto.
  - apply (IH i j); [lia | done | done].
Qed.

(** The head of a list sorted downwards is a maximum of any permutation
    of it. *)
Lemma sorted_head_max (l l' : list A) first rest :
  StronglySorted (fun a b => key b <= key a) l ->
  l = first :: rest -> l ≡ₚ l' ->
  first ∈ l' /\ forall x, x ∈ l' -> key x <= key first.
Proof.
  intros Hs -> Hp. split.
  - rewrite <- Hp. by left.
  - intros x Hx. rewrite <- Hp in Hx.
    apply StronglySorted_cons in Hs as [Hall _].
    apply elem_of_cons in Hx as [-> | Hx]; [lia |].
    rewrite Forall_forall in Hall. by apply Hall.
Qed.
End SortFacts.

(** ** Final ranking *)

Section FinalRanking.
Implicit Types (room : Room.t) (sc : PlayerScore.t).

Lemma sortedScores_perm room :
  sortedScores room
    ≡ₚ map unrankedScore (JsMap.values (Room.players room)).
Proof. apply sort_perm. Qed.

Lemma sortedScores_sorted room :
  StronglySorted
    (fun a b => PlayerScore.score b <= PlayerScore.score a)
    (sortedScores room).
Proof. apply (sort_sorted PlayerScore.score). Qed.

Lemma finalScores_lookup room i :
  finalScores room !! i
  = (fun sc =>
       PlayerScore.mk (PlayerScore.playerId sc) (PlayerScore.playerName sc)
         (PlayerScore.score sc) (Z.of_nat i + 1)
         (PlayerScore.score sc =? highestScore (sortedScores room)))
      <$> sortedScores room !! i.
Proof. unfold finalScores. by rewrite list_lookup_imap. Qed.

Lemma finalScores_length room :
  length (finalScores room) = length (Room.players room).
Proof.
  unfold finalScores. rewrite length_imap, sortedScores_perm.
  unfold JsMap.values. by rewrite !length_map.
Qed.

Lemma finalScores_identity room :
  map (fun sc => (PlayerScore.playerId sc, PlayerScore.playerName sc,
                  PlayerScore.score sc)) (finalScores room)
  ≡ₚ map (fun p => (Player.id p, Player.name p, Player.score p))
       (JsMap.values (Room.players room)).
Proof.
  transitivity
    (map (fun sc => (PlayerScore.playerId sc, PlayerScore.playerName sc,
                     PlayerScore.score sc)) (sortedScores room)).
  - apply reflexive_eq. apply list_eq. intros i.
    change (map ?f ?l) with (f <$> l).
    rewrite !list_lookup_fmap, finalScores_lookup.
    by destruct (sortedScores room !! i).
  - rewrite sortedScores_perm. by rewrite map_map.
Qed.

Lemma highestScore_is_max room :
  Room.players room <> [] ->
  (exists p, p ∈ JsMap.values (Room.players room)
             /\ Player.score p = highestScore (sortedScores room))
  /\ (forall p, p ∈ JsMap.values (Room.players room) ->
                Player.score p <= highestScore (sortedScores room)).
Proof.
  intros Hne.
  destruct (sortedScores room) as [| first rest] eqn:Hsorted.
  - apply (f_equal length) in Hsorted.
    rewrite sortedScores_perm in Hsorted. unfold JsMap.values in Hsorted.
    rewrite !length_map in Hsorted. by destruct (Room.players room).
  - destruct (sorted_head_max PlayerScore.score (sortedScores room)
                (map unrankedScore (JsMap.values (Room.players room)))
                first rest (sortedScores_sorted room) Hsorted
                (sortedScores_perm room)) as [Hin Hmax].
    simpl. split.
    + apply list_elem_of_fmap in Hin as (p & -> & Hp). by exists p.
    + intros p Hp.
      apply (Hmax (unrankedScore p)). by apply list_elem_of_fmap_2.
Qed.
End FinalRanking.

(** C6: for a non-empty roster the final scores are the roster (same ids,
    names and scores), ordered by descending score; the entry at position
    [i] has rank [i + 1], so ranks are 1..n and tied scores get distinct
    consecutive ranks; [isWinner] holds exactly for the entries whose score
    is the maximum score of the roster; a single-player room yields one
    entry with rank 1 and [isWinner] true.  [endGame] returns and
    broadcasts exactly this list. *)
Theorem final_scores_ranking (roomCode : string) (room : Room.t) :
  Room.players room <> [] ->
  snd (endGame_room roomCode room) = finalScores room
  /\ snd (fst (endGame_room roomCode room))
     = [ToRoom roomCode (GameEnded (finalScores room))]
  /\ map (fun sc => (PlayerScore.playerId sc, PlayerScore.playerName sc,
                     PlayerScore.score sc)) (finalScores room)
     ≡ₚ map (fun p => (Player.id p, Player.name p, Player.score p))
          (JsMap.values (Room.players room))
  /\ (forall i j a b,
        (i <= j)%nat ->
        finalScores room !! i = Some a -> finalScores room !! j = Some b ->
        PlayerScore.score b <= PlayerScore.score a)
  /\ (forall i a,
        finalScores room !! i = Some a -> PlayerScore.rank a = Z.of_nat i + 1)
  /\ (exists highest,
        (exists p, p ∈ JsMap.values (Room.players room)
                   /\ Player.score p = highest)
        /\ (forall p, p ∈ JsMap.values (Room.players room) ->
                      Player.score p <= highest)
        /\ forall a, a ∈ finalScores room ->
             (PlayerScore.isWinner a = true <-> PlayerScore.score a = highest))
  /\ (forall k p,
        Room.players room = [(k, p)] ->
        finalScores room
        = [PlayerScore.mk (Player.id p) (Player.name p) (Player.score p)
             1 true]).
Proof.
  intros Hne.
  assert (Hstate : forall r : Room.t,
             finalScores (clearRevealTimer (clearSelectionTimer
                            (Room.set_state game_over r))) = finalScores r).
  { intros r. unfold clearRevealTimer, clearSelectionTimer.
    destruct r as [c ps st cr mr [t1 |] [t2 |] sd rd wh rc ca]; reflexivity. }
  split; [apply Hstate |].
  split; [unfold endGame_room; simpl; by rewrite Hstate |].
  split; [apply finalScores_identity |].
  split.
  { intros i j a b Hij Ha Hb.
    rewrite finalScores_lookup in Ha, Hb.
    apply fmap_Some in Ha as (a' & Ha & ->), Hb as (b' & Hb & ->). simpl.
    exact (StronglySorted_lookup_le PlayerScore.score _ i j a' b'
             (sortedScores_sorted room) Hij Ha Hb). }
  split.
  { intros i a Ha. rewrite finalScores_lookup in Ha.
    by apply fmap_Some in Ha as (a' & _ & ->). }
  split.
  { exists (highestScore (sortedScores room)).
    destruct (highestScore_is_max room Hne) as [Hex Hmax].
    split; [exact Hex |]. split; [exact Hmax |].
    intros a Ha. apply list_elem_of_lookup in Ha as [i Ha].
    rewrite finalScores_lookup in Ha.
    apply fmap_Some in Ha as (a' & _ & ->). simpl. apply Z.eqb_eq. }
  intros k p Hp. unfold finalScores, sortedScores. rewrite Hp. simpl.
  by rewrite Z.eqb_refl.
Qed.

(** ** Facts about the insertion-ordered map *)

Section JsMapFacts.
Context {V : Type}.
Implicit Types (m : list (string * V)) (k : string) (v : V).

Lemma JsMap_get_set_eq k v m : JsMap.get k (JsMap.set k v m) = Some v.
Proof.
  induction m as [| [k' v'] m IH]; simpl.
  - by rewrite String.eqb_refl.
  - destruct (String.eqb_spec k k') as [-> | Hne]; simpl.
    + by rewrite String.eqb_refl.
    + by destruct (String.eqb_spec k k').
Qed.

Lemma JsMap_get_set_ne k k' v m :
  k <> k' -> JsMap.get k' (JsMap.set k v m) = JsMap.get k' m.
Proof.
  intros Hne. induction m as [| [k0 v0] m IH]; simpl.
  - by destruct (String.eqb_spec k' k).
  - destruct (String.eqb_spec k k0) as [-> | Hne0]; simpl.
    + by destruct (String.eqb_spec k' k0).
    + by rewrite IH.
Qed.

Lemma JsMap_keys_set_in k v v0 m :
  JsMap.get k m = Some v0 -> JsMap.keys (JsMap.set k v m) = JsMap.keys m.
Proof.
  unfold JsMap.keys.
  induction m as [| [k' v'] m IH]; simpl; [done |].
  destruct (String.eqb_spec k k') as [-> | Hne]; simpl; [done |].
  intros Hget. f_equal. by apply IH.
Qed.

Lemma JsMap_get_None k m : JsMap.get k m = None <-> k ∉ JsMap.keys m.
Proof.
  induction m as [| [k' v'] m IH]; simpl.
  - split; [intros _; apply not_elem_of_nil | done].
  - rewrite not_elem_of_cons.
    destruct (String.eqb_spec k k') as [-> | Hne]; [naive_solver |].
    rewrite IH. naive_solver.
Qed.

Lemma JsMap_keys_set_fresh k v m :
  JsMap.get k m = None ->
  JsMap.keys (JsMap.set k v m) = (JsMap.keys m ++ [k])%list.
Proof.
  unfold JsMap.keys.
  induction m as [| [k' v'] m IH]; simpl; [done |].
  destruct (String.eqb_spec k k') as [-> | Hne]; simpl; [done |].
  intros Hget. f_equal. by apply IH.
Qed.

Lemma JsMap_set_NoDup k v m :
  NoDup (JsMap.keys m) -> NoDup (JsMap.keys (JsMap.set k v m)).
Proof.
  intros Hnd. destruct (JsMap.get k m) as [v0 |] eqn:Hget.
  - by rewrite (JsMap_keys_set_in k v v0).
  - rewrite JsMap_keys_set_fresh by done.
    apply NoDup_app. split; [done |]. split; [| apply NoDup_singleton].
    intros x Hx ->%list_elem_of_singleton.
    by apply JsMap_get_None in Hget.
Qed.

Lemma JsMap_keys_delete_subseteq k m :
  JsMap.keys (JsMap.delete k m) ⊆ JsMap.keys m.
Proof.
  induction m as [| [k' v'] m IH]; simpl; [done |].
  destruct (String.eqb k k'); simpl; set_solver.
Qed.

Lemma JsMap_delete_NoDup k m :
  NoDup (JsMap.keys m) -> NoDup (JsMap.keys (JsMap.delete k m)).
Proof.
  induction m as [| [k' v'] m IH]; simpl; [done |].
  intros [Hk Hnd]%NoDup_cons.
  destruct (String.eqb k k'); simpl; [done |].
  apply NoDup_cons. split; [| by apply IH].
  intros Hin. apply Hk. by apply (JsMap_keys_delete_subseteq k m).
Qed.

Lemma JsMap_get_delete_eq k m :
  NoDup (JsMap.keys m) -> JsMap.get k (JsMap.delete k m) = None.
Proof.
  induction m as [| [k' v'] m IH]; simpl; [done |].
  intros [Hk Hnd]%NoDup_cons.
  destruct (String.eqb_spec k k') as [-> | Hne]; simpl.
  - by apply JsMap_get_None.
  - destruct (String.eqb_spec k k'); [done | by apply IH].
Qed.

Lemma JsMap_get_delete_ne k k' m :
  k <> k' -> JsMap.get k' (JsMap.delete k m) = JsMap.get k' m.
Proof.
  intros Hne. induction m as [| [k0 v0] m IH]; simpl; [done |].
  destruct (String.eqb_spec k k0) as [-> | Hne0]; simpl.
  - by destruct (String.eqb_spec k' k0).
  - by rewrite IH.
Qed.

Lemma JsMap_get_forEach (f : V -> V) k m :
  JsMap.get k (JsMap.forEach f m) = f <$> JsMap.get k m.
Proof.
  induction m as [| [k' v'] m IH]; simpl; [done |].
  by destruct (String.eqb k k').
Qed.

Lemma JsMap_keys_forEach (f : V -> V) m :
  JsMap.keys (JsMap.forEach f m) = JsMap.keys m.
Proof.
  unfold JsMap.keys, JsMap.forEach. rewrite map_map. by apply map_ext.
Qed.

Lemma JsMap_values_forEach (f : V -> V) m :
  JsMap.values (JsMap.forEach f m) = map f (JsMap.values m).
Proof.
  unfold JsMap.values, JsMap.forEach. by rewrite !map_map.
Qed.

Lemma JsMap_size_0 m : (JsMap.size m =? 0) = bool_decide (m = []).
Proof. by destruct m. Qed.
End JsMapFacts.

(** ** Joining a room *)

(** C10: [joinRoom] returns true for every registered room whatever its
    phase, leaves the phase and every other field of the room as they
    are, and stores under the new id a player with empty name, not ready,
    score 0, no guess, connected, who is host exactly when the roster was
    empty before the join; the other roster entries are as they were,
    and the player is indexed under the room. *)
Theorem joinRoom_succeeds_in_any_phase
    (roomCode playerId socketId : string) (s : Server.t) (room : Room.t) :
  Server.rooms s !! roomCode = Some room ->
  snd (joinRoom roomCode playerId socketId s) = true
  /\ (exists room' joined,
        Server.rooms (fst (joinRoom roomCode playerId socketId s)) !! roomCode
        = Some room'
        /\ Room.state room' = Room.state room
        /\ JsMap.get playerId (Room.players room') = Some joined
        /\ Player.id joined = playerId
        /\ Player.socketId joined = socketId
        /\ Player.name joined = ""
        /\ Player.isReady joined = false
        /\ Player.isHost joined = bool_decide (Room.players room = [])
        /\ Player.score joined = 0
        /\ Player.currentHeight joined = None
        /\ Player.isConnected joined = true
        /\ (forall other,
              other <> playerId ->
              JsMap.get other (Room.players room')
              = JsMap.get other (Room.players room))
        /\ room'
           = Room.mk (Room.code room)
               (JsMap.set playerId
                  (Player.mk playerId socketId "" false
                     (bool_decide (Room.players room = [])) 0 None true)
                  (Room.players room))
               (Room.state room) (Room.currentRound room)
               (Room.maxRounds room) (Room.selectionTimer room)
               (Room.revealTimer room) (Room.selectionDuration room)
               (Room.revealDuration room) (Room.currentWallHole room)
               (Room.restartConsents room) (Room.createdAt room))
  /\ Server.playerRoomMap (fst (joinRoom roomCode playerId socketId s))
       !! playerId = Some roomCode.
Proof.
  intros Hroom. unfold joinRoom. rewrite Hroom.
  cbn [fst snd putRoom Server.rooms Server.playerRoomMap
       Server.set_rooms Server.set_playerRoomMap].
  rewrite JsMap_size_0.
  split; [done |]. split; [| by rewrite lookup_insert_eq].
  eexists _, _. split; [by rewrite lookup_insert_eq |].
  split; [reflexivity |].
  split; [cbn [Room.players Room.set_players]; apply JsMap_get_set_eq |].
  do 8 (split; [reflexivity |]).
  split; [| reflexivity].
  intros other Hne. cbn [Room.players Room.set_players].
  by apply JsMap_get_set_ne.
Qed.

Lemma joinRoom_succeeds_in_any_phase_witness :
  snd (joinRoom "ABC123" "p9" "s9" Scenario.finished) = true.
Proof.
  exact (proj1 (joinRoom_succeeds_in_any_phase "ABC123" "p9" "s9"
                  Scenario.finished (Scenario.roomIn game_over Scenario.roster)
                  eq_refl)).
Defined.

(** The gateway's join handler on a registered room: no size check is
    made; the player is added and the join is acknowledged. *)
Lemma handleJoinRoom_registered_room
    (client roomCode playerId : string) (s : Server.t) (room : Room.t) :
  Server.rooms s !! roomCode = Some room ->
  exists room',
    Server.rooms (fst (GameGateway.handleJoinRoom client roomCode playerId s))
      !! roomCode = Some room'
    /\ Room.players room'
       = JsMap.set playerId
           (newPlayer playerId client (bool_decide (Room.players room = [])))
           (Room.players room)
    /\ snd (GameGateway.handleJoinRoom client roomCode playerId s)
       = [ToClient client (RoomJoined roomCode playerId);
          ToClient client
            (RoomStateMsg (Room.code room') (Room.state room')
               (Room.currentRound room') (Room.maxRounds room')
               (GameGateway.playerViews room'));
          ToRoom roomCode (PlayerListUpdated (GameGateway.playerViews room'))].
Proof.
  intros Hroom. unfold GameGateway.handleJoinRoom, getRoom, joinRoom.
  rewrite Hroom. simpl.
  unfold GameGateway.emitRoomState, GameGateway.emitPlayerListUpdate, getRoom.
  simpl. rewrite lookup_insert_eq, JsMap_size_0.
  eexists. split; [reflexivity |]. split; reflexivity.
Qed.

(** C3 (evaluation at the failing input): with [maxPlayersPerRoom] = 2 and
    a lobby that already holds two players, a third join is acknowledged
    with room-joined, no room-error is sent, and the roster grows to three
    players. *)
Theorem join_full_room_is_accepted :
  Config.maxPlayersPerRoom Scenario.smallRooms = Some 2
  /\ reachable Scenario.smallRooms Scenario.lobbyOfTwo
  /\ (Room.players <$> Server.rooms Scenario.lobbyOfTwo !! "ABC123")
     = Some [("p1", newPlayer "p1" "s1" true);
             ("p2", newPlayer "p2" "s2" false)]
  /\ (Room.players
        <$> Server.rooms
              (fst (step Scenario.smallRooms (JoinRoom "s3" "ABC123" "p3")
                      Scenario.lobbyOfTwo)) !! "ABC123")
     = Some [("p1", newPlayer "p1" "s1" true);
             ("p2", newPlayer "p2" "s2" false);
             ("p3", newPlayer "p3" "s3" false)]
  /\ head (snd (step Scenario.smallRooms (JoinRoom "s3" "ABC123" "p3")
                  Scenario.lobbyOfTwo))
     = Some (ToClient "s3" (RoomJoined "ABC123" "p3"))
  /\ forall message,
       ToClient "s3" (RoomError message)
         ∉ snd (step Scenario.smallRooms (JoinRoom "s3" "ABC123" "p3")
                  Scenario.lobbyOfTwo).
Proof.
  split; [reflexivity |].
  split; [apply reachable_run; constructor |].
  split; [vm_compute; reflexivity |]. split; [vm_compute; reflexivity |].
  split; [vm_compute; reflexivity |].
  intros message Hin. vm_compute in Hin.
  repeat (apply elem_of_cons in Hin as [Hin | Hin]; [discriminate |]).
  by apply elem_of_nil in Hin.
Qed.

(** ** Registry bookkeeping *)

Lemma putRoom_same (roomCode : string) (room : Room.t) (s : Server.t) :
  Server.rooms s !! roomCode = Some room -> putRoom roomCode room s = s.
Proof.
  intros Hroom. unfold putRoom, Server.set_rooms.
  rewrite insert_id by done. by destruct s.
Qed.

Lemma rooms_deleteRoom (roomCode : string) (s : Server.t) :
  Server.rooms (deleteRoom roomCode s) = delete roomCode (Server.rooms s).
Proof.
  unfold deleteRoom. destruct (Server.rooms s !! roomCode) eqn:Hroom; simpl.
  - done.
  - by rewrite delete_id.
Qed.

Lemma rooms_forgetSocket (client : string) (s : Server.t) :
  Server.rooms (GameGateway.forgetSocket client s) = Server.rooms s.
Proof. done. Qed.

Lemma promoteFirst_keys (players : list (string * Player.t)) :
  JsMap.keys (GameGateway.promoteFirst players) = JsMap.keys players.
Proof. by destruct players as [| [k p] rest]. Qed.

(** ** Guesses outside the selection phase *)

(** C8: when the acting player's room is not in phase selection, the
    select-height handler leaves the whole server state (hence every
    player's [currentHeight]) unchanged and answers the acting connection
    alone with a room-error; [submitHeight] itself changes nothing on a
    room that is not in selection. *)
Theorem guess_outside_selection_rejected
    (client : string) (height : Z) (s : Server.t)
    (playerId : string) (room : Room.t) :
  truthy (Server.socketPlayerMap s !! client) = Some playerId ->
  getRoomByPlayerId playerId s = Some room ->
  Room.state room <> selection ->
  GameGateway.handleSelectHeight client height s
  = (s, [ToClient client (RoomError "No es momento de seleccionar altura")])
  /\ (forall roomCode anyPlayer anyHeight,
        Server.rooms s !! roomCode = Some room ->
        submitHeight roomCode anyPlayer anyHeight s = (s, [])).
Proof.
  intros Hplayer Hroom Hstate. split.
  - unfold GameGateway.handleSelectHeight. rewrite Hplayer, Hroom.
    by rewrite bool_decide_eq_true_2.
  - intros roomCode anyPlayer anyHeight Hlookup.
    unfold submitHeight, onRoom, submitHeight_room. rewrite Hlookup.
    rewrite bool_decide_eq_true_2 by done.
    by rewrite putRoom_same.
Qed.

Lemma guess_outside_selection_rejected_witness :
  GameGateway.handleSelectHeight "s2" 4 Scenario.finished
  = (Scenario.finished,
     [ToClient "s2" (RoomError "No es momento de seleccionar altura")]).
Proof.
  refine (proj1 (guess_outside_selection_rejected "s2" 4 Scenario.finished
                   "p2" (Scenario.roomIn game_over Scenario.roster) _ _ _)).
  - reflexivity.
  - reflexivity.
  - discriminate.
Defined.

(** ** Losing a connection *)

Section DisconnectBranches.
Variables (client : string) (s : Server.t) (playerId key : string)
          (room : Room.t) (player : Player.t).
Hypothesis Hsock :
  truthy (Server.socketPlayerMap s !! client) = Some playerId.
Hypothesis Hkey : roomKeyOf playerId s = Some key.
Hypothesis Hroom : Server.rooms s !! key = Some room.
Hypothesis Hget : JsMap.get playerId (Room.players room) = Some player.

Lemma handleDisconnect_before_game :
  Room.state room = lobby \/ Room.state room = waiting_ready ->
  let remaining := JsMap.delete playerId (Room.players room) in
  let roster :=
    if Player.isHost player && (JsMap.size remaining >? 0)
    then GameGateway.promoteFirst remaining else remaining in
  let s1 := putRoom key (Room.set_players roster room) s in
  fst (GameGateway.handleDisconnect client s)
  = GameGateway.forgetSocket client
      (if JsMap.size roster =? 0 then deleteRoom (Room.code room) s1
       else s1).
Proof.
  intros Hphase. unfold GameGateway.handleDisconnect.
  rewrite Hsock, Hkey, Hroom, Hget.
  replace (bool_decide (Room.state room = lobby)
           || bool_decide (Room.state room = waiting_ready)) with true
    by (destruct Hphase as [-> | ->]; reflexivity).
  reflexivity.
Qed.

Lemma handleDisconnect_during_game :
  Room.state room <> lobby -> Room.state room <> waiting_ready ->
  let kept :=
    JsMap.set playerId (Player.set_isConnected false player)
      (Room.players room) in
  let s1 := putRoom key (Room.set_players kept room) s in
  fst (GameGateway.handleDisconnect client s)
  = GameGateway.forgetSocket client
      (if forallb (fun p => negb (Player.isConnected p)) (JsMap.values kept)
       then deleteRoom (Room.code room) s1 else s1).
Proof.
  intros Hlobby Hwaiting. unfold GameGateway.handleDisconnect.
  rewrite Hsock, Hkey, Hroom, Hget.
  rewrite !bool_decide_eq_false_2 by done.
  reflexivity.
Qed.
End DisconnectBranches.


Lemma final_scores_ranking_witness :
  snd (endGame_room "ABC123" (Scenario.roomIn revealing Scenario.roster))
  = finalScores (Scenario.roomIn revealing Scenario.roster).
Proof.
  refine (proj1 (final_scores_ranking "ABC123"
                   (Scenario.roomIn revealing Scenario.roster) _)).
  discriminate.
Defined.

(** The ranking of the scenario roster: two players tied at the top are
    both winners and take ranks 1 and 2 in roster order. *)
Example finalScores_tie :
  finalScores (Scenario.roomIn revealing Scenario.roster)
  = [PlayerScore.mk "p1" "Ana" 40 1 true;
     PlayerScore.mk "p2" "Beto" 40 2 true;
     PlayerScore.mk "p3" "Caro" 15 3 false;
     PlayerScore.mk "p4" "Dani" 15 4 false].
Proof. reflexivity. Qed.

(** ** Restart consensus *)

Lemma checkAllRestartConsents_room_true (room : Room.t) :
  checkAllRestartConsents_room room = true
  <-> Room.players room <> []
      /\ forall p, p ∈ JsMap.values (Room.players room) ->
                   Player.isConnected p = true ->
                   Player.id p ∈ Room.restartConsents room.
Proof.
  unfold checkAllRestartConsents_room. rewrite JsMap_size_0.
  case_bool_decide as Hempty.
  - split; [done | by intros [? _]].
  - rewrite forallb_forall. split.
    + intros Hall. split; [done |]. intros p Hp Hconn.
      apply list_elem_of_In in Hp. specialize (Hall p Hp).
      rewrite Hconn in Hall. simpl in Hall.
      apply negb_true_iff, negb_false_iff in Hall.
      by apply bool_decide_eq_true in Hall.
    + intros [_ Hall] p Hp. apply list_elem_of_In in Hp.
      destruct (Player.isConnected p) eqn:Hconn; [| done]. simpl.
      apply negb_true_iff, negb_false_iff, bool_decide_eq_true.
      by apply Hall.
Qed.


(** A consent that leaves some connected player without consent is only
    recorded. *)
Lemma consent_recorded (playerId : string) (room : Room.t) (p : Player.t) :
  Room.state room = game_over ->
  p ∈ JsMap.values (Room.players room) ->
  Player.isConnected p = true ->
  Player.id p ∉ ({[playerId]} ∪ Room.restartConsents room : gset string) ->
  handleRestartConsent_room playerId room
  = Room.set_restartConsents ({[playerId]} ∪ Room.restartConsents room) room.
Proof.
  intros Hstate Hp Hconn Hnot. unfold handleRestartConsent_room.
  rewrite bool_decide_eq_false_2 by (rewrite Hstate; auto).
  destruct (checkAllRestartConsents_room _) eqn:Hcheck; [| done].
  apply checkAllRestartConsents_room_true in Hcheck as [_ Hall].
  exfalso. apply Hnot. by apply (Hall p).
Qed.

(** The consent that completes the set restarts the game. *)
Lemma consent_completes (playerId : string) (room : Room.t) :
  Room.state room = game_over ->
  Room.players room <> [] ->
  (forall p, p ∈ JsMap.values (Room.players room) ->
             Player.isConnected p = true ->
             Player.id p ∈ ({[playerId]} ∪ Room.restartConsents room
                            : gset string)) ->
  handleRestartConsent_room playerId room
  = restartGame_room
      (Room.set_restartConsents ({[playerId]} ∪ Room.restartConsents room)
         room).
Proof.
  intros Hstate Hne Hall. unfold handleRestartConsent_room.
  rewrite bool_decide_eq_false_2 by (rewrite Hstate; auto).
  destruct (checkAllRestartConsents_room _) eqn:Hcheck; [done |].
  apply not_true_iff_false in Hcheck. exfalso. apply Hcheck.
  by apply checkAllRestartConsents_room_true.
Qed.



(** C1 (evaluation at the failing input): after two players have played
    the ten rounds of a game and nobody has consented to a restart, the
    player-ready message of a connected, named player is not rejected.
    All connected players still carry the readiness flag of the game that
    ended, so the handler starts a game: the room leaves game-over for
    selection at round 1, with the scores of the finished game kept and a
    selection deadline armed. *)
Theorem ready_in_game_over_leaves_game_over :
  reachable Config.defaults Scenario.played
  /\ (Room.state <$> Server.rooms Scenario.played !! "ABC123")
     = Some game_over
  /\ (Room.restartConsents <$> Server.rooms Scenario.played !! "ABC123")
     = Some ∅
  /\ (Room.state
        <$> Server.rooms
              (fst (step Config.defaults (PlayerReady "s1") Scenario.played))
              !! "ABC123")
     = Some selection
  /\ (Room.currentRound
        <$> Server.rooms
              (fst (step Config.defaults (PlayerReady "s1") Scenario.played))
              !! "ABC123")
     = Some 1
  /\ ((fun room => map Player.score (JsMap.values (Room.players room)))
        <$> Server.rooms
              (fst (step Config.defaults (PlayerReady "s1") Scenario.played))
              !! "ABC123")
     = Some [-25; -50]
  /\ (Room.selectionTimer
        <$> Server.rooms
              (fst (step Config.defaults (PlayerReady "s1") Scenario.played))
              !! "ABC123")
     = Some (Some {| callback := CallEndSelectionPeriod; delayMs := 15000 |}).
Proof.
  split; [apply reachable_run; constructor |].
  repeat split; vm_compute; reflexivity.
Qed.

(** ** Reveal of a round *)

Section Reveal.
Variable cfg : Config.t.
Variables (roomCode : string) (wallHole : Z).

Lemma endSelectionPeriod_room_selection (room : Room.t) :
  Room.state room = selection ->
  Room.players (fst (endSelectionPeriod_room cfg roomCode wallHole room))
  = JsMap.forEach (fun p => fst (revealed cfg wallHole p)) (Room.players room)
  /\ snd (endSelectionPeriod_room cfg roomCode wallHole room)
     = [ToRoom roomCode SelectionLocked;
        ToRoom roomCode
          (WallRevealed wallHole
             (map (fun p => snd (revealed cfg wallHole p))
                (JsMap.values (Room.players room))))]
  /\ Room.state (fst (endSelectionPeriod_room cfg roomCode wallHole room))
     = revealing.
Proof.
  intros Hstate. unfold endSelectionPeriod_room.
  rewrite bool_decide_eq_false_2 by (rewrite Hstate; auto).
  unfold calculateResults_room, clearSelectionTimer, revealed.
  destruct (Room.selectionTimer room); cbn.
  - unfold JsMap.forEach, JsMap.values. rewrite !map_map. done.
  - unfold JsMap.forEach, JsMap.values. rewrite !map_map. done.
Qed.
End Reveal.





(** ** Deadlines *)

Section RoomChanges.
Implicit Types (r room : Room.t).

Lemma quiet_refl r : quiet r r.
Proof. unfold quiet. auto. Qed.

Lemma room_change_refl r : room_change r r.
Proof. left. apply quiet_refl. Qed.

Lemma quiet_set_players players r : quiet r (Room.set_players players r).
Proof. unfold quiet. auto. Qed.

Lemma clearSelectionTimer_None r :
  Room.selectionTimer (clearSelectionTimer r) = None.
Proof.
  unfold clearSelectionTimer.
  by destruct (Room.selectionTimer r) eqn:Htimer.
Qed.

Lemma clearRevealTimer_None r :
  Room.revealTimer (clearRevealTimer r) = None.
Proof.
  unfold clearRevealTimer.
  by destruct (Room.revealTimer r) eqn:Htimer.
Qed.

Lemma clearRevealTimer_selectionTimer r :
  Room.selectionTimer (clearRevealTimer r) = Room.selectionTimer r.
Proof. unfold clearRevealTimer. by destruct (Room.revealTimer r). Qed.

Lemma clearRevealTimer_state r :
  Room.state (clearRevealTimer r) = Room.state r.
Proof. unfold clearRevealTimer. by destruct (Room.revealTimer r). Qed.

Lemma clearSelectionTimer_state r :
  Room.state (clearSelectionTimer r) = Room.state r.
Proof. unfold clearSelectionTimer. by destruct (Room.selectionTimer r). Qed.

Lemma startRound_room_one_armed roomCode r :
  one_armed (fst (startRound_room roomCode r)).
Proof.
  left. unfold startRound_room. cbn.
  split; [done |]. split; [done |]. apply clearRevealTimer_None.
Qed.

Lemma startGame_room_one_armed roomCode r :
  one_armed (fst (startGame_room roomCode r)).
Proof. apply startRound_room_one_armed. Qed.

Lemma submitHeight_room_quiet playerId height r :
  quiet r (submitHeight_room playerId height r).
Proof.
  unfold submitHeight_room. case_bool_decide; [apply quiet_refl |].
  destruct (JsMap.get playerId (Room.players r));
    [apply quiet_set_players | apply quiet_refl].
Qed.

Lemma endSelectionPeriod_room_change cfg roomCode wallHole r :
  room_change r (fst (endSelectionPeriod_room cfg roomCode wallHole r)).
Proof.
  unfold endSelectionPeriod_room.
  case_bool_decide; [apply room_change_refl |].
  right; left; right. unfold calculateResults_room. cbn.
  split; [done |]. split; [apply clearSelectionTimer_None | done].
Qed.

Lemma endGame_room_over_disarmed roomCode r :
  over_disarmed (fst (fst (endGame_room roomCode r))).
Proof.
  unfold endGame_room. cbn.
  split; [by rewrite clearRevealTimer_state, clearSelectionTimer_state |].
  split; [| apply clearRevealTimer_None].
  by rewrite clearRevealTimer_selectionTimer, clearSelectionTimer_None.
Qed.

Lemma endRound_room_change roomCode r :
  room_change r (fst (endRound_room roomCode r)).
Proof.
  unfold endRound_room.
  case_bool_decide; [apply room_change_refl |].
  destruct (_ >=? _).
  - right; right.
    pose proof (endGame_room_over_disarmed roomCode (clearRevealTimer r)).
    by destruct (endGame_room roomCode (clearRevealTimer r)) as [[r1 o1] sc].
  - right; left.
    pose proof (startRound_room_one_armed roomCode
      (Room.set_currentRound (Room.currentRound (clearRevealTimer r) + 1)
         (clearRevealTimer r))) as Hone.
    by destruct (startRound_room roomCode _) as [r1 o1].
Qed.

Lemma handleRestartConsent_room_quiet playerId r :
  quiet r (handleRestartConsent_room playerId r).
Proof.
  unfold handleRestartConsent_room.
  case_bool_decide as Hstate; [apply quiet_refl |].
  destruct (checkAllRestartConsents_room _); [| by unfold quiet; auto].
  unfold quiet, restartGame_room, timed. cbn. rewrite Hstate.
  split; [done |]. split; [done |]. right. split; intros [? | ?]; done.
Qed.

(** A change keeps the discipline, and leaves no handle armed only when
    there was none or when the game is over. *)
Lemma room_change_sound r r' :
  timers_match_phase r -> room_change r r' ->
  timers_match_phase r'
  /\ (armedCount r' = 1%nat
      \/ (armedCount r' = 0%nat
          /\ (armedCount r = 0%nat \/ Room.state r' = game_over))).
Proof.
  unfold timers_match_phase, armedCount.
  intros [Hsel Hrev]
    [(Hs & Hr & Hst) | [[(Hst & Hs & Hr) | (Hst & Hs & Hr)] | (Hst & Hs & Hr)]].
  - rewrite Hs, Hr.
    assert (Hphase : Room.selectionTimer r <> None
                     \/ Room.revealTimer r <> None ->
                     Room.state r' = Room.state r).
    { intros Harmed. destruct Hst as [Hsame | [Huntimed _]]; [done |].
      exfalso. apply Huntimed. unfold timed.
      destruct Harmed as [Ha | Ha]; [left; auto | right; auto]. }
    split.
    + split; intros Ha.
      * rewrite Hphase by auto. auto.
      * rewrite Hphase by auto. auto.
    + destruct (Room.selectionTimer r) as [t1 |],
               (Room.revealTimer r) as [t2 |]; simpl; auto.
      specialize (Hsel ltac:(done)). specialize (Hrev ltac:(done)).
      congruence.
  - rewrite Hr. split; [split; [done | done] |].
    destruct (Room.selectionTimer r'); [by left | done].
  - rewrite Hs. split; [split; [done | done] |].
    destruct (Room.revealTimer r'); [by left | done].
  - rewrite Hs, Hr. split; [split; done |]. right. auto.
Qed.
End RoomChanges.

Section ServerChanges.
Implicit Types (s : Server.t) (r room : Room.t).

Lemma evolves_refl s : evolves s s.
Proof.
  intros roomCode r' Hr'. rewrite Hr'. apply room_change_refl.
Qed.

(** Dropping rooms, or touching only the id maps, keeps [evolves]. *)
Lemma evolves_shrink s s1 s2 :
  evolves s s1 ->
  (forall roomCode r',
     Server.rooms s2 !! roomCode = Some r' ->
     Server.rooms s1 !! roomCode = Some r') ->
  evolves s s2.
Proof. intros Hev Hsub roomCode r' Hr'. apply Hev. by apply Hsub. Qed.

Lemma evolves_putRoom key r r1 s :
  Server.rooms s !! key = Some r -> room_change r r1 ->
  evolves s (putRoom key r1 s).
Proof.
  intros Hkey Hchange roomCode r'. cbn.
  destruct (decide (key = roomCode)) as [<- | Hne].
  - rewrite lookup_insert_eq, Hkey. by intros [= <-].
  - rewrite lookup_insert_ne by done. intros Hr'. rewrite Hr'.
    apply room_change_refl.
Qed.

Lemma evolves_onRoom roomCode (f : Room.t -> Room.t * list Emit) s :
  (forall r, room_change r (fst (f r))) ->
  evolves s (fst (onRoom roomCode f s)).
Proof.
  intros Hf. unfold onRoom.
  destruct (Server.rooms s !! roomCode) as [r |] eqn:Hroom.
  - specialize (Hf r). destruct (f r) as [r1 out]. cbn.
    by apply (evolves_putRoom roomCode r).
  - apply evolves_refl.
Qed.

(** A transition whose outcome does not depend on the room it starts
    from can follow any change of rooms that creates none. *)
Lemma evolves_then_decisive roomCode (f : Room.t -> Room.t * list Emit)
    s s1 :
  evolves s s1 ->
  (forall c, is_Some (Server.rooms s1 !! c) -> is_Some (Server.rooms s !! c)) ->
  (forall r, one_armed (fst (f r)) \/ over_disarmed (fst (f r))) ->
  evolves s (fst (onRoom roomCode f s1)).
Proof.
  intros Hev Hdom Hf. unfold onRoom.
  destruct (Server.rooms s1 !! roomCode) as [r |] eqn:Hroom; [| done].
  specialize (Hf r). destruct (f r) as [r1 out]. cbn in *.
  intros c r'. cbn.
  destruct (decide (roomCode = c)) as [<- | Hne].
  - rewrite lookup_insert_eq. intros [= <-].
    destruct (Hdom roomCode) as [r0 Hr0]; [by eexists |].
    rewrite Hr0. by right.
  - rewrite lookup_insert_ne by done. apply Hev.
Qed.

Lemma deleteRoom_shrinks roomCode s c r' :
  Server.rooms (deleteRoom roomCode s) !! c = Some r' ->
  Server.rooms s !! c = Some r'.
Proof.
  rewrite rooms_deleteRoom. intros Hlookup.
  by apply lookup_delete_Some in Hlookup as [_ ?].
Qed.

Lemma evolves_forgetSocket client s :
  evolves s (GameGateway.forgetSocket client s).
Proof. by apply (evolves_shrink s s); [apply evolves_refl |]. Qed.

Lemma handleDisconnect_evolves client s :
  evolves s (fst (GameGateway.handleDisconnect client s)).
Proof.
  unfold GameGateway.handleDisconnect.
  destruct (truthy _) as [playerId |]; [| apply evolves_refl].
  destruct (roomKeyOf playerId s) as [key |];
    [| apply evolves_forgetSocket].
  destruct (Server.rooms s !! key) as [room |] eqn:Hroom;
    [| apply evolves_forgetSocket].
  destruct (JsMap.get playerId (Room.players room)) as [player |];
    [| apply evolves_forgetSocket].
  destruct (_ || _); cbn [fst].
  - match goal with
    | |- evolves _ (GameGateway.forgetSocket _ (if _ then _ else ?s1)) =>
        apply (evolves_shrink s s1)
    end.
    + apply (evolves_putRoom key room); [done |].
      left. apply quiet_set_players.
    + intros c r'. rewrite rooms_forgetSocket.
      destruct (_ =? _); [apply deleteRoom_shrinks | done].
  - match goal with
    | |- evolves _ (GameGateway.forgetSocket _ (if _ then _ else ?s1)) =>
        apply (evolves_shrink s s1)
    end.
    + apply (evolves_putRoom key room); [done |].
      left. apply quiet_set_players.
    + intros c r'. rewrite rooms_forgetSocket.
      destruct (forallb _ _); [apply deleteRoom_shrinks | done].
Qed.

Lemma joinRoom_evolves roomCode playerId socketId s :
  evolves s (fst (joinRoom roomCode playerId socketId s)).
Proof.
  unfold joinRoom.
  destruct (Server.rooms s !! roomCode) as [room |] eqn:Hroom;
    [| apply evolves_refl].
  cbn [fst].
  eapply evolves_shrink.
  - apply (evolves_putRoom roomCode room); [done |].
    left. apply quiet_set_players.
  - intros c r' Hr'. exact Hr'.
Qed.

Lemma handleCreateRoom_evolves cfg client playerId generated now s :
  evolves s
    (fst (GameGateway.handleCreateRoom cfg client playerId generated now s)).
Proof.
  unfold GameGateway.handleCreateRoom, createRoom.
  destruct (List.find _ generated) as [roomCode |] eqn:Hfind;
    [| apply evolves_refl].
  apply find_some in Hfind as [_ Hfree].
  apply bool_decide_eq_true in Hfree.
  unfold joinRoom. cbn. rewrite lookup_insert_eq. cbn.
  intros c r'. cbn.
  destruct (decide (roomCode = c)) as [<- | Hne].
  - rewrite lookup_insert_eq, Hfree. by intros [= <-].
  - rewrite !lookup_insert_ne by done. intros Hr'. rewrite Hr'.
    apply room_change_refl.
Qed.

Lemma handleJoinRoom_evolves client roomCode playerId s :
  evolves s (fst (GameGateway.handleJoinRoom client roomCode playerId s)).
Proof.
  unfold GameGateway.handleJoinRoom.
  destruct (getRoom roomCode s); [| apply evolves_refl].
  pose proof (joinRoom_evolves roomCode playerId client s) as Hev.
  destruct (joinRoom roomCode playerId client s) as [s1 joined].
  by destruct joined.
Qed.

Lemma handleSetPlayerName_evolves client name s :
  evolves s (fst (GameGateway.handleSetPlayerName client name s)).
Proof.
  unfold GameGateway.handleSetPlayerName.
  destruct (truthy _) as [playerId |]; [| apply evolves_refl].
  destruct (roomKeyOf playerId s) as [key |]; [| apply evolves_refl].
  destruct (Server.rooms s !! key) as [room |] eqn:Hroom;
    [| apply evolves_refl].
  destruct (JsMap.get playerId (Room.players room)) as [player |];
    [| apply evolves_refl].
  destruct (existsb _ _); [apply evolves_refl |].
  cbn [fst]. apply (evolves_putRoom key room); [done |].
  left. apply quiet_set_players.
Qed.

Lemma handlePlayerReady_evolves client s :
  evolves s (fst (GameGateway.handlePlayerReady client s)).
Proof.
  unfold GameGateway.handlePlayerReady.
  destruct (truthy _) as [playerId |]; [| apply evolves_refl].
  destruct (roomKeyOf playerId s) as [key |]; [| apply evolves_refl].
  destruct (Server.rooms s !! key) as [room |] eqn:Hroom;
    [| apply evolves_refl].
  destruct (JsMap.get playerId (Room.players room)) as [player |];
    [| apply evolves_refl].
  destruct (_ || _); [apply evolves_refl |].
  cbn zeta.
  set (room1 := Room.set_players _ room).
  set (room2 := if bool_decide (Room.state room1 = lobby)
                then Room.set_state waiting_ready room1 else room1).
  assert (Hquiet : room_change room room2).
  { left. subst room2. case_bool_decide as Hlobby.
    - unfold quiet, timed. cbn. split; [done |]. split; [done |].
      right. cbn in Hlobby. rewrite Hlobby.
      split; intros [? | ?]; done.
    - apply quiet_set_players. }
  pose proof (evolves_putRoom key room room2 s Hroom Hquiet) as Hev.
  destruct (checkAllPlayersReady _ _); [| exact Hev].
  unfold startGame.
  pose proof (evolves_then_decisive (Room.code room2)
                (startGame_room (Room.code room2)) s
                (putRoom key room2 s) Hev) as Hthen.
  destruct (onRoom _ _ _) as [s2 out2]. cbn [fst] in *.
  apply Hthen.
  - intros c. cbn. destruct (decide (key = c)) as [<- | Hne].
    + by rewrite Hroom.
    + by rewrite lookup_insert_ne.
  - intros r. left. apply startGame_room_one_armed.
Qed.

Lemma handleSelectHeight_evolves client height s :
  evolves s (fst (GameGateway.handleSelectHeight client height s)).
Proof.
  unfold GameGateway.handleSelectHeight.
  destruct (truthy _) as [playerId |]; [| apply evolves_refl].
  destruct (getRoomByPlayerId playerId s) as [room |]; [| apply evolves_refl].
  case_bool_decide; [apply evolves_refl |].
  unfold submitHeight.
  pose proof (evolves_onRoom (Room.code room)
    (fun room0 => (submitHeight_room playerId height room0, [])) s) as Hev.
  destruct (onRoom _ _ _) as [s1 out]. apply Hev.
  intros r. left. apply submitHeight_room_quiet.
Qed.

Lemma handleRestartConsent_evolves client s :
  evolves s (fst (GameGateway.handleRestartConsent client s)).
Proof.
  unfold GameGateway.handleRestartConsent.
  destruct (truthy _) as [playerId |]; [| apply evolves_refl].
  destruct (getRoomByPlayerId playerId s) as [room |]; [| apply evolves_refl].
  case_bool_decide; [apply evolves_refl |].
  unfold handleRestartConsent.
  pose proof (evolves_onRoom (Room.code room)
    (fun room0 => (handleRestartConsent_room playerId room0, [])) s) as Hev.
  destruct (onRoom _ _ _) as [s1 out]. cbn [fst] in Hev.
  assert (Hs1 : evolves s s1).
  { apply Hev. intros r. left. apply handleRestartConsent_room_quiet. }
  destruct (getRoomByPlayerId playerId s1); [| exact Hs1].
  by case_bool_decide.
Qed.

Lemma step_evolves cfg a s : evolves s (fst (step cfg a s)).
Proof.
  destruct a; cbn [step].
  - apply handleCreateRoom_evolves.
  - apply handleJoinRoom_evolves.
  - apply handleSetPlayerName_evolves.
  - apply handlePlayerReady_evolves.
  - apply handleSelectHeight_evolves.
  - apply handleRestartConsent_evolves.
  - apply handleDisconnect_evolves.
  - apply evolves_onRoom. apply endSelectionPeriod_room_change.
  - apply evolves_onRoom. apply endRound_room_change.
Qed.

Lemma evolves_deadlines_ok s s' :
  deadlines_ok s -> evolves s s' -> deadlines_ok s'.
Proof.
  intros Hok Hev roomCode r' Hr'. specialize (Hev roomCode r' Hr').
  destruct (Server.rooms s !! roomCode) as [r |] eqn:Hr.
  - by apply (room_change_sound r r'); [apply (Hok roomCode) |].
  - destruct Hev as [Hs Hv]. unfold timers_match_phase.
    rewrite Hs, Hv. by split.
Qed.

Lemma reachable_deadlines_ok cfg s : reachable cfg s -> deadlines_ok s.
Proof.
  induction 1 as [| a s Hreach IH].
  - intros roomCode room Hroom. cbn in Hroom. by rewrite lookup_empty in Hroom.
  - eapply evolves_deadlines_ok; [exact IH | apply step_evolves].
Qed.
End ServerChanges.

(** The opening scenario replays the first end-to-end scenario: after the
    deadline with target 7, the exact guess earns the reward and the
    player who did not guess is given 5, which is below the target. *)
Example opening_then_deadline :
  snd (step Config.defaults (SelectionTimerFires "ABC123" 7) Scenario.started)
  = [ToRoom "ABC123" SelectionLocked;
     ToRoom "ABC123"
       (WallRevealed 7
          [RoundResult.mk "p1" "Ana" 7 7 20 20 perfect;
           RoundResult.mk "p2" "Beto" 5 7 (-5) (-5) too_low])].
Proof. vm_compute. reflexivity. Qed.

(** C4: in every reachable state of the server, every room has at most
    one of its two deadline handles armed; [selectionTimer] is armed only
    in phase selection and [revealTimer] only in phase revealing; and
    after any further step the room has exactly one handle armed, or none
    -- and none only if none was armed before the step or the room is now
    in phase game-over. *)
Theorem deadline_discipline
    (cfg : Config.t) (s : Server.t) (roomCode : string) (room : Room.t) :
  reachable cfg s ->
  Server.rooms s !! roomCode = Some room ->
  (armedCount room <= 1)%nat
  /\ (Room.selectionTimer room <> None -> Room.state room = selection)
  /\ (Room.revealTimer room <> None -> Room.state room = revealing)
  /\ forall a room',
       Server.rooms (fst (step cfg a s)) !! roomCode = Some room' ->
       armedCount room' = 1%nat
       \/ (armedCount room' = 0%nat
           /\ (armedCount room = 0%nat \/ Room.state room' = game_over)).
Proof.
  intros Hreach Hroom.
  pose proof (reachable_deadlines_ok cfg s Hreach roomCode room Hroom)
    as Hok.
  split; [| split; [apply Hok | split; [apply Hok |]]].
  - destruct Hok as [Hsel Hrev]. unfold armedCount.
    destruct (Room.selectionTimer room), (Room.revealTimer room);
      simpl; try lia.
    specialize (Hsel ltac:(done)). specialize (Hrev ltac:(done)).
    congruence.
  - intros a room' Hroom'.
    pose proof (step_evolves cfg a s roomCode room' Hroom') as Hchange.
    rewrite Hroom in Hchange.
    by apply (room_change_sound room room').
Qed.

Lemma deadline_discipline_witness :
  (armedCount Scenario.startedRoom <= 1)%nat
  /\ (Room.selectionTimer Scenario.startedRoom <> None ->
      Room.state Scenario.startedRoom = selection)
  /\ (Room.revealTimer Scenario.startedRoom <> None ->
      Room.state Scenario.startedRoom = revealing)
  /\ forall a room',
       Server.rooms (fst (step Config.defaults a Scenario.started))
         !! "ABC123" = Some room' ->
       armedCount room' = 1%nat
       \/ (armedCount room' = 0%nat
           /\ (armedCount Scenario.startedRoom = 0%nat
               \/ Room.state room' = game_over)).
Proof.
  apply (deadline_discipline Config.defaults Scenario.started "ABC123"
           Scenario.startedRoom).
  - apply reachable_run. constructor.
  - vm_compute. reflexivity.
Defined.

(** ** Registry discipline *)

Section Registry.
Implicit Types (s : Server.t) (r room : Room.t).

(** A transition that keeps the code and the roster keys keeps the
    registration. *)
Lemma registered_ok_same_keys roomCode r r' :
  Room.code r' = Room.code r ->
  JsMap.keys (Room.players r') = JsMap.keys (Room.players r) ->
  registered_ok roomCode r -> registered_ok roomCode r'.
Proof. unfold registered_ok. intros -> ->. done. Qed.

Lemma registered_ok_set_players roomCode players r :
  NoDup (JsMap.keys players) ->
  registered_ok roomCode r ->
  registered_ok roomCode (Room.set_players players r).
Proof. intros Hnd [Hcode _]. by split. Qed.

Lemma startRound_room_registered roomCode c r :
  registered_ok c r -> registered_ok c (fst (startRound_room roomCode r)).
Proof.
  apply registered_ok_same_keys.
  - by destruct r as [? ? ? ? ? [?|] [?|] ? ? ? ? ?].
  - destruct r as [? ps ? ? ? [?|] [?|] ? ? ? ? ?];
      apply (JsMap_keys_forEach (Player.set_currentHeight None) ps).
Qed.

Lemma startGame_room_registered roomCode c r :
  registered_ok c r -> registered_ok c (fst (startGame_room roomCode r)).
Proof.
  intros Hok. unfold startGame_room.
  apply startRound_room_registered.
  by apply (registered_ok_same_keys c r).
Qed.

Lemma submitHeight_room_registered playerId height c r :
  registered_ok c r -> registered_ok c (submitHeight_room playerId height r).
Proof.
  intros Hok. unfold submitHeight_room. case_bool_decide; [done |].
  destruct (JsMap.get playerId (Room.players r)) as [player |] eqn:Hget;
    [| done].
  apply (registered_ok_same_keys c r); [done | | done].
  by apply (JsMap_keys_set_in _ _ player).
Qed.

Lemma endSelectionPeriod_room_registered cfg roomCode wallHole c r :
  registered_ok c r ->
  registered_ok c (fst (endSelectionPeriod_room cfg roomCode wallHole r)).
Proof.
  intros Hok. unfold endSelectionPeriod_room. case_bool_decide; [done |].
  revert Hok. apply registered_ok_same_keys.
  - by destruct r as [? ? ? ? ? [?|] ? ? ? ? ? ?].
  - unfold calculateResults_room, clearSelectionTimer.
    destruct (Room.selectionTimer r); cbn;
      unfold JsMap.keys, JsMap.forEach; by rewrite !map_map.
Qed.

Lemma endRound_room_registered roomCode c r :
  registered_ok c r -> registered_ok c (fst (endRound_room roomCode r)).
Proof.
  intros Hok. unfold endRound_room. case_bool_decide; [done |].
  destruct (_ >=? _).
  - revert Hok. apply registered_ok_same_keys;
      by destruct r as [? ? ? ? ? [?|] [?|] ? ? ? ? ?].
  - pose proof (startRound_room_registered roomCode c
      (Room.set_currentRound (Room.currentRound (clearRevealTimer r) + 1)
         (clearRevealTimer r))) as Hstart.
    destruct (startRound_room roomCode _) as [r1 o1]. apply Hstart.
    revert Hok. apply registered_ok_same_keys;
      by destruct r as [? ? ? ? ? ? [?|] ? ? ? ? ?].
Qed.

Lemma handleRestartConsent_room_registered playerId c r :
  registered_ok c r -> registered_ok c (handleRestartConsent_room playerId r).
Proof.
  intros Hok. unfold handleRestartConsent_room. case_bool_decide; [done |].
  destruct (checkAllRestartConsents_room _); [| done].
  revert Hok. apply registered_ok_same_keys; [done |].
  apply (JsMap_keys_forEach resetPlayer).
Qed.

Lemma registry_ok_putRoom key r1 s :
  registry_ok s -> registered_ok key r1 -> registry_ok (putRoom key r1 s).
Proof.
  intros Hs Hr1 c r'. cbn.
  destruct (decide (key = c)) as [<- | Hne].
  - rewrite lookup_insert_eq. by intros [= <-].
  - rewrite lookup_insert_ne by done. apply Hs.
Qed.

Lemma registry_ok_onRoom roomCode (f : Room.t -> Room.t * list Emit) s :
  registry_ok s ->
  (forall r, registered_ok roomCode r -> registered_ok roomCode (fst (f r))) ->
  registry_ok (fst (onRoom roomCode f s)).
Proof.
  intros Hs Hf. unfold onRoom.
  destruct (Server.rooms s !! roomCode) as [r |] eqn:Hroom; [| done].
  specialize (Hf r (Hs roomCode r Hroom)). destruct (f r) as [r1 out].
  by apply registry_ok_putRoom.
Qed.

Lemma registry_ok_shrink s1 s2 :
  registry_ok s1 ->
  (forall roomCode r',
     Server.rooms s2 !! roomCode = Some r' ->
     Server.rooms s1 !! roomCode = Some r') ->
  registry_ok s2.
Proof. intros Hs Hsub c r' Hr'. apply Hs. by apply Hsub. Qed.

Lemma joinRoom_registry_ok roomCode playerId socketId s :
  registry_ok s -> registry_ok (fst (joinRoom roomCode playerId socketId s)).
Proof.
  intros Hs. unfold joinRoom.
  destruct (Server.rooms s !! roomCode) as [room |] eqn:Hroom; [| done].
  cbn [fst]. eapply registry_ok_shrink.
  - apply (registry_ok_putRoom roomCode); [exact Hs |].
    apply registered_ok_set_players; [| by apply Hs].
    apply JsMap_set_NoDup. by apply (Hs roomCode room).
  - intros c r' Hr'. exact Hr'.
Qed.

Lemma handleCreateRoom_registry_ok cfg client playerId generated now s :
  registry_ok s ->
  registry_ok
    (fst (GameGateway.handleCreateRoom cfg client playerId generated now s)).
Proof.
  intros Hs. unfold GameGateway.handleCreateRoom, createRoom.
  destruct (List.find _ generated) as [roomCode |]; [| done].
  assert (Hnew : registry_ok (putRoom roomCode (newRoom cfg roomCode now) s)).
  { apply registry_ok_putRoom; [done |]. split; [done | constructor]. }
  pose proof (joinRoom_registry_ok roomCode playerId client _ Hnew) as Hjoin.
  destruct (joinRoom roomCode playerId client _) as [s1 joined].
  by destruct joined.
Qed.

Lemma handleJoinRoom_registry_ok client roomCode playerId s :
  registry_ok s ->
  registry_ok (fst (GameGateway.handleJoinRoom client roomCode playerId s)).
Proof.
  intros Hs. unfold GameGateway.handleJoinRoom.
  destruct (getRoom roomCode s); [| done].
  pose proof (joinRoom_registry_ok roomCode playerId client s Hs) as Hjoin.
  destruct (joinRoom roomCode playerId client s) as [s1 joined].
  by destruct joined.
Qed.

Lemma handleSetPlayerName_registry_ok client name s :
  registry_ok s ->
  registry_ok (fst (GameGateway.handleSetPlayerName client name s)).
Proof.
  intros Hs. unfold GameGateway.handleSetPlayerName.
  destruct (truthy _) as [playerId |]; [| done].
  destruct (roomKeyOf playerId s) as [key |]; [| done].
  destruct (Server.rooms s !! key) as [room |] eqn:Hroom; [| done].
  destruct (JsMap.get playerId (Room.players room)) as [player |] eqn:Hget;
    [| done].
  destruct (existsb _ _); [done |].
  cbn [fst]. apply registry_ok_putRoom; [done |].
  apply (registered_ok_same_keys key room); [done | | by apply Hs].
  by apply (JsMap_keys_set_in _ _ player).
Qed.

Lemma handlePlayerReady_registry_ok client s :
  registry_ok s -> registry_ok (fst (GameGateway.handlePlayerReady client s)).
Proof.
  intros Hs. unfold GameGateway.handlePlayerReady.
  destruct (truthy _) as [playerId |]; [| done].
  destruct (roomKeyOf playerId s) as [key |]; [| done].
  destruct (Server.rooms s !! key) as [room |] eqn:Hroom; [| done].
  destruct (JsMap.get playerId (Room.players room)) as [player |] eqn:Hget;
    [| done].
  destruct (_ || _); [done |].
  cbn zeta.
  set (room1 := Room.set_players _ room).
  set (room2 := if bool_decide (Room.state room1 = lobby)
                then Room.set_state waiting_ready room1 else room1).
  assert (Hs1 : registry_ok (putRoom key room2 s)).
  { apply registry_ok_putRoom; [done |].
    apply (registered_ok_same_keys key room); [| | by apply Hs].
    - subst room2. by case_bool_decide.
    - transitivity (JsMap.keys (Room.players room1)).
      + subst room2. by case_bool_decide.
      + by apply (JsMap_keys_set_in _ _ player). }
  destruct (checkAllPlayersReady _ _); [| exact Hs1].
  unfold startGame.
  pose proof (registry_ok_onRoom (Room.code room2)
                (startGame_room (Room.code room2)) _ Hs1) as Hstart.
  destruct (onRoom _ _ _) as [s2 out2]. apply Hstart.
  intros r. apply startGame_room_registered.
Qed.

Lemma handleSelectHeight_registry_ok client height s :
  registry_ok s ->
  registry_ok (fst (GameGateway.handleSelectHeight client height s)).
Proof.
  intros Hs. unfold GameGateway.handleSelectHeight.
  destruct (truthy _) as [playerId |]; [| done].
  destruct (getRoomByPlayerId playerId s) as [room |]; [| done].
  case_bool_decide; [done |].
  unfold submitHeight.
  pose proof (registry_ok_onRoom (Room.code room)
    (fun room0 => (submitHeight_room playerId height room0, [])) s Hs)
    as Hsub.
  destruct (onRoom _ _ _) as [s1 out]. apply Hsub.
  intros r. apply submitHeight_room_registered.
Qed.

Lemma handleRestartConsent_registry_ok client s :
  registry_ok s ->
  registry_ok (fst (GameGateway.handleRestartConsent client s)).
Proof.
  intros Hs. unfold GameGateway.handleRestartConsent.
  destruct (truthy _) as [playerId |]; [| done].
  destruct (getRoomByPlayerId playerId s) as [room |]; [| done].
  case_bool_decide; [done |].
  unfold handleRestartConsent.
  pose proof (registry_ok_onRoom (Room.code room)
    (fun room0 => (handleRestartConsent_room playerId room0, [])) s Hs)
    as Hsub.
  destruct (onRoom _ _ _) as [s1 out]. cbn [fst] in Hsub.
  assert (Hs1 : registry_ok s1).
  { apply Hsub. intros r. apply handleRestartConsent_room_registered. }
  destruct (getRoomByPlayerId playerId s1); [| exact Hs1].
  by case_bool_decide.
Qed.

Lemma handleDisconnect_registry_ok client s :
  registry_ok s -> registry_ok (fst (GameGateway.handleDisconnect client s)).
Proof.
  intros Hs. unfold GameGateway.handleDisconnect.
  destruct (truthy _) as [playerId |]; [| done].
  destruct (roomKeyOf playerId s) as [key |]; [| done].
  destruct (Server.rooms s !! key) as [room |] eqn:Hroom; [| done].
  destruct (JsMap.get playerId (Room.players room)) as [player |] eqn:Hget;
    [| done].
  destruct (Hs key room Hroom) as [Hcode Hnd].
  destruct (_ || _); cbn [fst].
  - match goal with
    | |- registry_ok (GameGateway.forgetSocket _ (if _ then _ else ?s1)) =>
        apply (registry_ok_shrink s1)
    end.
    + apply registry_ok_putRoom; [done |].
      apply registered_ok_set_players; [| by split].
      destruct (_ && _).
      * rewrite promoteFirst_keys. by apply JsMap_delete_NoDup.
      * by apply JsMap_delete_NoDup.
    + intros c r'. rewrite rooms_forgetSocket.
      destruct (_ =? _); [apply deleteRoom_shrinks | done].
  - match goal with
    | |- registry_ok (GameGateway.forgetSocket _ (if _ then _ else ?s1)) =>
        apply (registry_ok_shrink s1)
    end.
    + apply registry_ok_putRoom; [done |].
      apply registered_ok_set_players; [| by split].
      by apply JsMap_set_NoDup.
    + intros c r'. rewrite rooms_forgetSocket.
      destruct (forallb _ _); [apply deleteRoom_shrinks | done].
Qed.

Lemma step_registry_ok cfg a s :
  registry_ok s -> registry_ok (fst (step cfg a s)).
Proof.
  intros Hs. destruct a; cbn [step].
  - by apply handleCreateRoom_registry_ok.
  - by apply handleJoinRoom_registry_ok.
  - by apply handleSetPlayerName_registry_ok.
  - by apply handlePlayerReady_registry_ok.
  - by apply handleSelectHeight_registry_ok.
  - by apply handleRestartConsent_registry_ok.
  - by apply handleDisconnect_registry_ok.
  - apply registry_ok_onRoom; [done |].
    intros r. apply endSelectionPeriod_room_registered.
  - apply registry_ok_onRoom; [done |].
    intros r. apply endRound_room_registered.
Qed.

Lemma reachable_registry_ok cfg s : reachable cfg s -> registry_ok s.
Proof.
  induction 1 as [| a s Hreach IH].
  - intros roomCode room Hroom. cbn in Hroom. by rewrite lookup_empty in Hroom.
  - by apply step_registry_ok.
Qed.
End Registry.

(** ** Losing a connection, in reachable states *)

(** C9: in every reachable state of the server, when the connection of a
    roster member is lost, then in phase
    lobby or waiting-ready the player is deleted from the roster, the first
    remaining player is made host if the departed one was host, and the
    room is deleted once the roster is empty; in every other phase the
    player stays in the roster with [isConnected] false, and the room is
    deleted when no roster member is connected any more.  The room that
    stays registered is given field by field: nothing but its roster
    changes, and of the roster nothing but the entry named. *)
Theorem disconnect_policy
    (cfg : Config.t) (client : string) (s : Server.t) (playerId key : string)
    (room : Room.t) (player : Player.t) :
  reachable cfg s ->
  truthy (Server.socketPlayerMap s !! client) = Some playerId ->
  roomKeyOf playerId s = Some key ->
  Server.rooms s !! key = Some room ->
  JsMap.get playerId (Room.players room) = Some player ->
  let after := Server.rooms (fst (GameGateway.handleDisconnect client s)) in
  (Room.state room = lobby \/ Room.state room = waiting_ready ->
   let remaining := JsMap.delete playerId (Room.players room) in
   JsMap.get playerId remaining = None
   /\ (forall other,
         other <> playerId ->
         JsMap.get other remaining = JsMap.get other (Room.players room))
   /\ (remaining = [] -> after !! key = None)
   /\ (remaining <> [] ->
       exists room',
         after !! key = Some room'
         /\ room'
            = Room.mk (Room.code room) (Room.players room') (Room.state room)
                (Room.currentRound room) (Room.maxRounds room)
                (Room.selectionTimer room) (Room.revealTimer room)
                (Room.selectionDuration room) (Room.revealDuration room)
                (Room.currentWallHole room) (Room.restartConsents room)
                (Room.createdAt room)
         /\ JsMap.get playerId (Room.players room') = None
         /\ (Player.isHost player = false -> Room.players room' = remaining)
         /\ (Player.isHost player = true ->
             exists k newHost rest promoted,
               remaining = (k, newHost) :: rest
               /\ Room.players room' = (k, promoted) :: rest
               /\ JsMap.get k (Room.players room') = Some promoted
               /\ Player.isHost promoted = true
               /\ promoted
                  = Player.mk (Player.id newHost) (Player.socketId newHost)
                      (Player.name newHost) (Player.isReady newHost) true
                      (Player.score newHost) (Player.currentHeight newHost)
                      (Player.isConnected newHost))))
  /\ (Room.state room <> lobby -> Room.state room <> waiting_ready ->
      let gone :=
        Player.mk (Player.id player) (Player.socketId player)
          (Player.name player) (Player.isReady player) (Player.isHost player)
          (Player.score player) (Player.currentHeight player) false in
      let kept := JsMap.set playerId gone (Room.players room) in
      JsMap.get playerId kept = Some gone
      /\ JsMap.keys kept = JsMap.keys (Room.players room)
      /\ ((forall p, p ∈ JsMap.values kept -> Player.isConnected p = false) ->
          after !! key = None)
      /\ ((exists p, p ∈ JsMap.values kept /\ Player.isConnected p = true) ->
          exists room' stored,
            after !! key = Some room'
            /\ room'
               = Room.mk (Room.code room) kept (Room.state room)
                   (Room.currentRound room) (Room.maxRounds room)
                   (Room.selectionTimer room) (Room.revealTimer room)
                   (Room.selectionDuration room) (Room.revealDuration room)
                   (Room.currentWallHole room) (Room.restartConsents room)
                   (Room.createdAt room)
            /\ JsMap.get playerId (Room.players room') = Some stored
            /\ Player.isConnected stored = false
            /\ stored = gone
            /\ (forall other,
                  other <> playerId ->
                  JsMap.get other (Room.players room')
                  = JsMap.get other (Room.players room)))).
Proof.
  intros Hreach Hsock Hkey Hroom Hget after.
  destruct (reachable_registry_ok cfg s Hreach key room Hroom) as [Hcode Hnd].
  split.
  - intros Hphase remaining. subst after.
    rewrite (handleDisconnect_before_game client s playerId key room player)
      by done.
    fold remaining. cbn zeta. rewrite rooms_forgetSocket, Hcode.
    assert (Hgone : JsMap.get playerId remaining = None)
      by by apply JsMap_get_delete_eq.
    split; [done |].
    split; [intros other Hne; by apply JsMap_get_delete_ne |].
    split.
    + intros Hempty. rewrite Hempty. rewrite andb_false_r.
      rewrite JsMap_size_0, bool_decide_eq_true_2 by done.
      rewrite rooms_deleteRoom. by rewrite lookup_delete_eq.
    + intros Hne.
      set (roster := if Player.isHost player && (JsMap.size remaining >? 0)
                     then GameGateway.promoteFirst remaining else remaining).
      assert (Hroster : roster <> []).
      { subst roster. destruct remaining as [| [k p] rest]; [done |].
        by destruct (Player.isHost player). }
      exists (Room.set_players roster room).
      rewrite JsMap_size_0, bool_decide_eq_false_2 by done.
      cbn [putRoom Server.rooms Server.set_rooms]. rewrite lookup_insert_eq.
      split; [done |]. split; [by rewrite <- Hcode |].
      cbn [Room.players Room.set_players].
      split.
      { subst roster. destruct (_ && _); [| done].
        apply JsMap_get_None. rewrite promoteFirst_keys.
        by apply JsMap_get_None. }
      split.
      { intros Hhost. subst roster. by rewrite Hhost. }
      intros Hhost. subst roster. rewrite Hhost.
      destruct remaining as [| [k p] rest]; [done |].
      exists k, p, rest. eexists. split; [done |].
      split; [reflexivity |].
      split.
      { change (JsMap.get k ((k, Player.set_isHost true p) :: rest)
                = Some (Player.set_isHost true p)).
        cbn [JsMap.get]. by rewrite String.eqb_refl. }
      split; reflexivity.
  - intros Hlobby Hwaiting gone kept. subst after.
    rewrite (handleDisconnect_during_game client s playerId key room player)
      by done.
    change (JsMap.set playerId (Player.set_isConnected false player)
              (Room.players room)) with kept.
    cbn zeta. rewrite rooms_forgetSocket, Hcode.
    split; [apply JsMap_get_set_eq |].
    split; [by apply (JsMap_keys_set_in _ _ player) |].
    split.
    + intros Hall.
      replace (forallb _ (JsMap.values kept)) with true.
      * rewrite rooms_deleteRoom. cbn. by rewrite lookup_delete_eq.
      * symmetry. apply forallb_forall. intros p Hp.
        apply list_elem_of_In in Hp. by rewrite (Hall p Hp).
    + intros (p & Hp & Hconn).
      replace (forallb _ (JsMap.values kept)) with false.
      * exists (Room.set_players kept room), gone.
        cbn [putRoom Server.rooms Server.set_rooms].
        rewrite lookup_insert_eq.
        split; [done |]. split; [by rewrite <- Hcode |].
        cbn [Room.players Room.set_players].
        split; [apply JsMap_get_set_eq |].
        split; [reflexivity |]. split; [reflexivity |].
        intros other Hne. by apply JsMap_get_set_ne.
      * symmetry. apply not_true_is_false. intros Hall.
        rewrite forallb_forall in Hall.
        apply list_elem_of_In in Hp. specialize (Hall p Hp).
        by rewrite Hconn in Hall.
Qed.

Lemma disconnect_policy_witness :
  exists room',
    Server.rooms (fst (GameGateway.handleDisconnect "s1" Scenario.lobbyOfTwo))
      !! "ABC123"
    = Some room'
    /\ JsMap.get "p1" (Room.players room') = None.
Proof.
  destruct (disconnect_policy Scenario.smallRooms "s1" Scenario.lobbyOfTwo
              "p1" "ABC123"
              Scenario.lobbyRoom
              (newPlayer "p1" "s1" true)) as [Hbefore _].
  - apply reachable_run. constructor.
  - vm_compute. reflexivity.
  - vm_compute. reflexivity.
  - vm_compute. reflexivity.
  - reflexivity.
  - destruct (Hbefore (or_introl eq_refl)) as (_ & _ & _ & Hrest).
    destruct Hrest as (room' & Hlookup & _ & Hgone & _); [discriminate |].
    exists room'. split; [exact Hlookup | exact Hgone].
Defined.

(** * Further properties of the registry, the game logic and the gateway *)

(** ** Room registry *)

Lemma find_first_split {A : Type} (f : A -> bool) (l : list A) (x : A) :
  List.find f l = Some x ->
  f x = true
  /\ exists before rest,
       l = (before ++ x :: rest)%list /\ forall y, y ∈ before -> f y = false.
Proof.
  induction l as [| a l IH]; simpl; [done |].
  destruct (f a) eqn:Hfa.
  - intros [= <-]. split; [done |]. exists [], l. split; [done |].
    intros y Hy. by apply elem_of_nil in Hy.
  - intros Hfind. destruct (IH Hfind) as (Hfx & before & rest & -> & Hall).
    split; [done |]. exists (a :: before), rest. split; [done |].
    intros y [-> | Hy]%elem_of_cons; [done | by apply Hall].
Qed.

(** X1: [createRoom] registers a room under the first generated code
    that is not in use: the code was free, every code generated before it
    was taken, the new room is an empty lobby at round 0 without target,
    deadlines or consents and with the configured rounds and durations,
    and no other room or id map changes.  The loop goes on only while
    every generated code is in use. *)
Theorem createRoom_registers_first_free_code
    (cfg : Config.t) (generated : list string) (now : Z) (s : Server.t) :
  match createRoom cfg generated now s with
  | Some (roomCode, s') =>
      Server.rooms s !! roomCode = None
      /\ (exists before rest,
            generated = (before ++ roomCode :: rest)%list
            /\ forall c, c ∈ before -> is_Some (Server.rooms s !! c))
      /\ getRoom roomCode s'
         = Some (Room.mk roomCode [] lobby 0
                   (Config.get (Config.maxRounds cfg) 10) None None
                   (Config.get (Config.selectionDuration cfg) 15)
                   (Config.get (Config.revealDuration cfg) 5) None ∅ now)
      /\ (forall c, c <> roomCode -> getRoom c s' = getRoom c s)
      /\ Server.playerRoomMap s' = Server.playerRoomMap s
      /\ Server.socketPlayerMap s' = Server.socketPlayerMap s
  | None => forall c, c ∈ generated -> is_Some (Server.rooms s !! c)
  end.
Proof.
  unfold createRoom.
  destruct (List.find _ generated) as [roomCode |] eqn:Hfind.
  - apply find_first_split in Hfind as (Hfree & before & rest & -> & Hall).
    apply bool_decide_eq_true in Hfree.
    split; [done |]. split.
    { exists before, rest. split; [done |]. intros c Hc.
      specialize (Hall c Hc). apply bool_decide_eq_false in Hall.
      by apply not_eq_None_Some. }
    unfold getRoom. cbn. split; [by rewrite lookup_insert_eq |].
    split; [| done]. intros c Hne. by rewrite lookup_insert_ne.
  - intros c Hc. apply list_elem_of_In in Hc.
    pose proof (find_none _ _ Hfind c Hc) as Hused. cbn in Hused.
    apply bool_decide_eq_false in Hused. by apply not_eq_None_Some.
Qed.

Lemma lookup_foldl_delete (ids : list string) (m : gmap string string)
    (k : string) :
  foldl (fun m i => delete i m) m ids !! k
  = if bool_decide (k ∈ ids) then None else m !! k.
Proof.
  revert m. induction ids as [| i ids IH]; intros m.
  - case_bool_decide as Hin; [by apply elem_of_nil in Hin | done].
  - cbn [foldl]. rewrite IH.
    case_bool_decide as Hin; case_bool_decide as Hin'; try done.
    + exfalso. apply Hin'. by right.
    + apply elem_of_cons in Hin' as [-> | Hin']; [| done].
      apply lookup_delete_eq.
    + rewrite lookup_delete_ne; [done |].
      intros ->. apply Hin'. by left.
Qed.

Lemma playerRoomMap_deleteRoom (roomCode : string) (s : Server.t)
    (room : Room.t) (k : string) :
  Server.rooms s !! roomCode = Some room ->
  Server.playerRoomMap (deleteRoom roomCode s) !! k
  = if bool_decide (k ∈ map Player.id (JsMap.values (Room.players room)))
    then None else Server.playerRoomMap s !! k.
Proof.
  intros Hroom. unfold deleteRoom. rewrite Hroom. cbn.
  rewrite <- lookup_foldl_delete.
  generalize (Server.playerRoomMap s).
  induction (JsMap.values (Room.players room)) as [| p l IH]; intros m;
    simpl; [done |]. apply IH.
Qed.

(** X2: [deleteRoom] unregisters the room and forgets the room of each of
    its roster members, touching no other room, no other player's entry
    and no connection; on a code that is not registered it does nothing,
    so deleting twice is deleting once. *)
Theorem deleteRoom_releases_room (roomCode : string) (s : Server.t) :
  getRoom roomCode (deleteRoom roomCode s) = None
  /\ (forall c, c <> roomCode ->
        getRoom c (deleteRoom roomCode s) = getRoom c s)
  /\ (getRoom roomCode s = None -> deleteRoom roomCode s = s)
  /\ deleteRoom roomCode (deleteRoom roomCode s) = deleteRoom roomCode s
  /\ (forall room p,
        getRoom roomCode s = Some room ->
        p ∈ JsMap.values (Room.players room) ->
        Server.playerRoomMap (deleteRoom roomCode s) !! Player.id p = None)
  /\ (forall room playerId,
        getRoom roomCode s = Some room ->
        (forall p, p ∈ JsMap.values (Room.players room) ->
                   Player.id p <> playerId) ->
        Server.playerRoomMap (deleteRoom roomCode s) !! playerId
        = Server.playerRoomMap s !! playerId)
  /\ Server.socketPlayerMap (deleteRoom roomCode s) = Server.socketPlayerMap s.
Proof.
  unfold getRoom.
  assert (Hgone : Server.rooms (deleteRoom roomCode s) !! roomCode = None)
    by (rewrite rooms_deleteRoom; apply lookup_delete_eq).
  split; [exact Hgone |].
  split.
  { intros c Hne. rewrite rooms_deleteRoom. by rewrite lookup_delete_ne. }
  split.
  { intros Hnone. unfold deleteRoom. by rewrite Hnone. }
  split.
  { unfold deleteRoom at 1. by rewrite Hgone. }
  split.
  { intros room p Hroom Hp. rewrite (playerRoomMap_deleteRoom _ _ room) by done.
    rewrite bool_decide_eq_true_2; [done |].
    by apply (list_elem_of_fmap_2 Player.id). }
  split.
  { intros room playerId Hroom Hother.
    rewrite (playerRoomMap_deleteRoom _ _ room) by done.
    rewrite bool_decide_eq_false_2; [done |].
    intros (p & Heq & Hp)%list_elem_of_fmap. by apply (Hother p). }
  unfold deleteRoom. by destruct (Server.rooms s !! roomCode).
Qed.

(** X3: [removePlayer] does nothing for a player without a registered
    room; otherwise it forgets the player's room, and when that room
    exists it deletes the player from the roster -- leaving the other
    roster entries, host flags included, exactly as they were -- and
    deletes the room when the roster has become empty.  Other rooms and
    the connections are untouched. *)
Theorem removePlayer_cases (playerId : string) (s : Server.t) :
  match truthy (Server.playerRoomMap s !! playerId) with
  | None => removePlayer playerId s = s
  | Some roomCode =>
      Server.playerRoomMap (removePlayer playerId s) !! playerId = None
      /\ Server.socketPlayerMap (removePlayer playerId s)
         = Server.socketPlayerMap s
      /\ (forall c, c <> roomCode ->
            getRoom c (removePlayer playerId s) = getRoom c s)
      /\ match getRoom roomCode s with
         | None => getRoom roomCode (removePlayer playerId s) = None
         | Some room =>
             getRoom roomCode (removePlayer playerId s)
             = if bool_decide (JsMap.delete playerId (Room.players room) = [])
               then None
               else Some (Room.mk (Room.code room)
                            (JsMap.delete playerId (Room.players room))
                            (Room.state room) (Room.currentRound room)
                            (Room.maxRounds room) (Room.selectionTimer room)
                            (Room.revealTimer room)
                            (Room.selectionDuration room)
                            (Room.revealDuration room)
                            (Room.currentWallHole room)
                            (Room.restartConsents room) (Room.createdAt room))
         end
  end.
Proof.
  unfold removePlayer, getRoom.
  destruct (truthy _) as [roomCode |]; [| done].
  destruct (Server.rooms s !! roomCode) as [room |] eqn:Hroom.
  - cbn [Room.players Room.set_players]. rewrite JsMap_size_0.
    case_bool_decide as Hempty.
    + split.
      { rewrite (playerRoomMap_deleteRoom _ _
                   (Room.set_players (JsMap.delete playerId (Room.players room))
                      room)) by (cbn; apply lookup_insert_eq).
        cbn. rewrite Hempty. cbn. apply lookup_delete_eq. }
      split; [unfold deleteRoom; cbn; by rewrite lookup_insert_eq |].
      split.
      { intros c Hne. rewrite rooms_deleteRoom. cbn.
        by rewrite lookup_delete_ne, lookup_insert_ne. }
      rewrite rooms_deleteRoom. apply lookup_delete_eq.
    + cbn. split; [apply lookup_delete_eq |]. split; [done |].
      split; [intros c Hne; by rewrite lookup_insert_ne |].
      apply lookup_insert_eq.
  - cbn. split; [apply lookup_delete_eq |]. split; [done |].
    split; [done | exact Hroom].
Qed.

(** X4: after a successful [joinRoom] with a non-empty player id and room
    code, [getRoomByPlayerId] finds the room the player joined, with the
    new player in its roster and every other roster entry as it was. *)
Theorem joined_player_is_found
    (roomCode playerId socketId : string) (s : Server.t) (room : Room.t) :
  getRoom roomCode s = Some room ->
  playerId <> "" -> roomCode <> "" ->
  exists room',
    getRoomByPlayerId playerId
      (fst (joinRoom roomCode playerId socketId s)) = Some room'
    /\ getRoom roomCode (fst (joinRoom roomCode playerId socketId s))
       = Some room'
    /\ JsMap.get playerId (Room.players room')
       = Some (newPlayer playerId socketId
                 (bool_decide (Room.players room = [])))
    /\ forall other,
         other <> playerId ->
         JsMap.get other (Room.players room')
         = JsMap.get other (Room.players room).
Proof.
  unfold getRoom, joinRoom, getRoomByPlayerId, roomKeyOf.
  intros Hroom Hpid Hcode. rewrite Hroom. cbn. rewrite !lookup_insert_eq. cbn.
  destruct (String.eqb_spec roomCode "") as [-> | _]; [done |].
  rewrite lookup_insert_eq, JsMap_size_0.
  eexists. split; [reflexivity |]. split; [reflexivity |].
  split; [apply JsMap_get_set_eq |].
  intros other Hne. cbn. by apply JsMap_get_set_ne.
Qed.

Lemma joined_player_is_found_witness :
  exists room',
    getRoomByPlayerId "p9"
      (fst (joinRoom "ABC123" "p9" "s9" Scenario.finished)) = Some room'
    /\ getRoom "ABC123" (fst (joinRoom "ABC123" "p9" "s9" Scenario.finished))
       = Some room'
    /\ JsMap.get "p9" (Room.players room')
       = Some (newPlayer "p9" "s9"
                 (bool_decide
                    (Room.players (Scenario.roomIn game_over Scenario.roster)
                     = [])))
    /\ forall other,
         other <> "p9" ->
         JsMap.get other (Room.players room')
         = JsMap.get other
             (Room.players (Scenario.roomIn game_over Scenario.roster)).
Proof.
  apply (joined_player_is_found "ABC123" "p9" "s9" Scenario.finished
           (Scenario.roomIn game_over Scenario.roster)).
  - reflexivity.
  - discriminate.
  - discriminate.
Defined.

(** ** Gateway: creating a room, unknown connections *)

(** X5: when the code loop ends, the create-room handler leaves a lobby
    whose only roster member is the creator, who is host; the connection
    is bound to the new player and the player to the room; the creator
    alone is sent room-created and then the room state; no other room
    changes. *)
Theorem handleCreateRoom_creates_hosted_lobby
    (cfg : Config.t) (client playerId : string) (generated : list string)
    (now : Z) (s s0 : Server.t) (roomCode : string) :
  createRoom cfg generated now s = Some (roomCode, s0) ->
  snd (GameGateway.handleCreateRoom cfg client playerId generated now s)
  = [ToClient client (RoomCreated roomCode playerId);
     ToClient client
       (RoomStateMsg roomCode lobby 0 (Config.get (Config.maxRounds cfg) 10)
          [PlayerView.mk playerId "" false true 0 true])]
  /\ getRoom roomCode
       (fst (GameGateway.handleCreateRoom cfg client playerId generated now s))
     = Some (Room.set_players [(playerId, newPlayer playerId client true)]
               (newRoom cfg roomCode now))
  /\ Server.socketPlayerMap
       (fst (GameGateway.handleCreateRoom cfg client playerId generated now s))
       !! client = Some playerId
  /\ Server.playerRoomMap
       (fst (GameGateway.handleCreateRoom cfg client playerId generated now s))
       !! playerId = Some roomCode
  /\ forall c,
       c <> roomCode ->
       getRoom c
         (fst (GameGateway.handleCreateRoom cfg client playerId generated now s))
       = getRoom c s.
Proof.
  intros Hcreate. unfold GameGateway.handleCreateRoom. rewrite Hcreate.
  unfold createRoom in Hcreate.
  destruct (List.find _ generated) as [c0 |]; [| done].
  injection Hcreate as <- <-.
  unfold joinRoom, getRoom. cbn. rewrite lookup_insert_eq. cbn.
  unfold GameGateway.emitRoomState, getRoom. cbn.
  rewrite !lookup_insert_eq. cbn.
  split; [done |]. split; [done |]. split; [done |]. split; [done |].
  intros c Hne. by rewrite !lookup_insert_ne.
Qed.

Lemma handleCreateRoom_creates_hosted_lobby_witness :
  snd (GameGateway.handleCreateRoom Config.defaults "s1" "p1" ["ABC123"] 0
         Server.empty)
  = [ToClient "s1" (RoomCreated "ABC123" "p1");
     ToClient "s1"
       (RoomStateMsg "ABC123" lobby 0 10
          [PlayerView.mk "p1" "" false true 0 true])].
Proof.
  refine (proj1 (handleCreateRoom_creates_hosted_lobby Config.defaults
                   "s1" "p1" ["ABC123"] 0 Server.empty
                   (putRoom "ABC123" (newRoom Config.defaults "ABC123" 0)
                      Server.empty) "ABC123" _)).
  reflexivity.
Defined.

(** X6: a message from a connection that has no player is answered with
    the room-error "Jugador no encontrado" to that connection alone and
    changes nothing, whatever the message; the loss of such a connection
    changes nothing and sends nothing. *)
Theorem unknown_connection_is_rejected
    (client name : string) (height : Z) (s : Server.t) :
  truthy (Server.socketPlayerMap s !! client) = None ->
  GameGateway.handleSetPlayerName client name s
  = (s, [ToClient client (RoomError "Jugador no encontrado")])
  /\ GameGateway.handlePlayerReady client s
     = (s, [ToClient client (RoomError "Jugador no encontrado")])
  /\ GameGateway.handleSelectHeight client height s
     = (s, [ToClient client (RoomError "Jugador no encontrado")])
  /\ GameGateway.handleRestartConsent client s
     = (s, [ToClient client (RoomError "Jugador no encontrado")])
  /\ GameGateway.handleDisconnect client s = (s, []).
Proof.
  intros Hunknown.
  unfold GameGateway.handleSetPlayerName, GameGateway.handlePlayerReady,
    GameGateway.handleSelectHeight, GameGateway.handleRestartConsent,
    GameGateway.handleDisconnect.
  by rewrite Hunknown.
Qed.

Lemma unknown_connection_is_rejected_witness :
  GameGateway.handleSelectHeight "s7" 4 Scenario.started
  = (Scenario.started, [ToClient "s7" (RoomError "Jugador no encontrado")]).
Proof.
  refine (proj1 (proj2 (proj2 (unknown_connection_is_rejected "s7" "Eva" 4
                                 Scenario.started _)))).
  vm_compute. reflexivity.
Defined.

(** X7: a join on a code that is not registered is answered with the
    room-error "La sala no existe" to the joining connection alone; no
    player is created and nothing changes. *)
Theorem join_unknown_room_is_rejected
    (client roomCode playerId : string) (s : Server.t) :
  getRoom roomCode s = None ->
  GameGateway.handleJoinRoom client roomCode playerId s
  = (s, [ToClient client (RoomError "La sala no existe")])
  /\ joinRoom roomCode playerId client s = (s, false).
Proof.
  intros Hnone. unfold GameGateway.handleJoinRoom, joinRoom.
  unfold getRoom in Hnone. unfold getRoom. by rewrite Hnone.
Qed.

Lemma join_unknown_room_is_rejected_witness :
  GameGateway.handleJoinRoom "s3" "ZZZ999" "p3" Scenario.started
  = (Scenario.started, [ToClient "s3" (RoomError "La sala no existe")]).
Proof.
  refine (proj1 (join_unknown_room_is_rejected "s3" "ZZZ999" "p3"
                   Scenario.started _)).
  vm_compute. reflexivity.
Defined.

(** ** Gateway: a connection is lost once *)

Lemma socketPlayerMap_deleteRoom (roomCode : string) (s : Server.t) :
  Server.socketPlayerMap (deleteRoom roomCode s) = Server.socketPlayerMap s.
Proof. unfold deleteRoom. by destruct (Server.rooms s !! roomCode). Qed.

Lemma truthy_None_or (m : gmap string string) (client : string) :
  truthy (delete client m !! client) = None.
Proof. by rewrite lookup_delete_eq. Qed.

(** X8: once the loss of a connection has been handled, the connection
    is bound to no player, so handling the loss a second time changes
    nothing and sends nothing. *)
Theorem disconnect_is_handled_once (client : string) (s : Server.t) :
  truthy (Server.socketPlayerMap (fst (GameGateway.handleDisconnect client s))
            !! client) = None
  /\ GameGateway.handleDisconnect client
       (fst (GameGateway.handleDisconnect client s))
     = (fst (GameGateway.handleDisconnect client s), []).
Proof.
  assert (Hgone :
    truthy (Server.socketPlayerMap
              (fst (GameGateway.handleDisconnect client s)) !! client) = None).
  { unfold GameGateway.handleDisconnect.
    destruct (truthy (Server.socketPlayerMap s !! client)) as [playerId |]
      eqn:Hsock; [| exact Hsock].
    destruct (roomKeyOf playerId s) as [key |]; [| apply truthy_None_or].
    destruct (Server.rooms s !! key) as [room |]; [| apply truthy_None_or].
    destruct (JsMap.get playerId (Room.players room)) as [player |];
      [| apply truthy_None_or].
    destruct (_ || _); cbn [fst]; unfold GameGateway.forgetSocket; cbn.
    - destruct (_ =? _); [rewrite socketPlayerMap_deleteRoom |];
        apply truthy_None_or.
    - destruct (forallb _ _); [rewrite socketPlayerMap_deleteRoom |];
        apply truthy_None_or. }
  split; [exact Hgone |].
  unfold GameGateway.handleDisconnect at 1. by rewrite Hgone.
Qed.

(** ** Timer callbacks that arrive late or twice *)

Lemma onRoom_unchanged (roomCode : string)
    (f : Room.t -> Room.t * list Emit) (s : Server.t) :
  (forall room,
     Server.rooms s !! roomCode = Some room -> f room = (room, [])) ->
  onRoom roomCode f s = (s, []).
Proof.
  intros Hf. unfold onRoom.
  destruct (Server.rooms s !! roomCode) as [room |] eqn:Hroom; [| done].
  rewrite (Hf room eq_refl). by rewrite putRoom_same.
Qed.

Lemma getRoom_onRoom (roomCode : string)
    (f : Room.t -> Room.t * list Emit) (s : Server.t) :
  getRoom roomCode (fst (onRoom roomCode f s))
  = (fun room => fst (f room)) <$> getRoom roomCode s.
Proof.
  unfold onRoom, getRoom.
  destruct (Server.rooms s !! roomCode) as [room |] eqn:Hroom; cbn.
  - destruct (f room) as [room' out]. cbn. by rewrite lookup_insert_eq.
  - by rewrite Hroom.
Qed.

Lemma endSelectionPeriod_room_stale cfg roomCode wallHole (room : Room.t) :
  Room.state room <> selection ->
  endSelectionPeriod_room cfg roomCode wallHole room = (room, []).
Proof.
  intros Hstate. unfold endSelectionPeriod_room.
  by rewrite bool_decide_eq_true_2.
Qed.

Lemma endRound_room_stale roomCode (room : Room.t) :
  Room.state room <> revealing -> endRound_room roomCode room = (room, []).
Proof.
  intros Hstate. unfold endRound_room. by rewrite bool_decide_eq_true_2.
Qed.

Lemma endSelectionPeriod_room_leaves_selection cfg roomCode wallHole
    (room : Room.t) :
  Room.state (fst (endSelectionPeriod_room cfg roomCode wallHole room))
  <> selection.
Proof.
  destruct (decide (Room.state room = selection)) as [Hsel | Hother].
  - destruct (endSelectionPeriod_room_selection cfg roomCode wallHole room Hsel)
      as (_ & _ & ->). done.
  - by rewrite endSelectionPeriod_room_stale.
Qed.

Lemma startRound_room_state roomCode (room : Room.t) :
  Room.state (fst (startRound_room roomCode room)) = selection.
Proof. done. Qed.

Lemma endRound_room_leaves_revealing roomCode (room : Room.t) :
  Room.state (fst (endRound_room roomCode room)) <> revealing.
Proof.
  destruct (decide (Room.state room = revealing)) as [Hrev | Hother].
  - unfold endRound_room.
    rewrite bool_decide_eq_false_2 by (rewrite Hrev; auto).
    destruct (_ >=? _).
    + pose proof (endGame_room_over_disarmed roomCode (clearRevealTimer room))
        as (Hover & _).
      destruct (endGame_room roomCode (clearRevealTimer room)) as [[r1 o1] sc].
      cbn in *. by rewrite Hover.
    + pose proof (startRound_room_state roomCode
        (Room.set_currentRound (Room.currentRound (clearRevealTimer room) + 1)
           (clearRevealTimer room))) as Hsel.
      destruct (startRound_room roomCode _) as [r1 o1]. cbn in *.
      by rewrite Hsel.
  - by rewrite endRound_room_stale.
Qed.

(** X9: a selection callback that finds its room in any phase but
    selection, a reveal callback that finds its room in any phase but
    revealing, and any callback for a room that no longer exists change
    nothing and send nothing; hence a callback that runs twice in a row
    acts once: the second run changes nothing, whatever target it
    draws. *)
Theorem late_or_repeated_callbacks_change_nothing
    (cfg : Config.t) (roomCode : string) (wallHole wallHole' : Z)
    (s : Server.t) :
  (forall room,
     getRoom roomCode s = Some room -> Room.state room <> selection ->
     endSelectionPeriod cfg roomCode wallHole s = (s, []))
  /\ (forall room,
        getRoom roomCode s = Some room -> Room.state room <> revealing ->
        endRound roomCode s = (s, []))
  /\ (getRoom roomCode s = None ->
      endSelectionPeriod cfg roomCode wallHole s = (s, [])
      /\ endRound roomCode s = (s, []))
  /\ endSelectionPeriod cfg roomCode wallHole'
       (fst (endSelectionPeriod cfg roomCode wallHole s))
     = (fst (endSelectionPeriod cfg roomCode wallHole s), [])
  /\ endRound roomCode (fst (endRound roomCode s))
     = (fst (endRound roomCode s), []).
Proof.
  unfold getRoom. split; [| split; [| split; [| split]]].
  - intros room Hroom Hstate. apply onRoom_unchanged.
    intros room0 Hroom0. rewrite Hroom in Hroom0. injection Hroom0 as <-.
    by apply endSelectionPeriod_room_stale.
  - intros room Hroom Hstate. apply onRoom_unchanged.
    intros room0 Hroom0. rewrite Hroom in Hroom0. injection Hroom0 as <-.
    by apply endRound_room_stale.
  - intros Hnone. unfold endSelectionPeriod, endRound, onRoom.
    by rewrite Hnone.
  - apply onRoom_unchanged. intros room Hroom.
    pose proof (getRoom_onRoom roomCode
                  (endSelectionPeriod_room cfg roomCode wallHole) s) as Hget.
    unfold getRoom in Hget. unfold endSelectionPeriod in Hroom.
    rewrite Hget in Hroom.
    destruct (Server.rooms s !! roomCode) as [room0 |]; [| done].
    injection Hroom as <-. apply endSelectionPeriod_room_stale.
    apply endSelectionPeriod_room_leaves_selection.
  - apply onRoom_unchanged. intros room Hroom.
    pose proof (getRoom_onRoom roomCode (endRound_room roomCode) s) as Hget.
    unfold getRoom in Hget. unfold endRound in Hroom.
    rewrite Hget in Hroom.
    destruct (Server.rooms s !! roomCode) as [room0 |]; [| done].
    injection Hroom as <-. apply endRound_room_stale.
    apply endRound_room_leaves_revealing.
Qed.

(** ** Guesses during the selection phase *)

Lemma JsMap_set_set {V : Type} (k : string) (v v' : V)
    (m : list (string * V)) :
  JsMap.set k v' (JsMap.set k v m) = JsMap.set k v' m.
Proof.
  induction m as [| [k0 v0] m IH]; simpl.
  - by rewrite String.eqb_refl.
  - destruct (String.eqb k k0) eqn:Hk; simpl; rewrite Hk; [done |].
    by rewrite IH.
Qed.

Lemma handleSelectHeight_selection
    (client : string) (height : Z) (s : Server.t) (playerId key : string)
    (room : Room.t) (player : Player.t) :
  truthy (Server.socketPlayerMap s !! client) = Some playerId ->
  roomKeyOf playerId s = Some key ->
  Server.rooms s !! key = Some room ->
  Room.code room = key ->
  Room.state room = selection ->
  JsMap.get playerId (Room.players room) = Some player ->
  GameGateway.handleSelectHeight client height s
  = (putRoom key
       (Room.set_players
          (JsMap.set playerId (Player.set_currentHeight (Some height) player)
             (Room.players room)) room) s,
     [ToClient client (HeightSelected height)]).
Proof.
  intros Hsock Hkey Hroom Hcode Hstate Hget.
  unfold GameGateway.handleSelectHeight, getRoomByPlayerId.
  rewrite Hsock, Hkey, Hroom.
  rewrite bool_decide_eq_false_2 by (rewrite Hstate; auto).
  unfold submitHeight, onRoom, submitHeight_room. rewrite Hcode, Hroom.
  rewrite bool_decide_eq_false_2 by (rewrite Hstate; auto).
  by rewrite Hget.
Qed.

(** X10: in every reachable state, a guess sent by a roster member while
    the room is in phase selection is stored as that player's current
    guess and confirmed to the sender with height-selected; no other
    roster entry changes; and a later guess of the same player in the
    same phase replaces the earlier one, leaving the state that the later
    guess alone would have produced. *)
Theorem guess_is_recorded_last_write_wins
    (cfg : Config.t) (client : string) (height height' : Z) (s : Server.t)
    (playerId key : string) (room : Room.t) (player : Player.t) :
  reachable cfg s ->
  truthy (Server.socketPlayerMap s !! client) = Some playerId ->
  roomKeyOf playerId s = Some key ->
  Server.rooms s !! key = Some room ->
  Room.state room = selection ->
  JsMap.get playerId (Room.players room) = Some player ->
  let guessed :=
    Player.mk (Player.id player) (Player.socketId player)
      (Player.name player) (Player.isReady player) (Player.isHost player)
      (Player.score player) (Some height) (Player.isConnected player) in
  let roster := JsMap.set playerId guessed (Room.players room) in
  GameGateway.handleSelectHeight client height s
  = (Server.mk
       (<[key := Room.mk (Room.code room) roster (Room.state room)
                   (Room.currentRound room) (Room.maxRounds room)
                   (Room.selectionTimer room) (Room.revealTimer room)
                   (Room.selectionDuration room) (Room.revealDuration room)
                   (Room.currentWallHole room) (Room.restartConsents room)
                   (Room.createdAt room)]> (Server.rooms s))
       (Server.playerRoomMap s) (Server.socketPlayerMap s),
     [ToClient client (HeightSelected height)])
  /\ (exists room' stored,
        Server.rooms (fst (GameGateway.handleSelectHeight client height s))
          !! key = Some room'
        /\ JsMap.get playerId (Room.players room') = Some stored
        /\ Player.currentHeight stored = Some height)
  /\ JsMap.get playerId roster = Some guessed
  /\ (forall other,
        other <> playerId ->
        JsMap.get other roster = JsMap.get other (Room.players room))
  /\ fst (GameGateway.handleSelectHeight client height'
            (fst (GameGateway.handleSelectHeight client height s)))
     = fst (GameGateway.handleSelectHeight client height' s).
Proof.
  intros Hreach Hsock Hkey Hroom Hstate Hget guessed roster.
  destruct (reachable_registry_ok cfg s Hreach key room Hroom) as [Hcode _].
  pose proof (handleSelectHeight_selection client height s playerId key room
                player Hsock Hkey Hroom Hcode Hstate Hget) as Hfirst.
  change (JsMap.set playerId (Player.set_currentHeight (Some height) player)
            (Room.players room)) with roster in Hfirst.
  split; [exact Hfirst |].
  split.
  { rewrite Hfirst. exists (Room.set_players roster room), guessed.
    cbn [fst putRoom Server.rooms Server.set_rooms].
    rewrite lookup_insert_eq. split; [done |].
    split; [apply JsMap_get_set_eq | reflexivity]. }
  split; [apply JsMap_get_set_eq |].
  split; [intros other Hne; by apply JsMap_get_set_ne |].
  rewrite Hfirst. cbn [fst].
  rewrite (handleSelectHeight_selection client height'
             (putRoom key (Room.set_players roster room) s) playerId key
             (Room.set_players roster room) guessed);
    try done.
  - rewrite (handleSelectHeight_selection client height' s playerId key room
               player) by done.
    cbn. subst roster. rewrite JsMap_set_set.
    unfold putRoom, Server.set_rooms. cbn. by rewrite insert_insert_eq.
  - cbn. apply lookup_insert_eq.
  - apply JsMap_get_set_eq.
Qed.

Lemma guess_is_recorded_last_write_wins_witness :
  exists room' stored,
    Server.rooms (fst (GameGateway.handleSelectHeight "s2" 4 Scenario.started))
      !! "ABC123" = Some room'
    /\ JsMap.get "p2" (Room.players room') = Some stored
    /\ Player.currentHeight stored = Some 4.
Proof.
  refine (proj1 (proj2
            (guess_is_recorded_last_write_wins Config.defaults "s2" 4 9
               Scenario.started "p2" "ABC123" Scenario.startedRoom
               (Player.mk "p2" "s2" "Beto" true false 0 None true)
               _ _ _ _ _ _))).
  - apply reachable_run. constructor.
  - vm_compute. reflexivity.
  - vm_compute. reflexivity.
  - vm_compute. reflexivity.
  - reflexivity.
  - reflexivity.
Defined.

(** ** A reveal, for the whole roster *)

Lemma revealed_player cfg (wallHole : Z) (p : Player.t) :
  revealed cfg wallHole p
  = (Player.mk (Player.id p) (Player.socketId p) (Player.name p)
       (Player.isReady p) (Player.isHost p)
       (Player.score p
        + calculatePoints cfg (default 5 (Player.currentHeight p)) wallHole)
       (if Player.isConnected p
        then Some (default 5 (Player.currentHeight p))
        else Player.currentHeight p)
       (Player.isConnected p),
     RoundResult.mk (Player.id p) (Player.name p)
       (default 5 (Player.currentHeight p)) wallHole
       (calculatePoints cfg (default 5 (Player.currentHeight p)) wallHole)
       (Player.score p
        + calculatePoints cfg (default 5 (Player.currentHeight p)) wallHole)
       (getResultType (default 5 (Player.currentHeight p)) wallHole)).
Proof.
  unfold revealed, assignDefault, scorePlayer.
  by destruct p as [i so n rd h sc [g |] [|]].
Qed.

(** X11: when the selection deadline elapses in phase selection, the room
    moves to revealing with the drawn target stored, the selection
    deadline disarmed and the reveal deadline armed for the reveal
    duration; selection-locked and then wall-revealed are broadcast; and
    for every roster member, in roster order, the effective guess is the
    stored guess or 5 when there is none, the cumulative score grows by
    the points of that guess, and the result entry carries the guess, the
    target, the points, the new cumulative score and the category.
    Nothing else of a player changes, except that a connected player
    without a guess now stores 5. *)
Theorem reveal_scores_every_roster_member
    (cfg : Config.t) (roomCode : string) (wallHole : Z) (room : Room.t) :
  Room.state room = selection ->
  exists results,
    snd (endSelectionPeriod_room cfg roomCode wallHole room)
    = [ToRoom roomCode SelectionLocked;
       ToRoom roomCode (WallRevealed wallHole results)]
    /\ length results = length (Room.players room)
    /\ fst (endSelectionPeriod_room cfg roomCode wallHole room)
       = Room.mk (Room.code room)
           (Room.players
              (fst (endSelectionPeriod_room cfg roomCode wallHole room)))
           revealing (Room.currentRound room) (Room.maxRounds room) None
           (Some {| callback := CallEndRound;
                    delayMs := Room.revealDuration room * 1000 |})
           (Room.selectionDuration room) (Room.revealDuration room)
           (Some wallHole) (Room.restartConsents room) (Room.createdAt room)
    /\ forall i k p,
         Room.players room !! i = Some (k, p) ->
         Room.players
           (fst (endSelectionPeriod_room cfg roomCode wallHole room)) !! i
         = Some (k,
                 Player.mk (Player.id p) (Player.socketId p) (Player.name p)
                   (Player.isReady p) (Player.isHost p)
                   (Player.score p
                    + calculatePoints cfg
                        (default 5 (Player.currentHeight p)) wallHole)
                   (if Player.isConnected p
                    then Some (default 5 (Player.currentHeight p))
                    else Player.currentHeight p)
                   (Player.isConnected p))
         /\ results !! i
            = Some (RoundResult.mk (Player.id p) (Player.name p)
                      (default 5 (Player.currentHeight p)) wallHole
                      (calculatePoints cfg
                         (default 5 (Player.currentHeight p)) wallHole)
                      (Player.score p
                       + calculatePoints cfg
                           (default 5 (Player.currentHeight p)) wallHole)
                      (getResultType
                         (default 5 (Player.currentHeight p)) wallHole)).
Proof.
  intros Hstate.
  destruct (endSelectionPeriod_room_selection cfg roomCode wallHole room
              Hstate) as (Hplayers & Hout & _).
  exists (map (fun p => snd (revealed cfg wallHole p))
            (JsMap.values (Room.players room))).
  split; [exact Hout |].
  split; [unfold JsMap.values; by rewrite !length_map |].
  split.
  { rewrite Hplayers. unfold endSelectionPeriod_room.
    rewrite bool_decide_eq_false_2 by (rewrite Hstate; auto).
    unfold calculateResults_room, clearSelectionTimer.
    destruct room as [c ps st cr mr [t1 |] t2 sd rd wh rc ca]; cbn;
      f_equal; unfold JsMap.forEach; by rewrite !map_map. }
  intros i k p Hlookup. split.
  - rewrite Hplayers. unfold JsMap.forEach.
    change (map ?f ?l) with (f <$> l).
    rewrite list_lookup_fmap, Hlookup.
    pose proof (f_equal fst (revealed_player cfg wallHole p)) as Hrev.
    cbn [fst] in Hrev.
    cbn [fmap option_fmap option_map fst snd]. by rewrite Hrev.
  - unfold JsMap.values. rewrite map_map.
    change (map ?f ?l) with (f <$> l).
    rewrite list_lookup_fmap, Hlookup.
    pose proof (f_equal snd (revealed_player cfg wallHole p)) as Hrev.
    cbn [snd] in Hrev.
    cbn [fmap option_fmap option_map fst snd]. by rewrite Hrev.
Qed.

Lemma reveal_scores_every_roster_member_witness :
  exists results,
    snd (endSelectionPeriod_room Config.defaults "ABC123" 7
           Scenario.startedRoom)
    = [ToRoom "ABC123" SelectionLocked;
       ToRoom "ABC123" (WallRevealed 7 results)]
    /\ length results = length (Room.players Scenario.startedRoom).
Proof.
  destruct (reveal_scores_every_roster_member Config.defaults "ABC123" 7
              Scenario.startedRoom eq_refl) as (results & Hout & Hlen & _).
  exists results. split; [exact Hout | exact Hlen].
Defined.

(** ** The length of a game *)

Section GameLength.
Variables (cfg : Config.t) (roomCode : string).
Implicit Types (room : Room.t) (wallHoles : list Z).

Lemma endSelectionPeriod_room_round wallHole room :
  Room.state room = selection ->
  Room.state (fst (endSelectionPeriod_room cfg roomCode wallHole room))
  = revealing
  /\ Room.currentRound (fst (endSelectionPeriod_room cfg roomCode wallHole room))
     = Room.currentRound room
  /\ Room.maxRounds (fst (endSelectionPeriod_room cfg roomCode wallHole room))
     = Room.maxRounds room.
Proof.
  intros Hstate. unfold endSelectionPeriod_room.
  rewrite bool_decide_eq_false_2 by (rewrite Hstate; auto).
  unfold calculateResults_room, clearSelectionTimer.
  by destruct room as [c ps st cr mr [t1 |] t2 sd rd wh rc ca].
Qed.

Lemma endRound_room_round room :
  Room.state room = revealing ->
  Room.maxRounds (fst (endRound_room roomCode room)) = Room.maxRounds room
  /\ (Room.currentRound room < Room.maxRounds room ->
      Room.state (fst (endRound_room roomCode room)) = selection
      /\ Room.currentRound (fst (endRound_room roomCode room))
         = Room.currentRound room + 1)
  /\ (Room.maxRounds room <= Room.currentRound room ->
      Room.state (fst (endRound_room roomCode room)) = game_over
      /\ Room.currentRound (fst (endRound_room roomCode room))
         = Room.currentRound room).
Proof.
  intros Hstate. unfold endRound_room.
  rewrite bool_decide_eq_false_2 by (rewrite Hstate; auto).
  assert (Hround : Room.currentRound (clearRevealTimer room)
                   = Room.currentRound room)
    by (unfold clearRevealTimer; by destruct (Room.revealTimer room)).
  assert (Hmax : Room.maxRounds (clearRevealTimer room) = Room.maxRounds room)
    by (unfold clearRevealTimer; by destruct (Room.revealTimer room)).
  rewrite Hround, Hmax.
  destruct (Z.geb_spec (Room.currentRound room) (Room.maxRounds room))
    as [Hge | Hlt].
  - unfold endGame_room, clearRevealTimer, clearSelectionTimer.
    destruct room as [c ps st cr mr [t1 |] [t2 |] sd rd wh rc ca]; cbn in *;
      (split; [done |]); (split; [lia | done]).
  - unfold startRound_room, clearRevealTimer, clearSelectionTimer.
    destruct room as [c ps st cr mr [t1 |] [t2 |] sd rd wh rc ca]; cbn in *;
      (split; [done |]); (split; [done | lia]).
Qed.

Lemma playRound_round wallHole room :
  Room.state room = selection ->
  Room.maxRounds (playRound cfg roomCode wallHole room) = Room.maxRounds room
  /\ (Room.currentRound room < Room.maxRounds room ->
      Room.state (playRound cfg roomCode wallHole room) = selection
      /\ Room.currentRound (playRound cfg roomCode wallHole room)
         = Room.currentRound room + 1)
  /\ (Room.maxRounds room <= Room.currentRound room ->
      Room.state (playRound cfg roomCode wallHole room) = game_over
      /\ Room.currentRound (playRound cfg roomCode wallHole room)
         = Room.currentRound room).
Proof.
  intros Hstate. unfold playRound.
  destruct (endSelectionPeriod_room_round wallHole room Hstate)
    as (Hrev & Hround & Hmax).
  destruct (endRound_room_round _ Hrev) as (Hmax' & Hnext & Hlast).
  rewrite Hround, Hmax in *. by rewrite Hmax'.
Qed.

Lemma playRounds_after_game_over wallHoles room :
  Room.state room = game_over -> playRounds cfg roomCode wallHoles room = room.
Proof.
  intros Hover. induction wallHoles as [| w ws IH]; [done |].
  unfold playRounds in *. cbn [foldl]. unfold playRound at 2.
  rewrite endSelectionPeriod_room_stale by (rewrite Hover; auto).
  cbn [fst]. rewrite endRound_room_stale by (rewrite Hover; auto).
  exact IH.
Qed.

(** X12: a room in phase selection at round [r <= maxRounds] stays in
    play for exactly [maxRounds - r + 1] rounds: after fewer rounds it is
    in selection again, at round [r] plus the rounds played; after that
    many rounds it is in game-over at round [maxRounds], and it stays
    there whatever callbacks still arrive. *)
Theorem game_lasts_max_rounds wallHoles room :
  Room.state room = selection ->
  Room.currentRound room <= Room.maxRounds room ->
  (Z.of_nat (length wallHoles)
     < Room.maxRounds room - Room.currentRound room + 1 ->
   Room.state (playRounds cfg roomCode wallHoles room) = selection
   /\ Room.currentRound (playRounds cfg roomCode wallHoles room)
      = Room.currentRound room + Z.of_nat (length wallHoles))
  /\ (Room.maxRounds room - Room.currentRound room + 1
        <= Z.of_nat (length wallHoles) ->
      Room.state (playRounds cfg roomCode wallHoles room) = game_over
      /\ Room.currentRound (playRounds cfg roomCode wallHoles room)
         = Room.maxRounds room).
Proof.
  revert room. induction wallHoles as [| w ws IH]; intros room Hstate Hle.
  - cbn. split; [intros _; split; [done | lia] | lia].
  - change (playRounds cfg roomCode (w :: ws) room)
      with (playRounds cfg roomCode ws (playRound cfg roomCode w room)).
    destruct (playRound_round w room Hstate) as (Hmax & Hnext & Hlast).
    cbn [length]. rewrite Nat2Z.inj_succ.
    destruct (Z.lt_ge_cases (Room.currentRound room) (Room.maxRounds room))
      as [Hlt | Hge].
    + destruct (Hnext Hlt) as [Hsel Hround].
      destruct (IH _ Hsel ltac:(lia)) as [IHplay IHover].
      rewrite Hmax, Hround in IHplay, IHover.
      split; intros Hlen.
      * destruct (IHplay ltac:(lia)) as [-> ->]. split; [done | lia].
      * by apply IHover; lia.
    + destruct (Hlast Hge) as [Hover Hround].
      rewrite playRounds_after_game_over by done.
      split; intros Hlen; [lia |]. split; [done | lia].
Qed.
End GameLength.

Lemma game_lasts_max_rounds_witness :
  Room.state
    (playRounds Config.defaults "ABC123" [7; 7; 7; 7; 7; 7; 7; 7; 7; 7]
       Scenario.startedRoom) = game_over
  /\ Room.currentRound
       (playRounds Config.defaults "ABC123" [7; 7; 7; 7; 7; 7; 7; 7; 7; 7]
          Scenario.startedRoom) = Room.maxRounds Scenario.startedRoom.
Proof.
  refine (proj2 (game_lasts_max_rounds Config.defaults "ABC123"
                   [7; 7; 7; 7; 7; 7; 7; 7; 7; 7] Scenario.startedRoom _ _) _).
  - reflexivity.
  - vm_compute. discriminate.
  - vm_compute. discriminate.
Defined.

(** ** Error reports *)

Lemma noError_emitPlayerListUpdate roomCode s :
  noError (GameGateway.emitPlayerListUpdate roomCode s).
Proof.
  unfold GameGateway.emitPlayerListUpdate, noError.
  destruct (getRoom roomCode s); repeat constructor.
Qed.

Lemma noError_emitRoomState client roomCode s :
  noError (GameGateway.emitRoomState client roomCode s).
Proof.
  unfold GameGateway.emitRoomState, noError.
  destruct (getRoom roomCode s); repeat constructor.
Qed.

Lemma noError_emitRoundStarted roomCode s :
  noError (emitRoundStarted roomCode s).
Proof.
  unfold emitRoundStarted, noError.
  destruct (getRoom roomCode s); repeat constructor.
Qed.

Lemma noError_app out1 out2 :
  noError out1 -> noError out2 -> noError (out1 ++ out2).
Proof. apply Forall_app_2. Qed.

Lemma noError_onRoom roomCode (f : Room.t -> Room.t * list Emit) s :
  (forall room, noError (snd (f room))) -> noError (snd (onRoom roomCode f s)).
Proof.
  intros Hf. unfold onRoom.
  destruct (Server.rooms s !! roomCode) as [room |]; [| constructor].
  specialize (Hf room). by destruct (f room).
Qed.

Lemma noError_startGame_room roomCode room :
  noError (snd (startGame_room roomCode room)).
Proof. repeat constructor. Qed.

Lemma noError_endSelectionPeriod_room cfg roomCode wallHole room :
  noError (snd (endSelectionPeriod_room cfg roomCode wallHole room)).
Proof.
  unfold endSelectionPeriod_room. case_bool_decide; [constructor |].
  unfold calculateResults_room. cbn. repeat constructor.
Qed.

Lemma noError_endRound_room roomCode room :
  noError (snd (endRound_room roomCode room)).
Proof.
  unfold endRound_room. case_bool_decide; [constructor |].
  destruct (_ >=? _); cbn; repeat constructor.
Qed.

(** X13: whatever the action and the state, either the server answers
    with a single room-error, sent to the acting connection alone, and
    its state is left exactly as it was, or nothing it sends is a
    room-error.  So an error is never broadcast, never accompanied by
    another message, and never comes with a change of state; timer
    callbacks never report an error. *)
Theorem errors_are_private_and_change_nothing
    (cfg : Config.t) (a : Action) (s : Server.t) :
  (onlyAnErrorTo (actingClient a) (snd (step cfg a s))
   /\ fst (step cfg a s) = s)
  \/ noError (snd (step cfg a s)).
Proof.
  destruct a as [client playerId generated now | client roomCode playerId
                | client name | client | client height | client | client
                | roomCode wallHole | roomCode]; cbn [step actingClient].
  - right. unfold GameGateway.handleCreateRoom, createRoom.
    destruct (List.find _ generated) as [roomCode |]; [| constructor].
    unfold joinRoom. cbn. rewrite lookup_insert_eq. cbn.
    constructor; [done | apply noError_emitRoomState].
  - unfold GameGateway.handleJoinRoom, getRoom, joinRoom.
    destruct (Server.rooms s !! roomCode) as [room |].
    + right. cbn. constructor; [done |].
      apply noError_app;
        [apply noError_emitRoomState | apply noError_emitPlayerListUpdate].
    + left. split; [| done]. by eexists _, _.
  - unfold GameGateway.handleSetPlayerName.
    destruct (truthy _) as [playerId |];
      [| left; split; [by eexists _, _ | done]].
    destruct (roomKeyOf playerId s) as [key |];
      [| left; split; [by eexists _, _ | done]].
    destruct (Server.rooms s !! key) as [room |];
      [| left; split; [by eexists _, _ | done]].
    destruct (JsMap.get playerId (Room.players room)) as [player |];
      [| left; split; [by eexists _, _ | done]].
    destruct (existsb _ _); [left; split; [by eexists _, _ | done] |].
    right. cbn. apply noError_app;
      [apply noError_emitPlayerListUpdate | repeat constructor].
  - unfold GameGateway.handlePlayerReady.
    destruct (truthy _) as [playerId |];
      [| left; split; [by eexists _, _ | done]].
    destruct (roomKeyOf playerId s) as [key |];
      [| left; split; [by eexists _, _ | done]].
    destruct (Server.rooms s !! key) as [room |];
      [| left; split; [by eexists _, _ | done]].
    destruct (JsMap.get playerId (Room.players room)) as [player |];
      [| left; split; [by eexists _, _ | done]].
    destruct (_ || _); [left; split; [by eexists _, _ | done] |].
    right. cbn zeta.
    destruct (checkAllPlayersReady _ _);
      [| apply noError_emitPlayerListUpdate].
    unfold startGame.
    match goal with
    | |- context [onRoom ?c ?f ?s1] =>
        pose proof (noError_onRoom c f s1 (noError_startGame_room c)) as Hstart;
        destruct (onRoom c f s1) as [s2 out2]
    end.
    cbn [snd] in *.
    apply noError_app; [apply noError_emitPlayerListUpdate |].
    apply noError_app; [exact Hstart |].
    constructor; [done | apply noError_emitRoundStarted].
  - unfold GameGateway.handleSelectHeight.
    destruct (truthy _) as [playerId |];
      [| left; split; [by eexists _, _ | done]].
    destruct (getRoomByPlayerId playerId s) as [room |];
      [| left; split; [by eexists _, _ | done]].
    case_bool_decide; [left; split; [by eexists _, _ | done] |].
    right. destruct (submitHeight _ _ _ _). repeat constructor.
  - unfold GameGateway.handleRestartConsent.
    destruct (truthy _) as [playerId |];
      [| left; split; [by eexists _, _ | done]].
    destruct (getRoomByPlayerId playerId s) as [room |];
      [| left; split; [by eexists _, _ | done]].
    case_bool_decide; [left; split; [by eexists _, _ | done] |].
    right. destruct (handleRestartConsent _ _ _) as [s1 out].
    destruct (getRoomByPlayerId playerId s1) as [updated |]; [| constructor].
    case_bool_decide; [| repeat constructor].
    cbn. constructor; [done |]. constructor; [done |].
    apply noError_emitPlayerListUpdate.
  - right. unfold GameGateway.handleDisconnect.
    destruct (truthy _) as [playerId |]; [| constructor].
    destruct (roomKeyOf playerId s) as [key |]; [| constructor].
    destruct (Server.rooms s !! key) as [room |]; [| constructor].
    destruct (JsMap.get playerId (Room.players room)) as [player |];
      [| constructor].
    destruct (_ || _); cbn [snd];
      (constructor; [done | apply noError_emitPlayerListUpdate]).
  - right. apply noError_onRoom. intros room.
    apply noError_endSelectionPeriod_room.
  - right. apply noError_onRoom. intros room. apply noError_endRound_room.
Qed.

(** ** Names *)

(** X14: in every reachable state and in every phase, a roster member's
    set-player-name is refused with the room-error "Este nombre ya está en
    uso", with nothing changed, exactly when another roster member (one
    with a different id) already bears that name; otherwise the name is
    stored for that player alone, the player list is broadcast to the
    room and name-set confirms to the sender -- also when the player
    sends the name it already has. *)
Theorem set_name_refused_iff_taken_by_another
    (cfg : Config.t) (client name : string) (s : Server.t)
    (playerId key : string) (room : Room.t) (player : Player.t) :
  reachable cfg s ->
  truthy (Server.socketPlayerMap s !! client) = Some playerId ->
  roomKeyOf playerId s = Some key ->
  Server.rooms s !! key = Some room ->
  JsMap.get playerId (Room.players room) = Some player ->
  ((exists p, p ∈ JsMap.values (Room.players room)
              /\ Player.name p = name /\ Player.id p <> playerId) ->
   GameGateway.handleSetPlayerName client name s
   = (s, [ToClient client (RoomError "Este nombre ya está en uso")]))
  /\ ((forall p, p ∈ JsMap.values (Room.players room) ->
                 Player.name p = name -> Player.id p = playerId) ->
      let named :=
        Player.mk (Player.id player) (Player.socketId player) name
          (Player.isReady player) (Player.isHost player) (Player.score player)
          (Player.currentHeight player) (Player.isConnected player) in
      let renamed :=
        Room.mk (Room.code room)
          (JsMap.set playerId named (Room.players room))
          (Room.state room) (Room.currentRound room) (Room.maxRounds room)
          (Room.selectionTimer room) (Room.revealTimer room)
          (Room.selectionDuration room) (Room.revealDuration room)
          (Room.currentWallHole room) (Room.restartConsents room)
          (Room.createdAt room) in
      GameGateway.handleSetPlayerName client name s
      = (Server.mk (<[key := renamed]> (Server.rooms s))
           (Server.playerRoomMap s) (Server.socketPlayerMap s),
         [ToRoom key (PlayerListUpdated (GameGateway.playerViews renamed));
          ToClient client (NameSet playerId name)])
      /\ (exists room' stored,
            Server.rooms (fst (GameGateway.handleSetPlayerName client name s))
              !! key = Some room'
            /\ JsMap.get playerId (Room.players room') = Some stored
            /\ Player.name stored = name)
      /\ forall other,
           other <> playerId ->
           JsMap.get other (Room.players renamed)
           = JsMap.get other (Room.players room)).
Proof.
  intros Hreach Hsock Hkey Hroom Hget.
  destruct (reachable_registry_ok cfg s Hreach key room Hroom) as [Hcode _].
  split.
  - intros (p & Hp & Hname & Hid).
    unfold GameGateway.handleSetPlayerName.
    rewrite Hsock, Hkey, Hroom, Hget.
    replace (existsb _ _) with true; [done |].
    symmetry. apply existsb_exists. exists p.
    split; [by apply list_elem_of_In |].
    apply andb_true_iff. split; [by apply String.eqb_eq |].
    apply negb_true_iff. by apply String.eqb_neq.
  - intros Hfree named renamed.
    unfold GameGateway.handleSetPlayerName.
    rewrite Hsock, Hkey, Hroom, Hget.
    replace (existsb _ _) with false.
    + cbn zeta.
      change (Room.set_players
                (JsMap.set playerId (Player.set_name name player)
                   (Room.players room)) room) with renamed.
      unfold GameGateway.emitPlayerListUpdate, getRoom.
      cbn [fst putRoom Server.rooms Server.set_rooms Room.code renamed].
      rewrite Hcode, lookup_insert_eq.
      split; [reflexivity |]. split.
      * exists renamed, named. split; [done |].
        split; [apply JsMap_get_set_eq | reflexivity].
      * intros other Hne. cbn. by apply JsMap_get_set_ne.
    + symmetry. apply not_true_iff_false. intros Hex.
      apply existsb_exists in Hex as (p & Hp & Hboth).
      apply andb_true_iff in Hboth as [Hname Hid].
      apply String.eqb_eq in Hname. apply negb_true_iff in Hid.
      apply String.eqb_neq in Hid. apply Hid, Hfree; [| done].
      by apply list_elem_of_In.
Qed.

Lemma set_name_refused_iff_taken_by_another_witness :
  GameGateway.handleSetPlayerName "s2" "Ana" Scenario.started
  = (Scenario.started,
     [ToClient "s2" (RoomError "Este nombre ya está en uso")]).
Proof.
  refine (proj1 (set_name_refused_iff_taken_by_another Config.defaults
                   "s2" "Ana" Scenario.started "p2" "ABC123"
                   Scenario.startedRoom
                   (Player.mk "p2" "s2" "Beto" true false 0 None true)
                   _ _ _ _ _) _).
  - apply reachable_run. constructor.
  - vm_compute. reflexivity.
  - vm_compute. reflexivity.
  - vm_compute. reflexivity.
  - reflexivity.
  - exists (Player.mk "p1" "s1" "Ana" true true 0 (Some 7) true).
    split; [| split].
    + apply list_elem_of_In. simpl. tauto.
    + reflexivity.
    + discriminate.
Defined.

(** ** Readiness and the start of a game *)

Lemma trimStart_nil (l : list (list ascii)) :
  trimStart l = [] <-> forallb is_white_space l = true.
Proof.
  induction l as [| c l IH]; simpl; [done |].
  destruct (is_white_space c); simpl; [exact IH | done].
Qed.

Lemma trimStart_all_white (l : list (list ascii)) :
  forallb is_white_space (trimStart l) = true -> trimStart l = [].
Proof.
  induction l as [| c l IH]; simpl; [done |].
  destruct (is_white_space c) eqn:Hc; [exact IH |].
  simpl. by rewrite Hc.
Qed.

Lemma trimStart_Forall (P : list ascii -> Prop) (l : list (list ascii)) :
  Forall P l -> Forall P (trimStart l).
Proof.
  induction 1 as [| c l Hc Hl IH]; simpl; [done |].
  destruct (is_white_space c); [exact IH | by constructor].
Qed.

Lemma forallb_rev {A : Type} (f : A -> bool) (l : list A) :
  forallb f (rev l) = forallb f l.
Proof.
  induction l as [| x l IH]; simpl; [done |].
  rewrite forallb_app, IH. simpl. rewrite andb_true_r. apply andb_comm.
Qed.

Lemma string_of_list_ascii_nil (l : list ascii) :
  String.string_of_list_ascii l = "" <-> l = [].
Proof. by destruct l. Qed.

(** Every code point that [utf8Split] cuts off has at least one byte. *)
Lemma utf8Split_nonempty (l : list ascii) :
  Forall (fun codePoint => codePoint <> []) (utf8Split l).
Proof.
  remember (length l) as n eqn:Hn.
  revert l Hn. induction (lt_wf n) as [n _ IH]. intros l ->.
  destruct l as [| a l1]; [constructor |].
  assert (Hrest : forall l', (length l' < length (a :: l1))%nat ->
                    Forall (fun codePoint => codePoint <> []) (utf8Split l'))
    by (intros l' Hlt; by eapply IH).
  cbn [utf8Split].
  destruct (utf8Width a) as [| [| [| [| [| w]]]]];
    try (constructor; [done | apply Hrest; cbn; lia]).
  - destruct l1 as [| b l2]; constructor; try done; apply Hrest; cbn; lia.
  - destruct l1 as [| b [| c l3]]; constructor; try done;
      apply Hrest; cbn; lia.
  - destruct l1 as [| b [| c [| d l4]]]; constructor; try done;
      apply Hrest; cbn; lia.
Qed.

Lemma concat_nonempty_nil {A : Type} (l : list (list A)) :
  Forall (fun x => x <> []) l -> concat l = [] -> l = [].
Proof.
  destruct 1 as [| x l Hx Hl]; [done |]. simpl.
  intros Happ. by apply app_eq_nil in Happ as [-> _].
Qed.

(** [trim] leaves nothing exactly of the strings made of white space. *)
Lemma trim_empty_iff (name : string) :
  trim name = "" <-> forallb is_white_space (codePoints name) = true.
Proof.
  unfold trim. rewrite string_of_list_ascii_nil.
  pose proof (utf8Split_nonempty (String.list_ascii_of_string name)) as Hne.
  fold (codePoints name) in Hne.
  set (l := codePoints name) in *.
  split.
  - intros Hnil. apply trimStart_nil.
    assert (Hrev : trimStart (rev (trimStart l)) = []).
    { apply concat_nonempty_nil in Hnil.
      - apply (f_equal (@length (list ascii))) in Hnil.
        rewrite length_rev in Hnil.
        by destruct (trimStart (rev (trimStart l))).
      - apply Forall_rev, trimStart_Forall, Forall_rev, trimStart_Forall.
        exact Hne. }
    apply trimStart_nil in Hrev. rewrite forallb_rev in Hrev.
    by apply trimStart_all_white.
  - intros Hall. apply trimStart_nil in Hall. by rewrite Hall.
Qed.

Lemma blank_name_test (name : string) :
  (String.eqb name "" || String.eqb (trim name) "")%bool
  = forallb is_white_space (codePoints name).
Proof.
  destruct (forallb _ _) eqn:Hall.
  - apply trim_empty_iff in Hall. rewrite Hall. cbn. apply orb_true_r.
  - apply orb_false_iff. split.
    + apply String.eqb_neq. intros ->. done.
    + apply String.eqb_neq. intros Hnil%trim_empty_iff. congruence.
Qed.

Lemma checkAllPlayersReady_room_true (room : Room.t) :
  checkAllPlayersReady_room room = true
  <-> Room.players room <> []
      /\ forall p, p ∈ JsMap.values (Room.players room) ->
                   Player.isConnected p = true -> Player.isReady p = true.
Proof.
  unfold checkAllPlayersReady_room. rewrite JsMap_size_0.
  case_bool_decide as Hempty.
  - split; [done | by intros [? _]].
  - rewrite forallb_forall. split.
    + intros Hall. split; [done |]. intros p Hp Hconn.
      apply list_elem_of_In in Hp. specialize (Hall p Hp).
      rewrite Hconn in Hall. simpl in Hall.
      by apply negb_true_iff, negb_false_iff in Hall.
    + intros [_ Hall] p Hp. apply list_elem_of_In in Hp.
      destruct (Player.isConnected p) eqn:Hconn; [| done]. simpl.
      apply negb_true_iff, negb_false_iff. by apply Hall.
Qed.

Lemma clearSelectionTimer_selectionDuration (room : Room.t) :
  Room.selectionDuration (clearSelectionTimer room)
  = Room.selectionDuration room.
Proof. unfold clearSelectionTimer. by destruct (Room.selectionTimer room). Qed.

Lemma clearRevealTimer_selectionDuration (room : Room.t) :
  Room.selectionDuration (clearRevealTimer room) = Room.selectionDuration room.
Proof. unfold clearRevealTimer. by destruct (Room.revealTimer room). Qed.

Lemma startGame_room_broadcast roomCode (room : Room.t) :
  snd (startGame_room roomCode room)
  = [ToRoom roomCode (RoundStarted 1 (Room.selectionDuration room))]
  /\ emitRoundStarted_room roomCode (fst (startGame_room roomCode room))
     = [ToRoom roomCode (RoundStarted 1 (Room.selectionDuration room))].
Proof. by destruct room as [c ps st cr mr [t1 |] [t2 |] sd rd wh rc ca]. Qed.

Section Ready.
Variables (cfg : Config.t) (client : string) (s : Server.t)
          (playerId key : string) (room : Room.t) (player : Player.t).
Hypothesis Hreach : reachable cfg s.
Hypothesis Hsock :
  truthy (Server.socketPlayerMap s !! client) = Some playerId.
Hypothesis Hkey : roomKeyOf playerId s = Some key.
Hypothesis Hroom : Server.rooms s !! key = Some room.
Hypothesis Hget : JsMap.get playerId (Room.players room) = Some player.

(** The room once the player is marked ready and a lobby has become
    waiting-ready. *)
Let marked : Room.t :=
  Room.set_players
    (JsMap.set playerId (Player.set_isReady true player) (Room.players room))
    room.
Let waiting : Room.t :=
  if bool_decide (Room.state room = lobby)
  then Room.set_state waiting_ready marked else marked.

Lemma handlePlayerReady_named :
  forallb is_white_space (codePoints (Player.name player)) = false ->
  GameGateway.handlePlayerReady client s
  = if checkAllPlayersReady_room waiting
    then (putRoom key (fst (startGame_room key waiting)) s,
          [ToRoom key (PlayerListUpdated (GameGateway.playerViews waiting));
           ToRoom key (RoundStarted 1 (Room.selectionDuration room));
           ToRoom key (GameStarted (Room.maxRounds room));
           ToRoom key (RoundStarted 1 (Room.selectionDuration room))])
    else (putRoom key waiting s,
          [ToRoom key (PlayerListUpdated (GameGateway.playerViews waiting))]).
Proof.
  intros Hnamed.
  destruct (reachable_registry_ok cfg s Hreach key room Hroom) as [Hcode _].
  unfold GameGateway.handlePlayerReady.
  rewrite Hsock, Hkey, Hroom, Hget, blank_name_test, Hnamed. cbn zeta.
  fold marked. change (Room.state marked) with (Room.state room).
  fold waiting.
  assert (Hwcode : Room.code waiting = key)
    by (subst waiting; by case_bool_decide).
  assert (Hwmax : Room.maxRounds waiting = Room.maxRounds room)
    by (subst waiting; by case_bool_decide).
  assert (Hwdur : Room.selectionDuration waiting = Room.selectionDuration room)
    by (subst waiting; by case_bool_decide).
  rewrite Hwcode, Hwmax.
  unfold checkAllPlayersReady, GameGateway.emitPlayerListUpdate, getRoom.
  cbn [putRoom Server.rooms Server.set_rooms]. rewrite lookup_insert_eq.
  destruct (checkAllPlayersReady_room waiting); [| done].
  unfold startGame, onRoom. cbn [putRoom Server.rooms Server.set_rooms].
  rewrite lookup_insert_eq.
  destruct (startGame_room_broadcast key waiting) as [Hout Hagain].
  rewrite (surjective_pairing (startGame_room key waiting)).
  unfold emitRoundStarted, getRoom.
  cbn [fst snd putRoom Server.rooms Server.set_rooms].
  rewrite lookup_insert_eq, Hout, Hagain, Hwdur.
  f_equal. unfold putRoom, Server.set_rooms.
  cbn [Server.rooms Server.playerRoomMap Server.socketPlayerMap].
  by rewrite insert_insert_eq.
Qed.
End Ready.

(** X15: a roster member whose name is empty or made of white space only
    (every code point of it is one that [trim] strips: ASCII white space,
    no-break space, the other Unicode space separators, the line and
    paragraph separators, the byte order mark) cannot mark ready: the
    handler answers with the room-error "Debes establecer un nombre antes
    de estar listo" and changes nothing. *)
Theorem blank_name_cannot_mark_ready
    (client : string) (s : Server.t) (playerId key : string)
    (room : Room.t) (player : Player.t) :
  truthy (Server.socketPlayerMap s !! client) = Some playerId ->
  roomKeyOf playerId s = Some key ->
  Server.rooms s !! key = Some room ->
  JsMap.get playerId (Room.players room) = Some player ->
  forallb is_white_space (codePoints (Player.name player)) = true ->
  GameGateway.handlePlayerReady client s
  = (s, [ToClient client
           (RoomError "Debes establecer un nombre antes de estar listo")]).
Proof.
  intros Hsock Hkey Hroom Hget Hblank. unfold GameGateway.handlePlayerReady.
  by rewrite Hsock, Hkey, Hroom, Hget, blank_name_test, Hblank.
Qed.

Lemma blank_name_cannot_mark_ready_witness :
  GameGateway.handlePlayerReady "s2" Scenario.lobbyWithBlankName
  = (Scenario.lobbyWithBlankName,
     [ToClient "s2"
        (RoomError "Debes establecer un nombre antes de estar listo")]).
Proof.
  apply (blank_name_cannot_mark_ready "s2" Scenario.lobbyWithBlankName
           "p2" "ABC123" Scenario.blankNameRoom
           (Player.mk "p2" "s2" Scenario.noBreakSpaces false false 0 None
              true)).
  - vm_compute. reflexivity.
  - vm_compute. reflexivity.
  - vm_compute. reflexivity.
  - reflexivity.
  - reflexivity.
Defined.

Lemma JsMap_set_nonempty {V : Type} (k : string) (v : V)
    (m : list (string * V)) :
  JsMap.set k v m <> [].
Proof.
  destruct m as [| [k0 v0] m]; simpl; [done |].
  by destruct (String.eqb k k0).
Qed.

(** X16: in every reachable state and whatever the phase, when a named
    roster member (some code point of the name is not white space for
    [trim]) marks ready its readiness flag is set and a lobby becomes
    waiting-ready.  While some connected roster member is still
    not ready, nothing else happens and only the player list is
    broadcast.  As soon as every connected roster member is ready, a game
    starts at once: phase selection, round 1, every stored guess and the
    target cleared, the selection deadline armed for the selection
    duration and no reveal deadline; the room is sent the player list,
    round-started, game-started and round-started again. *)
Theorem ready_marks_and_last_ready_starts_game
    (cfg : Config.t) (client : string) (s : Server.t)
    (playerId key : string) (room : Room.t) (player : Player.t) :
  reachable cfg s ->
  truthy (Server.socketPlayerMap s !! client) = Some playerId ->
  roomKeyOf playerId s = Some key ->
  Server.rooms s !! key = Some room ->
  JsMap.get playerId (Room.players room) = Some player ->
  forallb is_white_space (codePoints (Player.name player)) = false ->
  let ready :=
    Player.mk (Player.id player) (Player.socketId player)
      (Player.name player) true (Player.isHost player) (Player.score player)
      (Player.currentHeight player) (Player.isConnected player) in
  let roster := JsMap.set playerId ready (Room.players room) in
  let waiting :=
    Room.mk (Room.code room) roster
      (if bool_decide (Room.state room = lobby)
       then waiting_ready else Room.state room)
      (Room.currentRound room) (Room.maxRounds room)
      (Room.selectionTimer room) (Room.revealTimer room)
      (Room.selectionDuration room) (Room.revealDuration room)
      (Room.currentWallHole room) (Room.restartConsents room)
      (Room.createdAt room) in
  ((exists p, p ∈ JsMap.values roster
              /\ Player.isConnected p = true /\ Player.isReady p = false) ->
   GameGateway.handlePlayerReady client s
   = (Server.mk (<[key := waiting]> (Server.rooms s))
        (Server.playerRoomMap s) (Server.socketPlayerMap s),
      [ToRoom key (PlayerListUpdated (GameGateway.playerViews waiting))]))
  /\ ((forall p, p ∈ JsMap.values roster ->
                 Player.isConnected p = true -> Player.isReady p = true) ->
      GameGateway.handlePlayerReady client s
      = (Server.mk
           (<[key :=
                Room.mk (Room.code room)
                  (JsMap.forEach
                     (fun p =>
                        Player.mk (Player.id p) (Player.socketId p)
                          (Player.name p) (Player.isReady p)
                          (Player.isHost p) (Player.score p) None
                          (Player.isConnected p)) roster)
                  selection 1 (Room.maxRounds room)
                  (Some {| callback := CallEndSelectionPeriod;
                           delayMs := Room.selectionDuration room * 1000 |})
                  None (Room.selectionDuration room)
                  (Room.revealDuration room) None
                  (Room.restartConsents room) (Room.createdAt room)]>
              (Server.rooms s))
           (Server.playerRoomMap s) (Server.socketPlayerMap s),
         [ToRoom key (PlayerListUpdated (GameGateway.playerViews waiting));
          ToRoom key (RoundStarted 1 (Room.selectionDuration room));
          ToRoom key (GameStarted (Room.maxRounds room));
          ToRoom key (RoundStarted 1 (Room.selectionDuration room))])).
Proof.
  intros Hreach Hsock Hkey Hroom Hget Hnamed ready roster waiting.
  pose proof (handlePlayerReady_named cfg client s playerId key room player
                Hreach Hsock Hkey Hroom Hget Hnamed) as Hready.
  cbn zeta in Hready.
  change (JsMap.set playerId (Player.set_isReady true player)
            (Room.players room)) with roster in Hready.
  assert (Hwaiting :
    (if bool_decide (Room.state room = lobby)
     then Room.set_state waiting_ready (Room.set_players roster room)
     else Room.set_players roster room) = waiting).
  { subst waiting. case_bool_decide; by destruct room. }
  rewrite Hwaiting in Hready. rewrite Hready. split.
  - intros (p & Hp & Hconn & Hnot).
    destruct (checkAllPlayersReady_room waiting) eqn:Hall; [| done].
    apply checkAllPlayersReady_room_true in Hall as [_ Hall].
    specialize (Hall p Hp Hconn). congruence.
  - intros Hall.
    replace (checkAllPlayersReady_room waiting) with true.
    + f_equal. unfold putRoom, Server.set_rooms. do 2 f_equal.
      subst waiting.
      by destruct room as [c ps st cr mr [t1 |] [t2 |] sd rd wh rc ca].
    + symmetry. apply checkAllPlayersReady_room_true. split; [| exact Hall].
      apply JsMap_set_nonempty.
Qed.

Lemma ready_marks_and_last_ready_starts_game_witness :
  GameGateway.handlePlayerReady "s2"
    (run Config.defaults (firstn 5 Scenario.opening) Server.empty)
  = (putRoom "ABC123"
       (Room.mk "ABC123"
          [("p1", Player.mk "p1" "s1" "Ana" true true 0 None true);
           ("p2", Player.mk "p2" "s2" "Beto" true false 0 None true)]
          selection 1 10
          (Some {| callback := CallEndSelectionPeriod; delayMs := 15000 |})
          None 15 5 None ∅ 0)
       (run Config.defaults (firstn 5 Scenario.opening) Server.empty),
     [ToRoom "ABC123"
        (PlayerListUpdated
           [PlayerView.mk "p1" "Ana" true true 0 true;
            PlayerView.mk "p2" "Beto" true false 0 true]);
      ToRoom "ABC123" (RoundStarted 1 15);
      ToRoom "ABC123" (GameStarted 10);
      ToRoom "ABC123" (RoundStarted 1 15)]).
Proof.
  refine (proj2 (ready_marks_and_last_ready_starts_game Config.defaults "s2"
                   (run Config.defaults (firstn 5 Scenario.opening)
                      Server.empty)
                   "p2" "ABC123"
                   (Room.mk "ABC123"
                      [("p1", Player.mk "p1" "s1" "Ana" true true 0 None true);
                       ("p2", Player.mk "p2" "s2" "Beto" false false 0 None
                                true)]
                      waiting_ready 0 10 None None 15 5 None ∅ 0)
                   (Player.mk "p2" "s2" "Beto" false false 0 None true)
                   _ _ _ _ _ _) _).
  - apply reachable_run. constructor.
  - vm_compute. reflexivity.
  - vm_compute. reflexivity.
  - vm_compute. reflexivity.
  - reflexivity.
  - reflexivity.
  - intros p Hp _. apply list_elem_of_In in Hp. simpl in Hp.
    destruct Hp as [<- | [<- | []]]; reflexivity.
Defined.

(** ** Gateway: restart consent *)

Lemma connected_count_reset (players : list (string * Player.t)) :
  length (filter (fun p => Player.isConnected p = true)
            (JsMap.values (JsMap.forEach resetPlayer players)))
  = length (filter (fun p => Player.isConnected p = true)
              (JsMap.values players)).
Proof.
  rewrite JsMap_values_forEach.
  induction (JsMap.values players) as [| p l IH]; [done |].
  cbn [map]. rewrite !filter_cons.
  change (Player.isConnected (resetPlayer p)) with (Player.isConnected p).
  destruct (decide (Player.isConnected p = true)); cbn [length];
    by rewrite IH.
Qed.

Lemma handleRestartConsent_game_over
    (client : string) (s : Server.t) (playerId key : string) (room : Room.t) :
  truthy (Server.socketPlayerMap s !! client) = Some playerId ->
  roomKeyOf playerId s = Some key ->
  Server.rooms s !! key = Some room ->
  Room.code room = key ->
  Room.state room = game_over ->
  GameGateway.handleRestartConsent client s
  = (putRoom key (handleRestartConsent_room playerId room) s,
     ToRoom key
       (RestartStatus
          (Z.of_nat
             (size (Room.restartConsents
                      (handleRestartConsent_room playerId room))))
          (Z.of_nat
             (length
                (filter (fun p => Player.isConnected p = true)
                   (JsMap.values
                      (Room.players
                         (handleRestartConsent_room playerId room)))))))
     :: if bool_decide
             (Room.state (handleRestartConsent_room playerId room)
              = waiting_ready)
        then [ToRoom key GameRestarted;
              ToRoom key
                (PlayerListUpdated
                   (GameGateway.playerViews
                      (handleRestartConsent_room playerId room)))]
        else []).
Proof.
  intros Hsock Hkey Hroom Hcode Hstate.
  unfold GameGateway.handleRestartConsent, getRoomByPlayerId.
  rewrite Hsock, Hkey, Hroom.
  rewrite bool_decide_eq_false_2 by (rewrite Hstate; auto).
  unfold handleRestartConsent, onRoom. rewrite Hcode, Hroom.
  cbn [fst snd].
  replace (roomKeyOf playerId
             (putRoom key (handleRestartConsent_room playerId room) s))
    with (Some key) by (symmetry; exact Hkey).
  cbn [putRoom Server.rooms Server.set_rooms]. rewrite lookup_insert_eq.
  assert (Hcode' : Room.code (handleRestartConsent_room playerId room) = key).
  { unfold handleRestartConsent_room. case_bool_decide; [done |].
    by destruct (checkAllRestartConsents_room _). }
  rewrite Hcode'.
  case_bool_decide; [| done].
  unfold GameGateway.emitPlayerListUpdate, getRoom.
  cbn [putRoom Server.rooms Server.set_rooms]. by rewrite lookup_insert_eq.
Qed.

(** X17: in every reachable state, a restart consent from a player whose
    room is not in game-over is refused with the room-error "El juego no
    ha terminado" and changes nothing.  In game-over the consent is
    recorded and the room is sent restart-status with the number of
    recorded consents and the number of connected roster members, as long
    as some connected member has not consented.  The consent that
    completes the set restarts the game, and the room is then sent
    restart-status with 0 consents (the set has already been emptied),
    game-restarted and the player list with every score, guess and
    readiness flag reset. *)
Theorem restart_consent_reports
    (cfg : Config.t) (client : string) (s : Server.t)
    (playerId key : string) (room : Room.t) :
  reachable cfg s ->
  truthy (Server.socketPlayerMap s !! client) = Some playerId ->
  roomKeyOf playerId s = Some key ->
  Server.rooms s !! key = Some room ->
  let consents : gset string := {[playerId]} ∪ Room.restartConsents room in
  let connected :=
    Z.of_nat (length (filter (fun p => Player.isConnected p = true)
                        (JsMap.values (Room.players room)))) in
  (Room.state room <> game_over ->
   GameGateway.handleRestartConsent client s
   = (s, [ToClient client (RoomError "El juego no ha terminado")]))
  /\ (Room.state room = game_over ->
      (exists p, p ∈ JsMap.values (Room.players room)
                 /\ Player.isConnected p = true /\ Player.id p ∉ consents) ->
      GameGateway.handleRestartConsent client s
      = (putRoom key (Room.set_restartConsents consents room) s,
         [ToRoom key (RestartStatus (Z.of_nat (size consents)) connected)]))
  /\ (Room.state room = game_over ->
      Room.players room <> [] ->
      (forall p, p ∈ JsMap.values (Room.players room) ->
                 Player.isConnected p = true -> Player.id p ∈ consents) ->
      GameGateway.handleRestartConsent client s
      = (putRoom key
           (restartGame_room (Room.set_restartConsents consents room)) s,
         [ToRoom key (RestartStatus 0 connected);
          ToRoom key GameRestarted;
          ToRoom key
            (PlayerListUpdated
               (map (fun p =>
                       PlayerView.mk (Player.id p) (Player.name p) false
                         (Player.isHost p) 0 (Player.isConnected p))
                  (JsMap.values (Room.players room))))])).
Proof.
  intros Hreach Hsock Hkey Hroom consents connected.
  destruct (reachable_registry_ok cfg s Hreach key room Hroom) as [Hcode _].
  split; [| split].
  - intros Hstate. unfold GameGateway.handleRestartConsent, getRoomByPlayerId.
    rewrite Hsock, Hkey, Hroom. by rewrite bool_decide_eq_true_2.
  - intros Hstate (p & Hp & Hconn & Hnot).
    rewrite (handleRestartConsent_game_over client s playerId key room)
      by done.
    rewrite (consent_recorded playerId room p) by done.
    fold consents. cbn [Room.state Room.set_restartConsents Room.players
                        Room.restartConsents].
    rewrite Hstate. by rewrite bool_decide_eq_false_2.
  - intros Hstate Hne Hall.
    rewrite (handleRestartConsent_game_over client s playerId key room)
      by done.
    rewrite (consent_completes playerId room) by done.
    fold consents.
    change (Room.state (restartGame_room _)) with waiting_ready.
    change (Room.restartConsents (restartGame_room _)) with (∅ : gset string).
    change (Room.players
              (restartGame_room (Room.set_restartConsents consents room)))
      with (JsMap.forEach resetPlayer (Room.players room)).
    rewrite connected_count_reset. fold connected.
    rewrite bool_decide_eq_true_2 by done.
    f_equal. f_equal. f_equal. f_equal. f_equal.
    unfold GameGateway.playerViews.
    change (Room.players
              (restartGame_room (Room.set_restartConsents consents room)))
      with (JsMap.forEach resetPlayer (Room.players room)).
    rewrite JsMap_values_forEach, map_map. done.
Qed.

Lemma restart_consent_reports_witness :
  GameGateway.handleRestartConsent "s1" Scenario.played
  = (putRoom "ABC123"
       (Room.set_restartConsents ({[ "p1" ]} ∪ ∅)
          (Room.mk "ABC123"
             [("p1", Player.mk "p1" "s1" "Ana" true true (-25) (Some 5) true);
              ("p2", Player.mk "p2" "s2" "Beto" true false (-50) (Some 5)
                       true)]
             game_over 10 10 None None 15 5 (Some 7) ∅ 0))
       Scenario.played,
     [ToRoom "ABC123" (RestartStatus 1 2)]).
Proof.
  refine (proj1 (proj2 (restart_consent_reports Config.defaults "s1"
                          Scenario.played "p1" "ABC123"
                          (Room.mk "ABC123"
                             [("p1", Player.mk "p1" "s1" "Ana" true true (-25)
                                       (Some 5) true);
                              ("p2", Player.mk "p2" "s2" "Beto" true false
                                       (-50) (Some 5) true)]
                             game_over 10 10 None None 15 5 (Some 7) ∅ 0)
                          _ _ _ _)) _ _).
  - apply reachable_run. constructor.
  - vm_compute. reflexivity.
  - vm_compute. reflexivity.
  - vm_compute. reflexivity.
  - reflexivity.
  - exists (Player.mk "p2" "s2" "Beto" true false (-50) (Some 5) true).
    split; [| split].
    + apply list_elem_of_In. simpl. tauto.
    + reflexivity.
    + apply (bool_decide_unpack _). vm_compute. exact I.
Defined.

(** ** Room codes *)

Lemma characters_in_range (randomIndex : nat) :
  (randomIndex < 36)%nat ->
  exists c,
    String.get randomIndex characters = Some c
    /\ (isUpper c || isDigit c)%bool = true
    /\ upperChar c = c
    /\ Nat.ltb (nat_of_ascii c) 128 = true.
Proof.
  intros Hlt.
  do 36 (destruct randomIndex as [| randomIndex];
         [eexists; repeat split; reflexivity |]).
  lia.
Qed.

Section RoomCodes.
Variable toUpperCase : string -> string.
Hypothesis toUpperCase_ascii :
  forall s, isAscii s = true -> toUpperCase s = asciiUpperCase s.

(** X18: when every random index lies within the alphabet (which
    [Math.floor(Math.random() * 36)] guarantees), the generated room code
    has exactly six characters, all upper-case letters or digits; it is
    its own upper-case form, passes [isValidRoomCode] and matches the
    pattern that the join-room message is validated against.  Of
    [toUpperCase] only its action on ASCII strings is assumed. *)
Theorem generated_room_code_is_valid (randomIndex : nat -> nat) :
  (forall i, (i < 6)%nat -> (randomIndex i < 36)%nat) ->
  String.length (generateRoomCode randomIndex) = 6%nat
  /\ forallb (fun c => isUpper c || isDigit c)
       (String.list_ascii_of_string (generateRoomCode randomIndex)) = true
  /\ toUpperCase (generateRoomCode randomIndex) = generateRoomCode randomIndex
  /\ isValidRoomCode toUpperCase (generateRoomCode randomIndex) = true
  /\ matchesJoinRoomPattern (generateRoomCode randomIndex) = true.
Proof.
  intros Hrange.
  destruct (characters_in_range (randomIndex 0%nat) (Hrange 0%nat ltac:(lia)))
    as (c0 & H0 & Hc0 & Hu0 & Ha0).
  destruct (characters_in_range (randomIndex 1%nat) (Hrange 1%nat ltac:(lia)))
    as (c1 & H1 & Hc1 & Hu1 & Ha1).
  destruct (characters_in_range (randomIndex 2%nat) (Hrange 2%nat ltac:(lia)))
    as (c2 & H2 & Hc2 & Hu2 & Ha2).
  destruct (characters_in_range (randomIndex 3%nat) (Hrange 3%nat ltac:(lia)))
    as (c3 & H3 & Hc3 & Hu3 & Ha3).
  destruct (characters_in_range (randomIndex 4%nat) (Hrange 4%nat ltac:(lia)))
    as (c4 & H4 & Hc4 & Hu4 & Ha4).
  destruct (characters_in_range (randomIndex 5%nat) (Hrange 5%nat ltac:(lia)))
    as (c5 & H5 & Hc5 & Hu5 & Ha5).
  assert (Hcode : generateRoomCode randomIndex
                  = String c0 (String c1 (String c2 (String c3
                      (String c4 (String c5 "")))))).
  { unfold generateRoomCode, appendCharacter. cbn [seq foldl].
    by rewrite H0, H1, H2, H3, H4, H5. }
  assert (Hupper : toUpperCase (generateRoomCode randomIndex)
                   = generateRoomCode randomIndex).
  { rewrite Hcode. rewrite toUpperCase_ascii.
    - unfold asciiUpperCase. cbn [String.list_ascii_of_string map].
      by rewrite Hu0, Hu1, Hu2, Hu3, Hu4, Hu5.
    - unfold isAscii. cbn [String.list_ascii_of_string forallb].
      by rewrite Ha0, Ha1, Ha2, Ha3, Ha4, Ha5. }
  assert (Hclass : forallb (fun c => isUpper c || isDigit c)
                     (String.list_ascii_of_string
                        (generateRoomCode randomIndex)) = true).
  { rewrite Hcode. cbn [String.list_ascii_of_string forallb].
    by rewrite Hc0, Hc1, Hc2, Hc3, Hc4, Hc5. }
  split; [by rewrite Hcode |]. split; [exact Hclass |].
  split; [exact Hupper |]. split.
  - unfold isValidRoomCode. rewrite Hupper, Hclass.
    by rewrite Hcode.
  - unfold matchesJoinRoomPattern.
    replace (length (String.list_ascii_of_string
                       (generateRoomCode randomIndex))) with 6%nat
      by (by rewrite Hcode).
    cbn [Nat.eqb andb].
    eapply forallb_forall. intros c Hc.
    rewrite forallb_forall in Hclass. specialize (Hclass c Hc).
    apply orb_true_iff in Hclass as [Hup | Hdig].
    + by rewrite Hup.
    + rewrite Hdig. apply orb_true_r.
Qed.
End RoomCodes.

Lemma generated_room_code_is_valid_witness :
  String.length (generateRoomCode (fun i => (7 * i)%nat)) = 6%nat
  /\ isValidRoomCode asciiUpperCase (generateRoomCode (fun i => (7 * i)%nat))
     = true.
Proof.
  destruct (generated_room_code_is_valid asciiUpperCase
              (fun s _ => eq_refl) (fun i => (7 * i)%nat))
    as (Hlen & _ & _ & Hvalid & _).
  - intros i Hi. lia.
  - split; [exact Hlen | exact Hvalid].
Defined.

(** The code drawn with the indices 0, 7, 14, 21, 28, 35. *)
Example generateRoomCode_sample :
  generateRoomCode (fun i => (7 * i)%nat) = "AHOV29".
Proof. reflexivity. Qed.

(** ** An invariant rule for the rooms of the server *)

Section RoomInvariant.
Variable cfg : Config.t.
Variable P : Room.t -> Prop.

Hypothesis P_new : forall roomCode now, P (newRoom cfg roomCode now).
Hypothesis P_join :
  forall room playerId socketId,
    P room ->
    P (Room.set_players
         (JsMap.set playerId
            (newPlayer playerId socketId (JsMap.size (Room.players room) =? 0))
            (Room.players room)) room).
Hypothesis P_leave :
  forall room playerId player,
    P room ->
    JsMap.get playerId (Room.players room) = Some player ->
    P (Room.set_players
         (if Player.isHost player
             && (JsMap.size (JsMap.delete playerId (Room.players room)) >? 0)
          then GameGateway.promoteFirst
                 (JsMap.delete playerId (Room.players room))
          else JsMap.delete playerId (Room.players room)) room).
Hypothesis P_drop :
  forall room playerId player,
    P room ->
    JsMap.get playerId (Room.players room) = Some player ->
    P (Room.set_players
         (JsMap.set playerId (Player.set_isConnected false player)
            (Room.players room)) room).
Hypothesis P_name :
  forall room playerId player name,
    P room ->
    JsMap.get playerId (Room.players room) = Some player ->
    existsb
      (fun p => String.eqb (Player.name p) name
                && negb (String.eqb (Player.id p) playerId))
      (JsMap.values (Room.players room)) = false ->
    P (Room.set_players
         (JsMap.set playerId (Player.set_name name player)
            (Room.players room)) room).
Hypothesis P_ready :
  forall room playerId player,
    P room ->
    JsMap.get playerId (Room.players room) = Some player ->
    P (if bool_decide (Room.state room = lobby)
       then Room.set_state waiting_ready
              (Room.set_players
                 (JsMap.set playerId (Player.set_isReady true player)
                    (Room.players room)) room)
       else Room.set_players
              (JsMap.set playerId (Player.set_isReady true player)
                 (Room.players room)) room).
Hypothesis P_start :
  forall roomCode room, P room -> P (fst (startGame_room roomCode room)).
Hypothesis P_guess :
  forall room playerId height,
    P room -> P (submitHeight_room playerId height room).
Hypothesis P_consent :
  forall room playerId, P room -> P (handleRestartConsent_room playerId room).
Hypothesis P_reveal :
  forall roomCode wallHole room,
    P room -> P (fst (endSelectionPeriod_room cfg roomCode wallHole room)).
Hypothesis P_round :
  forall roomCode room, P room -> P (fst (endRound_room roomCode room)).

Let every_room (s : Server.t) : Prop :=
  forall key room, Server.rooms s !! key = Some room -> P room.

Lemma every_room_putRoom key room s :
  every_room s -> P room -> every_room (putRoom key room s).
Proof.
  intros Hs Hroom c r'. cbn.
  destruct (decide (key = c)) as [<- | Hne].
  - rewrite lookup_insert_eq. by intros [= <-].
  - rewrite lookup_insert_ne by done. apply Hs.
Qed.

Lemma every_room_onRoom roomCode (f : Room.t -> Room.t * list Emit) s :
  every_room s -> (forall room, P room -> P (fst (f room))) ->
  every_room (fst (onRoom roomCode f s)).
Proof.
  intros Hs Hf. unfold onRoom.
  destruct (Server.rooms s !! roomCode) as [room |] eqn:Hroom; [| done].
  specialize (Hf room (Hs roomCode room Hroom)). destruct (f room) as [r1 out].
  by apply every_room_putRoom.
Qed.

Lemma every_room_shrink s1 s2 :
  every_room s1 ->
  (forall key room,
     Server.rooms s2 !! key = Some room ->
     Server.rooms s1 !! key = Some room) ->
  every_room s2.
Proof. intros Hs Hsub c r' Hr'. apply (Hs c). by apply Hsub. Qed.

Lemma every_room_joinRoom roomCode playerId socketId s :
  every_room s -> every_room (fst (joinRoom roomCode playerId socketId s)).
Proof.
  intros Hs. unfold joinRoom.
  destruct (Server.rooms s !! roomCode) as [room |] eqn:Hroom; [| done].
  cbn [fst]. eapply every_room_shrink.
  - apply (every_room_putRoom roomCode); [exact Hs |].
    apply P_join. by apply (Hs roomCode).
  - intros c r' Hr'. exact Hr'.
Qed.

Lemma every_room_step a s : every_room s -> every_room (fst (step cfg a s)).
Proof.
  intros Hs.
  destruct a as [client playerId generated now | client roomCode playerId
                | client name | client | client height | client | client
                | roomCode wallHole | roomCode]; cbn [step].
  - unfold GameGateway.handleCreateRoom, createRoom.
    destruct (List.find _ generated) as [roomCode |]; [| done].
    assert (Hnew : every_room
                     (putRoom roomCode (newRoom cfg roomCode now) s))
      by (apply every_room_putRoom; [done | apply P_new]).
    pose proof (every_room_joinRoom roomCode playerId client _ Hnew) as Hjoin.
    destruct (joinRoom roomCode playerId client _) as [s1 joined].
    by destruct joined.
  - unfold GameGateway.handleJoinRoom.
    destruct (getRoom roomCode s); [| done].
    pose proof (every_room_joinRoom roomCode playerId client s Hs) as Hjoin.
    destruct (joinRoom roomCode playerId client s) as [s1 joined].
    by destruct joined.
  - unfold GameGateway.handleSetPlayerName.
    destruct (truthy _) as [playerId |]; [| done].
    destruct (roomKeyOf playerId s) as [key |]; [| done].
    destruct (Server.rooms s !! key) as [room |] eqn:Hroom; [| done].
    destruct (JsMap.get playerId (Room.players room)) as [player |] eqn:Hget;
      [| done].
    destruct (existsb _ _) eqn:Hused; [done |].
    cbn [fst]. apply every_room_putRoom; [done |].
    apply P_name; [by apply (Hs key) | done | done].
  - unfold GameGateway.handlePlayerReady.
    destruct (truthy _) as [playerId |]; [| done].
    destruct (roomKeyOf playerId s) as [key |]; [| done].
    destruct (Server.rooms s !! key) as [room |] eqn:Hroom; [| done].
    destruct (JsMap.get playerId (Room.players room)) as [player |] eqn:Hget;
      [| done].
    destruct (_ || _); [done |].
    cbn zeta.
    pose proof (P_ready room playerId player (Hs key room Hroom) Hget)
      as Hready.
    match goal with
    | |- context [putRoom key ?r s] =>
        assert (Hs1 : every_room (putRoom key r s))
          by (apply every_room_putRoom; [done | exact Hready]);
        set (room2 := r) in *
    end.
    destruct (checkAllPlayersReady _ _); [| exact Hs1].
    unfold startGame.
    pose proof (every_room_onRoom (Room.code room2)
                  (startGame_room (Room.code room2)) _ Hs1) as Hstart.
    destruct (onRoom _ _ _) as [s2 out2]. apply Hstart.
    intros r. apply P_start.
  - unfold GameGateway.handleSelectHeight.
    destruct (truthy _) as [playerId |]; [| done].
    destruct (getRoomByPlayerId playerId s) as [room |]; [| done].
    case_bool_decide; [done |].
    unfold submitHeight.
    pose proof (every_room_onRoom (Room.code room)
      (fun room0 => (submitHeight_room playerId height room0, [])) s Hs)
      as Hsub.
    destruct (onRoom _ _ _) as [s1 out]. apply Hsub.
    intros r. apply P_guess.
  - unfold GameGateway.handleRestartConsent.
    destruct (truthy _) as [playerId |]; [| done].
    destruct (getRoomByPlayerId playerId s) as [room |]; [| done].
    case_bool_decide; [done |].
    unfold handleRestartConsent.
    pose proof (every_room_onRoom (Room.code room)
      (fun room0 => (handleRestartConsent_room playerId room0, [])) s Hs)
      as Hsub.
    destruct (onRoom _ _ _) as [s1 out]. cbn [fst] in Hsub.
    assert (Hs1 : every_room s1) by (apply Hsub; intros r; apply P_consent).
    destruct (getRoomByPlayerId playerId s1); [| exact Hs1].
    by case_bool_decide.
  - unfold GameGateway.handleDisconnect.
    destruct (truthy _) as [playerId |]; [| done].
    destruct (roomKeyOf playerId s) as [key |]; [| done].
    destruct (Server.rooms s !! key) as [room |] eqn:Hroom; [| done].
    destruct (JsMap.get playerId (Room.players room)) as [player |] eqn:Hget;
      [| done].
    destruct (_ || _); cbn [fst].
    + match goal with
      | |- every_room (GameGateway.forgetSocket _ (if _ then _ else ?s1)) =>
          apply (every_room_shrink s1)
      end.
      * apply every_room_putRoom; [done |].
        apply P_leave; [by apply (Hs key) | done].
      * intros c r'. rewrite rooms_forgetSocket.
        destruct (_ =? _); [apply deleteRoom_shrinks | done].
    + match goal with
      | |- every_room (GameGateway.forgetSocket _ (if _ then _ else ?s1)) =>
          apply (every_room_shrink s1)
      end.
      * apply every_room_putRoom; [done |].
        apply P_drop; [by apply (Hs key) | done].
      * intros c r'. rewrite rooms_forgetSocket.
        destruct (forallb _ _); [apply deleteRoom_shrinks | done].
  - apply every_room_onRoom; [done |]. intros r. apply P_reveal.
  - apply every_room_onRoom; [done |]. intros r. apply P_round.
Qed.

Lemma reachable_every_room s key room :
  reachable cfg s -> Server.rooms s !! key = Some room -> P room.
Proof.
  intros Hreach. revert key room.
  induction Hreach as [| a s Hreach IH].
  - intros key room Hroom. cbn in Hroom. by rewrite lookup_empty in Hroom.
  - apply every_room_step. exact IH.
Qed.
End RoomInvariant.

(** ** The roster of a room *)

Lemma JsMap_get_delete_NoDup {V : Type} (k : string)
    (m : list (string * V)) :
  NoDup (JsMap.keys m) -> JsMap.get k (JsMap.delete k m) = None.
Proof.
  intros Hnodup. apply JsMap_get_None. intros Hin.
  induction m as [| [k' v'] m IH]; cbn in *; [by inversion Hin |].
  apply NoDup_cons in Hnodup as [Hfresh Hnodup].
  destruct (String.eqb_spec k k') as [-> | Hne]; [done |].
  cbn in Hin. apply elem_of_cons in Hin as [-> | Hin]; [done |].
  by apply IH.
Qed.

Lemma same_members_refl players : same_members players players.
Proof. split; [done |]. intros k p Hget. by exists p. Qed.

Lemma same_members_trans players1 players2 players3 :
  same_members players1 players2 -> same_members players2 players3 ->
  same_members players1 players3.
Proof.
  intros [Hkeys12 H12] [Hkeys23 H23]. split; [congruence |].
  intros k p3 Hget3.
  destruct (H23 k p3 Hget3) as (p2 & Hget2 & Hid & Hname & Hhost).
  destruct (H12 k p2 Hget2) as (p1 & Hget1 & Hid' & Hname' & Hhost').
  exists p1. repeat split; congruence.
Qed.

Lemma same_members_forEach (f : Player.t -> Player.t) players :
  (forall p, Player.id (f p) = Player.id p
             /\ Player.name (f p) = Player.name p
             /\ Player.isHost (f p) = Player.isHost p) ->
  same_members players (JsMap.forEach f players).
Proof.
  intros Hf. split; [apply JsMap_keys_forEach |].
  intros k p'. rewrite JsMap_get_forEach.
  destruct (JsMap.get k players) as [p |]; [| done].
  intros [= <-]. exists p. split; [done | apply Hf].
Qed.

Lemma same_members_set playerId player player' players :
  JsMap.get playerId players = Some player ->
  Player.id player' = Player.id player ->
  Player.name player' = Player.name player ->
  Player.isHost player' = Player.isHost player ->
  same_members players (JsMap.set playerId player' players).
Proof.
  intros Hget Hid Hname Hhost. split; [by eapply JsMap_keys_set_in |].
  intros k p'. destruct (decide (k = playerId)) as [-> | Hne].
  - rewrite JsMap_get_set_eq. intros [= <-]. by exists player.
  - rewrite JsMap_get_set_ne by done. intros Hk. by exists p'.
Qed.

Lemma roster_ok_same_members players players' :
  roster_ok players -> same_members players players' -> roster_ok players'.
Proof.
  intros (Hnodup & Hid & Hname & Hhost) [Hkeys Hsame].
  split; [by rewrite Hkeys |]. split; [| split].
  - intros k p' Hget. destruct (Hsame k p' Hget) as (p & Hp & Hi & _).
    rewrite Hi. by apply Hid.
  - intros k1 k2 p1 p2 Hget1 Hget2 Hne Heq.
    destruct (Hsame k1 p1 Hget1) as (q1 & Hq1 & _ & Hn1 & _).
    destruct (Hsame k2 p2 Hget2) as (q2 & Hq2 & _ & Hn2 & _).
    rewrite Hn1. apply (Hname k1 k2 q1 q2); [done | done | done | congruence].
  - intros k1 k2 p1 p2 Hget1 Hget2 Hh1 Hh2.
    destruct (Hsame k1 p1 Hget1) as (q1 & Hq1 & _ & _ & Hhost1).
    destruct (Hsame k2 p2 Hget2) as (q2 & Hq2 & _ & _ & Hhost2).
    apply (Hhost k1 k2 q1 q2); congruence.
Qed.

Lemma roster_ok_nil : roster_ok [].
Proof. split; [constructor |]. by repeat split. Qed.

Lemma roster_ok_join playerId socketId players :
  roster_ok players ->
  roster_ok
    (JsMap.set playerId
       (newPlayer playerId socketId (JsMap.size players =? 0)) players).
Proof.
  intros (Hnodup & Hid & Hname & Hhost).
  split; [by apply JsMap_set_NoDup |]. split; [| split].
  - intros k p. destruct (decide (k = playerId)) as [-> | Hne].
    + rewrite JsMap_get_set_eq. by intros [= <-].
    + rewrite JsMap_get_set_ne by done. apply Hid.
  - intros k1 k2 p1 p2.
    destruct (decide (k1 = playerId)) as [-> | Hne1].
    { rewrite JsMap_get_set_eq. by intros [= <-]. }
    rewrite JsMap_get_set_ne by done.
    destruct (decide (k2 = playerId)) as [-> | Hne2].
    { rewrite JsMap_get_set_eq. intros Hget1 [= <-] _ Heq. exact Heq. }
    rewrite JsMap_get_set_ne by done. apply Hname.
  - rewrite JsMap_size_0. intros k1 k2 p1 p2.
    case_bool_decide as Hempty.
    { subst players. cbn.
      destruct (String.eqb_spec k1 playerId) as [-> |]; [| done].
      by destruct (String.eqb_spec k2 playerId) as [-> |]. }
    destruct (decide (k1 = playerId)) as [-> | Hne1].
    { rewrite JsMap_get_set_eq. by intros [= <-]. }
    rewrite JsMap_get_set_ne by done.
    destruct (decide (k2 = playerId)) as [-> | Hne2].
    { rewrite JsMap_get_set_eq. by intros _ [= <-]. }
    rewrite JsMap_get_set_ne by done. apply Hhost.
Qed.

Lemma roster_ok_delete playerId players :
  roster_ok players ->
  roster_ok (JsMap.delete playerId players)
  /\ forall player,
       JsMap.get playerId players = Some player ->
       Player.isHost player = true ->
       forall k p,
         JsMap.get k (JsMap.delete playerId players) = Some p ->
         Player.isHost p = false.
Proof.
  intros (Hnodup & Hid & Hname & Hhost).
  assert (Hget : forall k p,
            JsMap.get k (JsMap.delete playerId players) = Some p ->
            k <> playerId /\ JsMap.get k players = Some p).
  { intros k p. destruct (decide (k = playerId)) as [-> | Hne].
    - by rewrite JsMap_get_delete_NoDup.
    - by rewrite JsMap_get_delete_ne. }
  split.
  - split; [by apply JsMap_delete_NoDup |]. split; [| split].
    + intros k p Hk. apply Hid. by apply Hget.
    + intros k1 k2 p1 p2 Hk1 Hk2.
      apply Hname; by apply Hget.
    + intros k1 k2 p1 p2 Hk1 Hk2. apply Hhost; by apply Hget.
  - intros player Hplayer Hishost k p Hk.
    destruct (Hget k p Hk) as [Hne Hp].
    destruct (Player.isHost p) eqn:Hp_host; [| done].
    destruct Hne. by apply (Hhost k playerId p player).
Qed.

Lemma roster_ok_promoteFirst players :
  roster_ok players ->
  (forall k p, JsMap.get k players = Some p -> Player.isHost p = false) ->
  roster_ok (GameGateway.promoteFirst players).
Proof.
  intros (Hnodup & Hid & Hname & Hhost) Hnone.
  destruct players as [| [k0 p0] rest]; [apply roster_ok_nil |].
  assert (Hset : GameGateway.promoteFirst ((k0, p0) :: rest)
                 = JsMap.set k0 (Player.set_isHost true p0)
                     ((k0, p0) :: rest)).
  { cbn. by rewrite String.eqb_refl. }
  rewrite Hset.
  assert (Hget0 : JsMap.get k0 ((k0, p0) :: rest) = Some p0)
    by (cbn; by rewrite String.eqb_refl).
  split; [by apply JsMap_set_NoDup |]. split; [| split].
  - intros k p. destruct (decide (k = k0)) as [-> | Hne].
    + rewrite JsMap_get_set_eq. intros [= <-]. by apply (Hid k0 p0).
    + rewrite JsMap_get_set_ne by done. apply Hid.
  - intros k1 k2 p1 p2.
    destruct (decide (k1 = k0)) as [-> | Hne1];
      destruct (decide (k2 = k0)) as [-> | Hne2];
      rewrite ?JsMap_get_set_eq, ?JsMap_get_set_ne by done.
    + done.
    + intros [= <-] Hk2. by apply (Hname k0 k2 p0 p2).
    + intros Hk1 [= <-]. by apply (Hname k1 k0 p1 p0).
    + apply Hname.
  - intros k1 k2 p1 p2.
    destruct (decide (k1 = k0)) as [-> | Hne1];
      destruct (decide (k2 = k0)) as [-> | Hne2];
      rewrite ?JsMap_get_set_eq, ?JsMap_get_set_ne by done.
    + done.
    + intros _ Hk2 _ Hh. by rewrite (Hnone k2 p2 Hk2) in Hh.
    + intros Hk1 _ Hh. by rewrite (Hnone k1 p1 Hk1) in Hh.
    + apply Hhost.
Qed.

Lemma JsMap_get_values {V : Type} (k : string) (v : V)
    (m : list (string * V)) :
  JsMap.get k m = Some v -> v ∈ JsMap.values m.
Proof.
  induction m as [| [k' v'] m IH]; cbn; [done |].
  destruct (String.eqb k k').
  - intros [= ->]. apply elem_of_cons. by left.
  - intros Hget. apply elem_of_cons. right. by apply IH.
Qed.

Lemma roster_ok_rename playerId player name players :
  roster_ok players ->
  JsMap.get playerId players = Some player ->
  existsb
    (fun p => String.eqb (Player.name p) name
              && negb (String.eqb (Player.id p) playerId))
    (JsMap.values players) = false ->
  roster_ok (JsMap.set playerId (Player.set_name name player) players).
Proof.
  intros (Hnodup & Hid & Hname & Hhost) Hget Hfree.
  assert (Hother : forall k p,
            JsMap.get k players = Some p -> k <> playerId ->
            Player.name p <> name).
  { intros k p Hk Hne Heq.
    apply not_true_iff_false in Hfree. apply Hfree.
    apply existsb_exists. exists p. split.
    - apply list_elem_of_In. by eapply JsMap_get_values.
    - apply andb_true_iff. split; [by apply String.eqb_eq |].
      apply negb_true_iff, String.eqb_neq. by rewrite (Hid k p Hk). }
  split; [by apply JsMap_set_NoDup |]. split; [| split].
  - intros k p. destruct (decide (k = playerId)) as [-> | Hne].
    + rewrite JsMap_get_set_eq. intros [= <-]. by apply (Hid playerId player).
    + rewrite JsMap_get_set_ne by done. apply Hid.
  - intros k1 k2 p1 p2.
    destruct (decide (k1 = playerId)) as [-> | Hne1];
      destruct (decide (k2 = playerId)) as [-> | Hne2];
      rewrite ?JsMap_get_set_eq, ?JsMap_get_set_ne by done.
    + done.
    + intros [= <-] Hk2 _ Heq. cbn in Heq.
      by destruct (Hother k2 p2 Hk2 Hne2).
    + intros Hk1 [= <-] _ Heq. cbn in Heq.
      by destruct (Hother k1 p1 Hk1 Hne1).
    + apply Hname.
  - intros k1 k2 p1 p2.
    destruct (decide (k1 = playerId)) as [-> | Hne1];
      destruct (decide (k2 = playerId)) as [-> | Hne2];
      rewrite ?JsMap_get_set_eq, ?JsMap_get_set_ne by done.
    + done.
    + intros [= <-] Hk2. by apply (Hhost playerId k2 player p2).
    + intros Hk1 [= <-]. by apply (Hhost k1 playerId p1 player).
    + apply Hhost.
Qed.

Lemma players_clearSelectionTimer room :
  Room.players (clearSelectionTimer room) = Room.players room.
Proof. unfold clearSelectionTimer. by destruct (Room.selectionTimer room). Qed.

Lemma players_clearRevealTimer room :
  Room.players (clearRevealTimer room) = Room.players room.
Proof. unfold clearRevealTimer. by destruct (Room.revealTimer room). Qed.

Lemma startRound_room_players roomCode room :
  Room.players (fst (startRound_room roomCode room))
  = JsMap.forEach (Player.set_currentHeight None) (Room.players room).
Proof.
  unfold startRound_room. cbn.
  by rewrite players_clearRevealTimer, players_clearSelectionTimer.
Qed.

Lemma same_members_startRound roomCode room :
  same_members (Room.players room)
    (Room.players (fst (startRound_room roomCode room))).
Proof. rewrite startRound_room_players. by apply same_members_forEach. Qed.

Lemma same_members_submitHeight playerId height room :
  same_members (Room.players room)
    (Room.players (submitHeight_room playerId height room)).
Proof.
  unfold submitHeight_room.
  case_bool_decide; [apply same_members_refl |].
  destruct (JsMap.get playerId (Room.players room)) as [player |] eqn:Hget;
    [| apply same_members_refl].
  by apply (same_members_set playerId player).
Qed.

Lemma same_members_handleRestartConsent playerId room :
  same_members (Room.players room)
    (Room.players (handleRestartConsent_room playerId room)).
Proof.
  unfold handleRestartConsent_room.
  case_bool_decide; [apply same_members_refl |].
  cbn zeta. destruct (checkAllRestartConsents_room _);
    [| apply same_members_refl].
  cbn. by apply same_members_forEach.
Qed.

Lemma same_members_endSelectionPeriod cfg roomCode wallHole room :
  same_members (Room.players room)
    (Room.players (fst (endSelectionPeriod_room cfg roomCode wallHole room))).
Proof.
  destruct (decide (Room.state room = selection)) as [Hstate | Hstate].
  - destruct (endSelectionPeriod_room_selection cfg roomCode wallHole room
                Hstate) as (-> & _).
    apply same_members_forEach. intros p.
    pose proof (f_equal fst (revealed_player cfg wallHole p)) as Hrev.
    cbn [fst] in Hrev. by rewrite Hrev.
  - unfold endSelectionPeriod_room.
    rewrite bool_decide_eq_true_2 by done. apply same_members_refl.
Qed.

Lemma same_members_endRound roomCode room :
  same_members (Room.players room)
    (Room.players (fst (endRound_room roomCode room))).
Proof.
  unfold endRound_room. case_bool_decide; [apply same_members_refl |].
  cbn zeta. destruct (_ >=? _).
  - cbn. rewrite players_clearRevealTimer, players_clearSelectionTimer.
    cbn. rewrite players_clearRevealTimer. apply same_members_refl.
  - rewrite (surjective_pairing (startRound_room _ _)). cbn [fst].
    rewrite startRound_room_players. cbn.
    rewrite players_clearRevealTimer. by apply same_members_forEach.
Qed.

Lemma reachable_roster_ok cfg s key room :
  reachable cfg s -> Server.rooms s !! key = Some room ->
  roster_ok (Room.players room).
Proof.
  apply (reachable_every_room cfg (fun room => roster_ok (Room.players room))).
  - intros roomCode now. apply roster_ok_nil.
  - intros r playerId socketId Hr. by apply roster_ok_join.
  - intros r playerId player Hr Hget. cbn.
    destruct (roster_ok_delete playerId _ Hr) as [Hdel Hnone].
    destruct (Player.isHost player) eqn:Hhost; [| exact Hdel].
    destruct (_ >? _); [| exact Hdel].
    apply roster_ok_promoteFirst; [exact Hdel |]. by apply (Hnone player).
  - intros r playerId player Hr Hget. cbn.
    eapply roster_ok_same_members; [exact Hr |].
    by apply (same_members_set playerId player).
  - intros r playerId player name Hr Hget Hfree. cbn.
    by apply roster_ok_rename.
  - intros r playerId player Hr Hget.
    eapply roster_ok_same_members; [exact Hr |].
    case_bool_decide; cbn; by apply (same_members_set playerId player).
  - intros roomCode r Hr. unfold startGame_room.
    eapply roster_ok_same_members; [exact Hr |].
    rewrite startRound_room_players. cbn. by apply same_members_forEach.
  - intros r playerId height Hr.
    eapply roster_ok_same_members; [exact Hr |].
    apply same_members_submitHeight.
  - intros r playerId Hr.
    eapply roster_ok_same_members; [exact Hr |].
    apply same_members_handleRestartConsent.
  - intros roomCode wallHole r Hr.
    eapply roster_ok_same_members; [exact Hr |].
    apply same_members_endSelectionPeriod.
  - intros roomCode r Hr.
    eapply roster_ok_same_members; [exact Hr |].
    apply same_members_endRound.
Qed.

(** ** Rounds and phases *)

Section Rounds.
Variable cfg : Config.t.
Hypothesis some_round : 1 <= Config.get (Config.maxRounds cfg) 10.

Local Ltac round_ok_fields room :=
  destruct room as [c ps st cr mr t1 t2 sd rd wh rc ca];
  unfold round_ok in *; cbn in *.

Local Ltac round_ok_solve :=
  repeat match goal with
         | H : _ /\ _ |- _ => destruct H
         end;
  simplify_eq;
  repeat match goal with
         | H : ?a = ?a \/ _ -> _ |- _ => specialize (H (or_introl eq_refl))
         | H : _ \/ ?a = ?a -> _ |- _ => specialize (H (or_intror eq_refl))
         | H : ?a = ?a -> _ |- _ => specialize (H eq_refl)
         end;
  repeat split; intros;
  repeat match goal with
         | H : _ \/ _ |- _ => destruct H
         end;
  simplify_eq; auto; try lia.

Lemma round_ok_set_players players room :
  round_ok cfg room -> round_ok cfg (Room.set_players players room).
Proof. intros Hr. round_ok_fields room. exact Hr. Qed.

Lemma round_ok_startRound roomCode room :
  round_ok cfg (Room.set_state selection room) ->
  round_ok cfg (fst (startRound_room roomCode room)).
Proof.
  intros Hr. unfold startRound_room, clearSelectionTimer, clearRevealTimer.
  round_ok_fields room.
  destruct t1, t2; cbn; round_ok_solve.
Qed.

Lemma round_ok_startGame roomCode room :
  round_ok cfg room -> round_ok cfg (fst (startGame_room roomCode room)).
Proof.
  intros Hr. unfold startGame_room. apply round_ok_startRound.
  round_ok_fields room. round_ok_solve.
Qed.

Lemma round_ok_submitHeight playerId height room :
  round_ok cfg room -> round_ok cfg (submitHeight_room playerId height room).
Proof.
  intros Hr. unfold submitHeight_room. case_bool_decide; [done |].
  destruct (JsMap.get _ _); [| done]. by apply round_ok_set_players.
Qed.

Lemma round_ok_handleRestartConsent playerId room :
  round_ok cfg room ->
  round_ok cfg (handleRestartConsent_room playerId room).
Proof.
  intros Hr. unfold handleRestartConsent_room. case_bool_decide; [done |].
  cbn zeta. destruct (checkAllRestartConsents_room _).
  - unfold restartGame_room. round_ok_fields room. round_ok_solve.
  - round_ok_fields room. exact Hr.
Qed.

Lemma round_ok_endSelectionPeriod roomCode wallHole room :
  round_ok cfg room ->
  round_ok cfg (fst (endSelectionPeriod_room cfg roomCode wallHole room)).
Proof.
  intros Hr. unfold endSelectionPeriod_room. case_bool_decide as Hst; [done |].
  assert (Hstate : Room.state room = selection)
    by (destruct (Room.state room); done || by destruct Hst).
  unfold calculateResults_room, clearSelectionTimer.
  round_ok_fields room. destruct t1; cbn; round_ok_solve.
Qed.

Lemma round_ok_endRound roomCode room :
  round_ok cfg room -> round_ok cfg (fst (endRound_room roomCode room)).
Proof.
  intros Hr. unfold endRound_room. case_bool_decide as Hst; [done |].
  assert (Hstate : Room.state room = revealing)
    by (destruct (Room.state room); done || by destruct Hst).
  cbn zeta. destruct (_ >=? _) eqn:Hlast.
  - apply Z.geb_le in Hlast.
    unfold endGame_room, clearSelectionTimer, clearRevealTimer in *.
    round_ok_fields room. destruct t1, t2; cbn in *; round_ok_solve.
  - rewrite (surjective_pairing (startRound_room _ _)). cbn [fst].
    apply round_ok_startRound.
    rewrite Z.geb_leb in Hlast. apply Z.leb_gt in Hlast.
    unfold clearRevealTimer in *.
    round_ok_fields room. destruct t2; cbn in *; round_ok_solve.
Qed.

Lemma reachable_round_ok s key room :
  reachable cfg s -> Server.rooms s !! key = Some room -> round_ok cfg room.
Proof.
  apply (reachable_every_room cfg (round_ok cfg)).
  - intros roomCode now. unfold round_ok, newRoom. cbn.
    repeat split; intros; simplify_eq; auto; try lia.
    destruct H; discriminate.
  - intros r playerId socketId Hr. by apply round_ok_set_players.
  - intros r playerId player Hr Hget. by apply round_ok_set_players.
  - intros r playerId player Hr Hget. by apply round_ok_set_players.
  - intros r playerId player name Hr Hget Hfree. by apply round_ok_set_players.
  - intros r playerId player Hr Hget. case_bool_decide as Hst.
    + round_ok_fields r. round_ok_solve.
    + by apply round_ok_set_players.
  - intros roomCode r. apply round_ok_startGame.
  - intros r playerId height. apply round_ok_submitHeight.
  - intros r playerId. apply round_ok_handleRestartConsent.
  - intros roomCode wallHole r. apply round_ok_endSelectionPeriod.
  - intros roomCode r. apply round_ok_endRound.
Qed.
End Rounds.

(** ** Invariants of every reachable room *)

Lemma JsMap_lookup_key {V : Type} (m : list (string * V)) i k v :
  m !! i = Some (k, v) -> JsMap.keys m !! i = Some k.
Proof.
  intros Hi. unfold JsMap.keys. change (map ?f ?l) with (f <$> l).
  by rewrite list_lookup_fmap, Hi.
Qed.

Lemma JsMap_lookup_get {V : Type} (m : list (string * V)) i k v :
  NoDup (JsMap.keys m) -> m !! i = Some (k, v) -> JsMap.get k m = Some v.
Proof.
  revert i. induction m as [| [k' v'] m IH]; intros i Hnodup Hi; [done |].
  cbn in Hnodup. apply NoDup_cons in Hnodup as [Hfresh Hnodup].
  destruct i as [| i]; cbn in Hi.
  - simplify_eq. cbn. by rewrite String.eqb_refl.
  - cbn. destruct (String.eqb_spec k k') as [-> | Hne]; [| by eapply IH].
    destruct Hfresh. apply list_elem_of_lookup. exists i.
    by eapply JsMap_lookup_key.
Qed.

(** X19: in every room of every reachable state, each roster entry is
    stored under the id of its player, no two entries carry the same
    player id, and no two entries carry the same non-empty name. *)
Theorem roster_ids_and_names_are_distinct
    (cfg : Config.t) (s : Server.t) (key : string) (room : Room.t)
    (i j : nat) (k1 k2 : string) (p1 p2 : Player.t) :
  reachable cfg s ->
  Server.rooms s !! key = Some room ->
  Room.players room !! i = Some (k1, p1) ->
  Room.players room !! j = Some (k2, p2) ->
  Player.id p1 = k1
  /\ (i <> j ->
      Player.id p1 <> Player.id p2
      /\ (Player.name p1 <> "" -> Player.name p1 <> Player.name p2)).
Proof.
  intros Hreach Hroom Hi Hj.
  destruct (reachable_roster_ok cfg s key room Hreach Hroom)
    as (Hnodup & Hid & Hname & _).
  pose proof (JsMap_lookup_get _ _ _ _ Hnodup Hi) as Hget1.
  pose proof (JsMap_lookup_get _ _ _ _ Hnodup Hj) as Hget2.
  split; [by apply Hid |]. intros Hij.
  assert (Hkeys : k1 <> k2).
  { intros <-. apply Hij.
    eapply NoDup_lookup; [exact Hnodup | |]; by eapply JsMap_lookup_key. }
  split.
  - by rewrite (Hid _ _ Hget1), (Hid _ _ Hget2).
  - intros Hnamed Heq. apply Hnamed. by apply (Hname k1 k2 p1 p2).
Qed.

Lemma roster_ids_and_names_are_distinct_witness :
  Player.id (Player.mk "p1" "s1" "Ana" true true 0 (Some 7) true) = "p1"
  /\ (0%nat <> 1%nat ->
      "p1" <> "p2" /\ ("Ana" <> "" -> "Ana" <> "Beto")).
Proof.
  apply (roster_ids_and_names_are_distinct Config.defaults Scenario.started
           "ABC123" Scenario.startedRoom 0 1 "p1" "p2"
           (Player.mk "p1" "s1" "Ana" true true 0 (Some 7) true)
           (Player.mk "p2" "s2" "Beto" true false 0 None true)).
  - apply reachable_run. constructor.
  - vm_compute. reflexivity.
  - reflexivity.
  - reflexivity.
Defined.

(** X20: in every room of every reachable state at most one roster
    entry is flagged as host. *)
Theorem room_has_at_most_one_host
    (cfg : Config.t) (s : Server.t) (key : string) (room : Room.t)
    (i j : nat) (k1 k2 : string) (p1 p2 : Player.t) :
  reachable cfg s ->
  Server.rooms s !! key = Some room ->
  Room.players room !! i = Some (k1, p1) ->
  Room.players room !! j = Some (k2, p2) ->
  Player.isHost p1 = true -> Player.isHost p2 = true ->
  i = j.
Proof.
  intros Hreach Hroom Hi Hj Hhost1 Hhost2.
  destruct (reachable_roster_ok cfg s key room Hreach Hroom)
    as (Hnodup & _ & _ & Hhost).
  pose proof (JsMap_lookup_get _ _ _ _ Hnodup Hi) as Hget1.
  pose proof (JsMap_lookup_get _ _ _ _ Hnodup Hj) as Hget2.
  assert (k1 = k2) as <- by by apply (Hhost k1 k2 p1 p2).
  eapply NoDup_lookup; [exact Hnodup | |]; by eapply JsMap_lookup_key.
Qed.

Lemma room_has_at_most_one_host_witness : 0%nat = 0%nat.
Proof.
  apply (room_has_at_most_one_host Config.defaults Scenario.started
           "ABC123" Scenario.startedRoom 0 0 "p1" "p1"
           (Player.mk "p1" "s1" "Ana" true true 0 (Some 7) true)
           (Player.mk "p1" "s1" "Ana" true true 0 (Some 7) true)).
  - apply reachable_run. constructor.
  - vm_compute. reflexivity.
  - reflexivity.
  - reflexivity.
  - reflexivity.
  - reflexivity.
Defined.

(** X21: when the configured number of rounds is at least 1, every room
    of every reachable state keeps the configuration it was created
    with (number of rounds, selection and reveal durations), an armed
    deadline is the one of its kind with the configured delay, the
    phase is never waiting-restart, the round counter is 0 in lobby and
    waiting-ready, between 1 and the number of rounds in selection and
    revealing, and equal to the number of rounds in game-over. *)
Theorem rounds_and_phases_agree
    (cfg : Config.t) (s : Server.t) (key : string) (room : Room.t) :
  1 <= Config.get (Config.maxRounds cfg) 10 ->
  reachable cfg s ->
  Server.rooms s !! key = Some room ->
  Room.maxRounds room = Config.get (Config.maxRounds cfg) 10
  /\ Room.selectionDuration room
     = Config.get (Config.selectionDuration cfg) 15
  /\ Room.revealDuration room = Config.get (Config.revealDuration cfg) 5
  /\ (forall t,
        Room.selectionTimer room = Some t ->
        t = {| callback := CallEndSelectionPeriod;
               delayMs :=
                 Config.get (Config.selectionDuration cfg) 15 * 1000 |})
  /\ (forall t,
        Room.revealTimer room = Some t ->
        t = {| callback := CallEndRound;
               delayMs := Config.get (Config.revealDuration cfg) 5 * 1000 |})
  /\ match Room.state room with
     | lobby | waiting_ready => Room.currentRound room = 0
     | selection | revealing =>
         1 <= Room.currentRound room <= Room.maxRounds room
     | game_over => Room.currentRound room = Room.maxRounds room
     | waiting_restart => False
     end.
Proof.
  intros Hsome Hreach Hroom.
  destruct (reachable_round_ok cfg Hsome s key room Hreach Hroom)
    as (Hmax & Hsel & Hrev & Ht1 & Ht2 & Hnever & Hidle & Htimed & Hover).
  split; [exact Hmax |]. split; [exact Hsel |]. split; [exact Hrev |].
  split; [by rewrite <- Hsel |]. split; [by rewrite <- Hrev |].
  destruct (Room.state room); auto.
Qed.

Lemma rounds_and_phases_agree_witness :
  1 <= Room.currentRound Scenario.startedRoom
    <= Room.maxRounds Scenario.startedRoom.
Proof.
  destruct (rounds_and_phases_agree Config.defaults Scenario.started
              "ABC123" Scenario.startedRoom) as (_ & _ & _ & _ & _ & Hround).
  - cbn. lia.
  - apply reachable_run. constructor.
  - vm_compute. reflexivity.
  - exact Hround.
Defined.

(** ** The player index after a departure *)

(** X22: in every reachable state, when a roster member of a room in
    lobby or waiting-ready loses the connection, the gateway removes the
    player from the roster without going through [removePlayer]: the
    player index is left exactly as it was, so the departed player is
    still indexed under the room; [getRoomByPlayerId] then finds the
    room, whose roster no longer has the player, or nothing when the
    room was deleted with its last member. *)
Theorem departure_keeps_player_index
    (cfg : Config.t) (client : string) (s : Server.t) (playerId key : string)
    (room : Room.t) (player : Player.t) :
  reachable cfg s ->
  truthy (Server.socketPlayerMap s !! client) = Some playerId ->
  roomKeyOf playerId s = Some key ->
  Server.rooms s !! key = Some room ->
  JsMap.get playerId (Room.players room) = Some player ->
  Room.state room = lobby \/ Room.state room = waiting_ready ->
  let after := fst (GameGateway.handleDisconnect client s) in
  Server.playerRoomMap after = Server.playerRoomMap s
  /\ roomKeyOf playerId after = Some key
  /\ (JsMap.delete playerId (Room.players room) = [] ->
      getRoomByPlayerId playerId after = None)
  /\ (JsMap.delete playerId (Room.players room) <> [] ->
      exists room',
        getRoomByPlayerId playerId after = Some room'
        /\ JsMap.get playerId (Room.players room') = None).
Proof.
  intros Hreach Hsock Hkey Hroom Hget Hphase after.
  destruct (reachable_registry_ok cfg s Hreach key room Hroom) as [Hcode Hnd].
  subst after.
  rewrite (handleDisconnect_before_game client s playerId key room player)
    by done.
  cbn zeta. rewrite Hcode.
  set (remaining := JsMap.delete playerId (Room.players room)).
  set (roster := if Player.isHost player && (JsMap.size remaining >? 0)
                 then GameGateway.promoteFirst remaining else remaining).
  assert (Hroster : roster = [] <-> remaining = []).
  { subst roster.
    destruct remaining as [| [k p] rest]; [by rewrite andb_false_r |].
    by destruct (Player.isHost player). }
  assert (Hgone : JsMap.get playerId roster = None).
  { subst roster. destruct (_ && _).
    - apply JsMap_get_None. rewrite promoteFirst_keys.
      apply JsMap_get_None. by apply JsMap_get_delete_eq.
    - by apply JsMap_get_delete_eq. }
  rewrite JsMap_size_0.
  case_bool_decide as Hempty.
  - assert (Hindex :
      Server.playerRoomMap
        (deleteRoom key (putRoom key (Room.set_players roster room) s))
      = Server.playerRoomMap s).
    { unfold deleteRoom. cbn. rewrite lookup_insert_eq. cbn.
      by rewrite Hempty. }
    split; [exact Hindex |].
    split; [unfold roomKeyOf; cbn; by rewrite Hindex |].
    split.
    + intros _. unfold getRoomByPlayerId, roomKeyOf. cbn.
      rewrite Hindex. fold (roomKeyOf playerId s). rewrite Hkey.
      rewrite rooms_deleteRoom. apply lookup_delete_eq.
    + intros Hne. destruct Hne. by apply Hroster.
  - split; [done |]. split; [exact Hkey |]. split.
    + intros Hnil. destruct Hempty. by apply Hroster.
    + intros _. exists (Room.set_players roster room).
      unfold getRoomByPlayerId.
      change (roomKeyOf playerId (GameGateway.forgetSocket client ?s0))
        with (roomKeyOf playerId s).
      rewrite Hkey. cbn. rewrite lookup_insert_eq. by split.
Qed.

Lemma departure_keeps_player_index_witness :
  Server.playerRoomMap
    (fst (GameGateway.handleDisconnect "s1" Scenario.lobbyOfTwo))
  = Server.playerRoomMap Scenario.lobbyOfTwo.
Proof.
  destruct (departure_keeps_player_index Scenario.smallRooms "s1"
              Scenario.lobbyOfTwo "p1" "ABC123" Scenario.lobbyRoom
              (newPlayer "p1" "s1" true)) as [Hindex _].
  - apply reachable_run. constructor.
  - vm_compute. reflexivity.
  - vm_compute. reflexivity.
  - vm_compute. reflexivity.
  - reflexivity.
  - left. reflexivity.
  - exact Hindex.
Defined.

(** ** Disarming the deadlines of a room *)

(** X23: [cleanupRoomTimers] sends nothing; on a registered room it
    leaves both deadlines disarmed and every other field of the room,
    every other room and both indexes as they were; on an unknown room
    code it changes nothing. *)
Theorem cleanupRoomTimers_disarms_only (roomCode : string) (s : Server.t) :
  let after := fst (cleanupRoomTimers roomCode s) in
  snd (cleanupRoomTimers roomCode s) = []
  /\ Server.playerRoomMap after = Server.playerRoomMap s
  /\ Server.socketPlayerMap after = Server.socketPlayerMap s
  /\ (forall c, c <> roomCode -> Server.rooms after !! c = Server.rooms s !! c)
  /\ Server.rooms after !! roomCode
     = (fun room =>
          Room.mk (Room.code room) (Room.players room) (Room.state room)
            (Room.currentRound room) (Room.maxRounds room) None None
            (Room.selectionDuration room) (Room.revealDuration room)
            (Room.currentWallHole room) (Room.restartConsents room)
            (Room.createdAt room))
       <$> Server.rooms s !! roomCode.
Proof.
  unfold cleanupRoomTimers, onRoom.
  destruct (Server.rooms s !! roomCode) as [room |] eqn:Hroom; cbn.
  - repeat split; [by intros c Hc; rewrite lookup_insert_ne |].
    rewrite lookup_insert_eq. f_equal.
    unfold clearRevealTimer, clearSelectionTimer.
    by destruct room as [c ps st cr mr [t1 |] [t2 |] sd rd wh rc ca].
  - repeat split. exact Hroom.
Qed.
